(** * Session orchestration of the synthetic depression-screening generator

    A shallow embedding of the control logic of [synthetic_datagen]:
    the turn-budget planner and the dialogue loop of
    [run_patient_doctor_session] (generation/session_runner.py), the
    manager-output parsers (generation/manager_logic.py), the profile sampler
    (generation/profile_generation.py), the facet selection and the parser
    of the background writer (generation/background_writer.py), the agent
    identifier and the sampler of the doctor's microstyle
    (prompts/doctor_personas.py).

    Conventions.
    - Python [int] is [Z].  The [float]s of the planner (1.5, 2.0, 2.5,
      0.5, 3.0) are dyadic rationals of small size and are modelled exactly
      as [Q].  The sampling weights are the decimal literals of the source
      read as rationals, and [choices] computes with them exactly, where
      Python rounds to doubles: at a draw that falls on the boundary between
      two items the element picked may differ.  The theorems below hold
      whichever element a weighted draw picks, and the examples on concrete
      tapes draw away from those boundaries.
    - Python [str] is [string]; a character is a code point below 256.
    - A [dict] with a fixed key set is a record, other dicts are [gmap]s.
    - The language-model calls are opaque: every reply is an arbitrary
      string supplied by an environment.  The prompts, which only feed
      those calls, the console output and the token accounting are left out.
    - [json.loads] is a parameter of the development ([None] stands for
      [json.JSONDecodeError]).
    - An uncaught Python exception is the [Raise] outcome. *)

From Stdlib Require Import ZArith QArith Qround Qminmax Lia Ascii.
From stdpp Require Import base list strings gmap sorting.

#[local] Set Warnings "-register-all".
Local Open Scope Z_scope.

(** ** Python primitives *)

Module Py.

(** Uncaught exceptions that the modelled code can raise. *)
Inductive exn :=
| AttributeError | KeyError | TypeError | NameError | IndexError | ValueError.

Inductive result (A : Type) :=
| Ok (a : A)
| Raise (e : exn).
Arguments Ok {A} a.
Arguments Raise {A} e.

Definition rbind {A B} (m : result A) (f : A -> result B) : result B :=
  match m with
  | Ok a => f a
  | Raise e => Raise e
  end.

(** [str.isspace] on the code points below 256. *)
Definition isspace (c : ascii) : bool :=
  existsb (Nat.eqb (nat_of_ascii c))
    [9; 10; 11; 12; 13; 28; 29; 30; 31; 32; 133; 160]%nat.

Fixpoint lstrip (s : string) : string :=
  match s with
  | EmptyString => EmptyString
  | String c r => if isspace c then lstrip r else s
  end.

Definition reverse (s : string) : string :=
  String.string_of_list_ascii (rev (String.list_ascii_of_string s)).

Definition rstrip (s : string) : string := reverse (lstrip (reverse s)).

(** [s.strip()] *)
Definition strip (s : string) : string := rstrip (lstrip s).

(** [s.startswith(p)] and [s.endswith(p)] *)
Definition startswith (s p : string) : bool := String.prefix p s.
Definition endswith (s p : string) : bool :=
  String.prefix (reverse p) (reverse s).

(** [s[n:]] and [s[:-n]] (for [n > 0]). *)
Fixpoint slice_from (n : nat) (s : string) : string :=
  match n, s with
  | O, _ => s
  | S n', String _ r => slice_from n' r
  | S _, EmptyString => EmptyString
  end.

Definition slice_to_minus (n : nat) (s : string) : string :=
  String.substring 0 (String.length s - n) s.

(** [needle in haystack] on strings. *)
Fixpoint contains (needle haystack : string) : bool :=
  String.prefix needle haystack
  || match haystack with
     | EmptyString => false
     | String _ r => contains needle r
     end.

(** [sep.join(parts)] *)
Fixpoint join (sep : string) (parts : list string) : string :=
  match parts with
  | [] => EmptyString
  | [p] => p
  | p :: rest => String.append p (String.append sep (join sep rest))
  end.

(** [l.remove(x)]: drops the first occurrence. *)
Fixpoint list_remove (x : string) (l : list string) : list string :=
  match l with
  | [] => []
  | y :: r => if String.eqb x y then r else y :: list_remove x r
  end.

(** Values produced by [json.loads]. *)
Inductive json :=
| JNull
| JBool (b : bool)
| JNum (q : Q)
| JStr (s : string)
| JArr (items : list json)
| JObj (fields : list (string * json)).

(** Python truthiness of a decoded value. *)
Definition truthy (v : json) : bool :=
  match v with
  | JNull => false
  | JBool b => b
  | JNum q => negb (Qeq_bool q 0)
  | JStr s => negb (String.eqb s EmptyString)
  | JArr l => match l with [] => false | _ => true end
  | JObj l => match l with [] => false | _ => true end
  end.

(** [v == s] for a string literal [s]. *)
Definition eq_str (v : json) (s : string) : bool :=
  match v with
  | JStr t => String.eqb t s
  | _ => false
  end.

(** [v in pool] for a list of strings. *)
Definition in_pool (v : json) (pool : list string) : bool :=
  existsb (eq_str v) pool.

(** [d.get(k, default)] on the items of a decoded object. *)
Fixpoint dict_get (k : string) (fields : list (string * json)) (default : json)
  : json :=
  match fields with
  | [] => default
  | (k', v) :: r => if String.eqb k k' then v else dict_get k r default
  end.

(** [v.get(k, default)]: only a dict has the method. *)
Definition get (v : json) (k : string) (default : json) : result json :=
  match v with
  | JObj fields => Ok (dict_get k fields default)
  | _ => Raise AttributeError
  end.

(** [v.strip()]: only a string has the method. *)
Definition json_strip (v : json) : result string :=
  match v with
  | JStr s => Ok (strip s)
  | _ => Raise AttributeError
  end.

End Py.

Import Py.

#[global] Instance result_ret : MRet result := @Ok.
#[global] Instance result_bind : MBind result := fun A B f m => rbind m f.

(** ** config.py *)

Definition PACING_TARGETS : list (string * Q) :=
  [("brisk"%string, 3 # 2); ("med"%string, 2 # 1); ("slow"%string, 5 # 2)]%Q.

Definition EXTENDED_PACING_PERSONAS : list string :=
  ["very_warm_chatty"; "trauma_informed_slow"]%string.

Definition NUM_DSM_ITEMS : Z := 9.
Definition BUFFER_TURNS : Z := 5.

(** ** data/questionnaire.py *)

Definition DSM_ITEMS : list string :=
  [ "Depressed mood";
    "Loss of interest or pleasure";
    "Significant weight/appetite changes";
    "Sleep disturbances";
    "Psychomotor agitation or retardation";
    "Fatigue or loss of energy";
    "Feelings of worthlessness or excessive guilt";
    "Difficulty concentrating or indecisiveness";
    "Recurrent thoughts of death or suicide" ]%string.

(** ** Turn-budget planner (session_runner.py, lines 626-641) *)

Fixpoint table_get {V} (k : string) (t : list (string * V)) (default : V) : V :=
  match t with
  | [] => default
  | (k', v) :: r => if String.eqb k k' then v else table_get k r default
  end.

Definition str_in (x : string) (l : list string) : bool :=
  existsb (String.eqb x) l.

Module Planner.

(** [base_target = PACING_TARGETS.get(microstyle_pacing, 2.0)] *)
Definition base_target (microstyle_pacing : string) : Q :=
  table_get microstyle_pacing PACING_TARGETS (2 # 1)%Q.

Definition target_turns_per_symptom
  (microstyle_pacing doctor_persona_id : string) : Q :=
  if str_in doctor_persona_id EXTENDED_PACING_PERSONAS
  then Qmin (base_target microstyle_pacing + (1 # 2)) (3 # 1)
  else base_target microstyle_pacing.

(** [math.ceil(target_turns_per_symptom * NUM_DSM_ITEMS)] *)
Definition base_turn_budget (microstyle_pacing doctor_persona_id : string) : Z :=
  Qceiling (target_turns_per_symptom microstyle_pacing doctor_persona_id
            * inject_Z NUM_DSM_ITEMS).

Definition max_doctor_turns (microstyle_pacing doctor_persona_id : string) : Z :=
  base_turn_budget microstyle_pacing doctor_persona_id + BUFFER_TURNS + 1.

Definition dsm_turn_budget (microstyle_pacing doctor_persona_id : string) : Z :=
  base_turn_budget microstyle_pacing doctor_persona_id.

End Planner.

(** ** generation/manager_logic.py *)

(** Decision of the doctor manager ([parse_doctor_manager_output]).  The
    fields read from the decoded object keep whatever type the model put
    there; [doctor_instruction] is a string once the parser returns. *)
Record DoctorDecision := mkDoctorDecision {
  next_action : json;
  reason : json;
  doctor_instruction : string;
  dsm_symptom_key : json
}.

(** Decision of the post-DSM manager ([parse_post_dsm_manager_output]). *)
Record PostDsmDecision := mkPostDsmDecision {
  post_next_action : json;
  post_reason : json;
  post_doctor_instruction : string
}.

(** Guidance of the patient manager ([parse_patient_manager_output]). *)
Record Guidance := mkGuidance {
  directness : json;
  disclosure_stage : json;
  target_length : json;
  emotional_state : json;
  tone_tags : json;
  key_points_to_reveal : json;
  key_points_to_avoid : json;
  patient_instruction : json
}.

Section ManagerLogic.

(** [json.loads]; [None] is [json.JSONDecodeError]. *)
Variable json_loads : string -> option json.
(** [str(v)], as an f-string applies it to a decoded value. *)
Variable py_str : json -> string.

(** The fence-stripping lines that open every parser. *)
Definition strip_code_fences (text : string) : string :=
  let cleaned := strip text in
  let cleaned :=
    if startswith cleaned "```json" then slice_from 7 cleaned else cleaned in
  let cleaned :=
    if startswith cleaned "```" then slice_from 3 cleaned else cleaned in
  let cleaned :=
    if endswith cleaned "```" then slice_to_minus 3 cleaned else cleaned in
  strip cleaned.

(** [manager_decision.get("doctor_instruction", "") or ""], followed by
    the [.strip()] test: the value itself, and whether it is blank. *)
Definition instruction_or_empty (v : json) : result (string * bool) :=
  let v := if truthy v then v else JStr EmptyString in
  match v with
  | JStr s => Ok (s, String.eqb (strip s) EmptyString)
  | _ => Raise AttributeError
  end.

(** [random.choice(seq)] on the module-level generator: the element at
    an index below [len(seq)] fixed by the draw. *)
Definition random_choice (draw : nat) (seq : list string) : string :=
  nth (draw mod length seq) seq EmptyString.

Definition parse_doctor_manager_output
  (manager_output : string) (dsm_symptom_keys : list string) (draw : nat)
  : result DoctorDecision :=
  match json_loads (strip_code_fences manager_output) with
  | Some manager_decision =>
      next_action ← get manager_decision "next_action" (JStr "DSM");
      reason ← get manager_decision "reason" (JStr EmptyString);
      raw ← get manager_decision "doctor_instruction" (JStr EmptyString);
      dsm_symptom_key ← get manager_decision "dsm_symptom_key" (JStr EmptyString);
      checked ← instruction_or_empty raw;
      let '(doctor_instruction, blank) := (checked : string * bool) in
      let doctor_instruction :=
        if blank then
          if eq_str next_action "DSM" then
            "Transition naturally to asking about "
            +:+ (if truthy dsm_symptom_key then py_str dsm_symptom_key
                 else "the next symptom area") +:+ "."
          else if eq_str next_action "FOLLOW_UP" then
            "Follow up on what the patient just said."
          else "Connect with the patient as a person."
        else doctor_instruction in
      Ok (mkDoctorDecision next_action reason doctor_instruction dsm_symptom_key)
  | None =>
      match dsm_symptom_keys with
      | _ :: _ =>
          let fallback_key := random_choice draw dsm_symptom_keys in
          Ok (mkDoctorDecision (JStr "DSM")
                (JStr "Doctor manager returned invalid JSON, using fallback")
                ("Ask about " +:+ fallback_key +:+ ".")
                (JStr fallback_key))
      | [] =>
          Ok (mkDoctorDecision (JStr "FOLLOW_UP")
                (JStr "Doctor manager returned invalid JSON, using follow-up fallback")
                "Follow up on what the patient just said."
                (JStr EmptyString))
      end
  end.

Definition parse_post_dsm_manager_output (manager_output : string)
  : result PostDsmDecision :=
  match json_loads (strip_code_fences manager_output) with
  | Some manager_decision =>
      next_action ← get manager_decision "next_action" (JStr "END");
      reason ← get manager_decision "reason" (JStr EmptyString);
      raw ← get manager_decision "doctor_instruction" (JStr EmptyString);
      checked ← instruction_or_empty raw;
      let '(doctor_instruction, blank) := (checked : string * bool) in
      let doctor_instruction :=
        if blank then
          if eq_str next_action "END" then "Wrap up the visit warmly."
          else if eq_str next_action "FOLLOW_UP" then
            "Follow up on what the patient just said."
          else "Respond with empathy."
        else doctor_instruction in
      Ok (mkPostDsmDecision next_action reason doctor_instruction)
  | None =>
      Ok (mkPostDsmDecision (JStr "END")
            (JStr "Post-DSM manager returned invalid JSON, defaulting to END")
            "Wrap up the visit warmly.")
  end.

(** The [defaults] dictionary of [parse_patient_manager_output]. *)
Definition guidance_defaults
  (base_voice_style : gmap string string) (current_disclosure_state : json)
  : Guidance :=
  let verbosity := default "moderate" (base_voice_style !! "verbosity") in
  let trust := default "neutral" (base_voice_style !! "trust") in
  let default_length :=
    if String.eqb verbosity "terse" then "SHORT"
    else if String.eqb verbosity "detailed" then "LONG"
    else "MEDIUM" in
  let default_directness :=
    if String.eqb trust "guarded" then "LOW"
    else if String.eqb trust "open" then "HIGH"
    else "MED" in
  {| directness := JStr default_directness;
     disclosure_stage := current_disclosure_state;
     target_length := JStr default_length;
     emotional_state := JStr "neutral";
     tone_tags := JArr [JStr "cooperative"];
     key_points_to_reveal := JArr [];
     key_points_to_avoid := JArr [];
     patient_instruction :=
       JStr "Answer in a way consistent with your profile, moderately direct, and do not overshare." |}.

Definition parse_patient_manager_output
  (text : string) (base_voice_style : gmap string string)
  (current_disclosure_state : json) : result Guidance :=
  let defaults := guidance_defaults base_voice_style current_disclosure_state in
  match json_loads (strip_code_fences text) with
  | Some parsed =>
      directness ← get parsed "directness" (directness defaults);
      disclosure_stage ← get parsed "disclosure_stage" (disclosure_stage defaults);
      target_length ← get parsed "target_length" (target_length defaults);
      emotional_state ← get parsed "emotional_state" (emotional_state defaults);
      tone_tags ← get parsed "tone_tags" (tone_tags defaults);
      key_points_to_reveal ←
        get parsed "key_points_to_reveal" (key_points_to_reveal defaults);
      key_points_to_avoid ←
        get parsed "key_points_to_avoid" (key_points_to_avoid defaults);
      patient_instruction ←
        get parsed "patient_instruction" (patient_instruction defaults);
      Ok (mkGuidance directness disclosure_stage target_length emotional_state
            tone_tags key_points_to_reveal key_points_to_avoid
            patient_instruction)
  | None => Ok defaults
  end.

End ManagerLogic.

(** ** generation/session_runner.py: the dialogue loop *)

Definition init_disclosure_state (voice_style : gmap string string) : string :=
  let trust := default "neutral" (voice_style !! "trust") in
  let verbosity := default "moderate" (voice_style !! "verbosity") in
  if String.eqb trust "guarded" || String.eqb verbosity "terse" then "MINIMIZE"
  else if String.eqb trust "open"
          && (String.eqb verbosity "moderate" || String.eqb verbosity "detailed")
  then "OPEN"
  else "PARTIAL".

(** An entry of [doctor_manager_decisions]. *)
Record DoctorManagerRecord := mkDoctorManagerRecord {
  dm_turn : Z;
  dm_manager_type : string;
  dm_next_action : json;
  dm_reason : json;
  dm_doctor_instruction : string;
  dm_dsm_symptom_key : json
}.

(** An entry of [patient_manager_decisions]. *)
Record PatientManagerRecord := mkPatientManagerRecord {
  pm_turn : Z;
  pm_doctor_move : json;
  pm_guidance : Guidance
}.

(** The replies of the outside world, indexed by the doctor turn they
    belong to (turn [0] is the greeting): the [final_output] of each agent
    call and the draw of the module-level [random] used by the fallback of
    [parse_doctor_manager_output]. *)
Record Env := mkEnv {
  doctor_manager_reply : Z -> string;
  doctor_reply : Z -> string;
  patient_manager_reply : Z -> string;
  patient_agent_reply : Z -> string;
  random_draw : Z -> nat
}.

(** The local variables of [run_patient_doctor_session] that the loop
    reads or writes.  [dsm_symptom_key_var] is [None] while the variable
    [dsm_symptom_key] is unbound. *)
Record SessionState := mkSessionState {
  conversation_history : list (string * string);
  dsm_pool : list string;
  asked_question_order : list string;
  doctor_manager_decisions : list DoctorManagerRecord;
  patient_manager_decisions : list PatientManagerRecord;
  doctor_turns_elapsed : Z;
  disclosure_state : json;
  dsm_symptom_key_var : option json;
  patient_reply : string;
  target_turns_per_symptom : Q;
  max_doctor_turns : Z;
  dsm_turn_budget : Z
}.

(** The four branches of the loop, named after the [manager_type] they log. *)
Inductive Mode := POST_DSM | FORCE_DSM | LOW_TURNS | NORMAL.

#[global] Instance Mode_eq_dec : EqDecision Mode.
Proof. solve_decision. Defined.

Definition manager_type_of (m : Mode) : string :=
  match m with
  | POST_DSM => "post_dsm"
  | FORCE_DSM => "forced_dsm_coverage"
  | LOW_TURNS => "low_turns"
  | NORMAL => "normal"
  end.

Definition Qltb (x y : Q) : bool :=
  match (x ?= y)%Q with Lt => true | _ => false end.

Definition remaining_total_turns (s : SessionState) : Z :=
  max_doctor_turns s - doctor_turns_elapsed s.
Definition remaining_dsm_turns (s : SessionState) : Z :=
  Z.max 0 (dsm_turn_budget s - doctor_turns_elapsed s).
Definition remaining_dsm_items (s : SessionState) : Z :=
  Z.of_nat (length (dsm_pool s)).

(** [remaining_dsm_turns / remaining_dsm_items if remaining_dsm_items > 0
    else float('inf')]; [None] is the infinite ratio. *)
Definition ratio (s : SessionState) : option Q :=
  if 0 <? remaining_dsm_items s
  then Some (inject_Z (remaining_dsm_turns s) / inject_Z (remaining_dsm_items s))%Q
  else None.

Definition ratio_below_target (s : SessionState) : bool :=
  match ratio s with
  | Some r => Qltb r (target_turns_per_symptom s)
  | None => false
  end.

(** The [if]/[elif]/[else] cascade at the head of the loop body. *)
Definition select_mode (s : SessionState) : Mode :=
  if remaining_dsm_items s =? 0 then POST_DSM
  else if remaining_total_turns s <=? remaining_dsm_items s then FORCE_DSM
  else if ratio_below_target s then LOW_TURNS
  else NORMAL.

(** What a branch hands to the rest of the body. *)
Record Move := mkMove {
  mv_next_action : json;
  mv_reason : json;
  mv_doctor_instruction : string;
  mv_dsm_symptom_key : option json;
  mv_logged_key : json
}.

Inductive Step :=
| Continue (s : SessionState)
| Break (s : SessionState).

Definition closing_msg : string :=
  "Thank you for sharing today. Based on what we've discussed, I'll review everything and we can talk about next steps. Is there anything else you'd like to add before we wrap up?".

Definition final_msg : string :=
  "Thank you for sharing. Is there anything else you'd like to discuss today?".

Section Session.

Variable json_loads : string -> option json.
Variable py_str : json -> string.
Variable voice_style : gmap string string.
Variable env : Env.

Definition branch_move (mode : Mode) (s : SessionState) : result Move :=
  let turn := doctor_turns_elapsed s + 1 in
  match mode with
  | POST_DSM =>
      d ← parse_post_dsm_manager_output json_loads (doctor_manager_reply env turn);
      Ok (mkMove (post_next_action d) (post_reason d) (post_doctor_instruction d)
            (dsm_symptom_key_var s) (JStr EmptyString))
  | FORCE_DSM =>
      match dsm_pool s with
      | [] => Raise IndexError
      | first :: _ =>
          d ← parse_doctor_manager_output json_loads py_str
                (doctor_manager_reply env turn) (dsm_pool s) (random_draw env turn);
          Ok (mkMove (JStr "DSM") (reason d) (doctor_instruction d)
                (Some (JStr first)) (JStr first))
      end
  | LOW_TURNS | NORMAL =>
      d ← parse_doctor_manager_output json_loads py_str
            (doctor_manager_reply env turn) (dsm_pool s) (random_draw env turn);
      Ok (mkMove (next_action d) (reason d) (doctor_instruction d)
            (Some (dsm_symptom_key d))
            (if eq_str (next_action d) "DSM" then dsm_symptom_key d
             else JStr EmptyString))
  end.

(** Lines 1165-1179: pool, asked order, key and instruction after the
    validation of the DSM key. *)
Definition dsm_fallback
  (pool asked : list string) (key : option json) (instruction : string)
  : list string * list string * option json * string :=
  match pool with
  | first :: _ =>
      (list_remove first pool, asked ++ [first], Some (JStr first),
       "Ask about " +:+ first +:+ " in a natural, conversational way.")
  | [] => (pool, asked, key, instruction)
  end.

Definition apply_dsm_choice
  (pool asked : list string) (key : option json) (instruction : string)
  : result (list string * list string * option json * string) :=
  match key with
  | None => Raise NameError
  | Some k =>
      if in_pool k pool then
        match k with
        | JStr x => Ok (list_remove x pool, asked ++ [x], key, instruction)
        | _ => Ok (dsm_fallback pool asked key instruction)
        end
      else Ok (dsm_fallback pool asked key instruction)
  end.

(** [depression_profile.get(dsm_symptom_key, "N/A")] behind the test
    [last_doctor_move == "DSM" and dsm_symptom_key]: a list or a dict is
    not hashable. *)
Definition ground_truth_lookup (last_doctor_move : json) (key : option json)
  : result unit :=
  if eq_str last_doctor_move "DSM" then
    match key with
    | None => Raise NameError
    | Some k =>
        if truthy k then
          match k with
          | JArr _ | JObj _ => Raise TypeError
          | _ => Ok tt
          end
        else Ok tt
    end
  else Ok tt.

(** The part of the body after the branches (lines 1161-1334). *)
Definition doctor_turn (s : SessionState) (mv : Move) : result SessionState :=
  let elapsed := doctor_turns_elapsed s + 1 in
  chosen ←
    (if eq_str (mv_next_action mv) "DSM"
     then apply_dsm_choice (dsm_pool s) (asked_question_order s)
            (mv_dsm_symptom_key mv) (mv_doctor_instruction mv)
     else Ok (dsm_pool s, asked_question_order s, mv_dsm_symptom_key mv,
              mv_doctor_instruction mv));
  let '(pool, asked, key, _) :=
    (chosen : list string * list string * option json * string) in
  let history :=
    conversation_history s ++ [("assistant", doctor_reply env elapsed)] in
  let last_doctor_move := mv_next_action mv in
  guidance ← parse_patient_manager_output json_loads
               (patient_manager_reply env elapsed) voice_style
               (disclosure_state s);
  _ ← ground_truth_lookup last_doctor_move key;
  let reply := patient_agent_reply env elapsed in
  Ok {| conversation_history := history ++ [("user", reply)];
        dsm_pool := pool;
        asked_question_order := asked;
        doctor_manager_decisions := doctor_manager_decisions s;
        patient_manager_decisions :=
          patient_manager_decisions s
          ++ [mkPatientManagerRecord elapsed last_doctor_move guidance];
        doctor_turns_elapsed := elapsed;
        disclosure_state := disclosure_stage guidance;
        dsm_symptom_key_var := key;
        patient_reply := reply;
        target_turns_per_symptom := target_turns_per_symptom s;
        max_doctor_turns := max_doctor_turns s;
        dsm_turn_budget := dsm_turn_budget s |}.

Definition log_decision (s : SessionState) (mode : Mode) (mv : Move)
  : SessionState :=
  {| conversation_history := conversation_history s;
     dsm_pool := dsm_pool s;
     asked_question_order := asked_question_order s;
     doctor_manager_decisions :=
       doctor_manager_decisions s
       ++ [mkDoctorManagerRecord (doctor_turns_elapsed s + 1)
             (manager_type_of mode) (mv_next_action mv) (mv_reason mv)
             (mv_doctor_instruction mv) (mv_logged_key mv)];
     patient_manager_decisions := patient_manager_decisions s;
     doctor_turns_elapsed := doctor_turns_elapsed s;
     disclosure_state := disclosure_state s;
     dsm_symptom_key_var := dsm_symptom_key_var s;
     patient_reply := patient_reply s;
     target_turns_per_symptom := target_turns_per_symptom s;
     max_doctor_turns := max_doctor_turns s;
     dsm_turn_budget := dsm_turn_budget s |}.

Definition say (s : SessionState) (role text : string) : SessionState :=
  {| conversation_history := conversation_history s ++ [(role, text)];
     dsm_pool := dsm_pool s;
     asked_question_order := asked_question_order s;
     doctor_manager_decisions := doctor_manager_decisions s;
     patient_manager_decisions := patient_manager_decisions s;
     doctor_turns_elapsed := doctor_turns_elapsed s;
     disclosure_state := disclosure_state s;
     dsm_symptom_key_var := dsm_symptom_key_var s;
     patient_reply := patient_reply s;
     target_turns_per_symptom := target_turns_per_symptom s;
     max_doctor_turns := max_doctor_turns s;
     dsm_turn_budget := dsm_turn_budget s |}.

(** One pass through the body of [while doctor_turns_elapsed <
    max_doctor_turns] (lines 828-1334). *)
Definition loop_body (s : SessionState) : result Step :=
  let mode := select_mode s in
  mv ← branch_move mode s;
  let s := log_decision s mode mv in
  match mode with
  | POST_DSM =>
      if eq_str (mv_next_action mv) "END"
      then Ok (Break (say s "assistant" closing_msg))
      else s' ← doctor_turn s mv; Ok (Continue s')
  | _ => s' ← doctor_turn s mv; Ok (Continue s')
  end.

(** The [while] loop.  [None] means that the fuel ran out. *)
Fixpoint dialogue_loop (fuel : nat) (s : SessionState)
  : option (result SessionState) :=
  if doctor_turns_elapsed s <? max_doctor_turns s then
    match fuel with
    | O => None
    | S fuel' =>
        match loop_body s with
        | Raise e => Some (Raise e)
        | Ok (Break s') => Some (Ok s')
        | Ok (Continue s') => dialogue_loop fuel' s'
        end
    end
  else Some (Ok s).

(** One unit of fuel per turn that is left. *)
Definition run_dialogue_loop (s : SessionState) : option (result SessionState) :=
  dialogue_loop (Z.to_nat (max_doctor_turns s - doctor_turns_elapsed s)) s.

(** [if conversation_history[-1]["role"] == "user"] (lines 1336-1349). *)
Definition close_session (s : SessionState) : result SessionState :=
  match last (conversation_history s) with
  | None => Raise IndexError
  | Some (role, _) =>
      if String.eqb role "user" then Ok (say s "assistant" final_msg) else Ok s
  end.

(** The state at the head of the loop (lines 623-815): greeting, first
    patient guidance and first patient reply. *)
Definition session_start
  (doctor_first_greeting microstyle_pacing doctor_persona_id : string)
  : result SessionState :=
  let disclosure := JStr (init_disclosure_state voice_style) in
  guidance_first ← parse_patient_manager_output json_loads
                     (patient_manager_reply env 0) voice_style disclosure;
  let reply := patient_agent_reply env 0 in
  Ok {| conversation_history :=
          [("assistant", doctor_first_greeting); ("user", reply)];
        dsm_pool := DSM_ITEMS;
        asked_question_order := [];
        doctor_manager_decisions := [];
        patient_manager_decisions :=
          [mkPatientManagerRecord 1 (JStr "RAPPORT") guidance_first];
        doctor_turns_elapsed := 0;
        disclosure_state := disclosure_stage guidance_first;
        dsm_symptom_key_var := None;
        patient_reply := reply;
        target_turns_per_symptom :=
          Planner.target_turns_per_symptom microstyle_pacing doctor_persona_id;
        max_doctor_turns :=
          Planner.max_doctor_turns microstyle_pacing doctor_persona_id;
        dsm_turn_budget :=
          Planner.dsm_turn_budget microstyle_pacing doctor_persona_id |}.

(** The dialogue part of [run_patient_doctor_session]. *)
Definition run_session
  (doctor_first_greeting microstyle_pacing doctor_persona_id : string)
  : option (result SessionState) :=
  match session_start doctor_first_greeting microstyle_pacing doctor_persona_id with
  | Raise e => Some (Raise e)
  | Ok s0 =>
      match run_dialogue_loop s0 with
      | Some (Ok s) => Some (close_session s)
      | other => other
      end
  end.

End Session.

(** *** Runs of the loop *)

Section SessionRuns.

Variable json_loads : string -> option json.
Variable py_str : json -> string.
Variable voice_style : gmap string string.
Variable env : Env.

(** The states found at the head of the [while] loop of a run that starts
    in [s0]. *)
Inductive loop_reaches (s0 : SessionState) : SessionState -> Prop :=
| reaches_start : loop_reaches s0 s0
| reaches_next s s' :
    loop_reaches s0 s ->
    doctor_turns_elapsed s < max_doctor_turns s ->
    loop_body json_loads py_str voice_style env s = Ok (Continue s') ->
    loop_reaches s0 s'.

(** The state at the head of the loop after [n] complete passes. *)
Fixpoint loop_prefix (n : nat) (s : SessionState) : option SessionState :=
  match n with
  | O => Some s
  | S n' =>
      if doctor_turns_elapsed s <? max_doctor_turns s then
        match loop_body json_loads py_str voice_style env s with
        | Ok (Continue s') => loop_prefix n' s'
        | _ => None
        end
      else None
  end.

(** A doctor-manager reply that the parsers take without raising: text
    that is no JSON at all, or an object whose [doctor_instruction] is a
    string or falsy. *)
Definition doctor_manager_reply_ok (reply : string) : bool :=
  match json_loads (strip_code_fences reply) with
  | None => true
  | Some (JObj fields) =>
      match instruction_or_empty
              (dict_get "doctor_instruction" fields (JStr EmptyString)) with
      | Ok _ => true
      | Raise _ => false
      end
  | Some _ => false
  end.

(** A patient-manager reply that the parser takes without raising. *)
Definition patient_manager_reply_ok (reply : string) : bool :=
  match json_loads (strip_code_fences reply) with
  | None | Some (JObj _) => true
  | Some _ => false
  end.

Definition replies_well_formed : Prop :=
  forall turn : Z,
    doctor_manager_reply_ok (doctor_manager_reply env turn) = true
    /\ patient_manager_reply_ok (patient_manager_reply env turn) = true.

End SessionRuns.

Definition step_state (step : Step) : SessionState :=
  match step with
  | Continue s | Break s => s
  end.

(** The state at the head of the loop: nothing asked, no turn taken. *)
Definition loop_entry (s : SessionState) : Prop :=
  dsm_pool s = DSM_ITEMS
  /\ asked_question_order s = []
  /\ doctor_turns_elapsed s = 0.

(** *** Concrete replies used in the examples

    [no_json] decodes nothing: it is [json.loads] on replies that are not
    JSON, such as [plain_reply]. *)
Definition no_json : string -> option json := fun _ => None.
Definition plain_reply : string := "This is not valid JSON at all!".
Definition plain_str : json -> string :=
  fun v => match v with JStr s => s | _ => EmptyString end.

Definition garbled_env : Env :=
  {| doctor_manager_reply := fun _ => plain_reply;
     doctor_reply := fun _ => "Tell me more.";
     patient_manager_reply := fun _ => plain_reply;
     patient_agent_reply := fun _ => "I am fine.";
     random_draw := fun _ => 0%nat |}.

Definition quote : string := String "034"%char EmptyString.

(** The text [{"next_action": "FOLLOW_UP"}]. *)
Definition follow_up_reply : string :=
  "{" +:+ quote +:+ "next_action" +:+ quote +:+ ": "
  +:+ quote +:+ "FOLLOW_UP" +:+ quote +:+ "}".

(** [json.loads] on the replies of [follow_up_env]. *)
Definition follow_up_json : string -> option json := fun text =>
  if String.eqb text follow_up_reply
  then Some (JObj [("next_action", JStr "FOLLOW_UP")])
  else None.

Definition follow_up_env : Env :=
  {| doctor_manager_reply := fun _ => follow_up_reply;
     doctor_reply := fun _ => "Tell me more.";
     patient_manager_reply := fun _ => plain_reply;
     patient_agent_reply := fun _ => "I am fine.";
     random_draw := fun _ => 0%nat |}.

(** A session state at the head of the loop with the given budget. *)
Definition entry_state (target : Q) (turns budget : Z) : SessionState :=
  {| conversation_history := [("assistant", "Hello."); ("user", "Hi.")];
     dsm_pool := DSM_ITEMS;
     asked_question_order := [];
     doctor_manager_decisions := [];
     patient_manager_decisions := [];
     doctor_turns_elapsed := 0;
     disclosure_state := JStr "PARTIAL";
     dsm_symptom_key_var := None;
     patient_reply := "Hi.";
     target_turns_per_symptom := target;
     max_doctor_turns := turns;
     dsm_turn_budget := budget |}.

(** ** The injected [random.Random]

    The generator is a tape of raw draws and a cursor.  Each primitive
    draw ([_randbelow], [random]) reads one cell and moves the cursor, so
    that every value the primitive can return is returned for some tape. *)

Record Random := mkRandom {
  tape : nat -> N;
  cursor : nat
}.

(** Computations that use the generator and may raise. *)
Definition Rand (A : Type) : Type := Random -> result (A * Random).

#[global] Instance rand_ret : MRet Rand := fun A a r => Ok (a, r).
#[global] Instance rand_bind : MBind Rand := fun A B f m r =>
  match m r with
  | Ok (a, r') => f a r'
  | Raise e => Raise e
  end.

Definition raise {A} (e : exn) : Rand A := fun _ => Raise e.

Definition next_raw : Rand N := fun r =>
  Ok (tape r (cursor r), mkRandom (tape r) (S (cursor r))).

(** [self._randbelow(n)] *)
Definition randbelow (n : nat) : Rand nat :=
  match n with
  | O => raise ValueError
  | _ => raw ← next_raw; mret (N.to_nat (raw mod N.of_nat n))
  end.

(** [self.random()]: a multiple of 2^-53 in [0, 1). *)
Definition random : Rand Q :=
  raw ← next_raw;
  mret (Z.of_N (raw mod 9007199254740992) # 9007199254740992)%Q.

(** [self.randint(a, b)] *)
Definition randint (a b : Z) : Rand Z :=
  if b <? a then raise ValueError
  else j ← randbelow (Z.to_nat (b - a + 1)); mret (a + Z.of_nat j).

(** [self.choice(seq)] *)
Definition choice {A} (seq : list A) : Rand A :=
  match seq with
  | [] => raise IndexError
  | _ =>
      j ← randbelow (length seq);
      match seq !! j with
      | Some x => mret x
      | None => raise IndexError
      end
  end.

(** The loop of [self.sample(population, k)] over its working copy:
    [m] items are still in play. *)
Fixpoint sample_loop {A} (k m : nat) (pool : list A) : Rand (list A) :=
  match k with
  | O => mret []
  | S k' =>
      j ← randbelow m;
      match pool !! j, pool !! (m - 1)%nat with
      | Some x, Some y =>
          rest ← sample_loop k' (m - 1)%nat (<[j := y]> pool);
          mret (x :: rest)
      | _, _ => raise IndexError
      end
  end.

(** [self.sample(population, k)], by the pool algorithm that CPython uses
    for the populations of this program (at most 21 items). *)
Definition sample {A} (population : list A) (k : nat) : Rand (list A) :=
  if (length population <? k)%nat then raise ValueError
  else sample_loop k (length population) population.

(** [itertools.accumulate(weights)] *)
Fixpoint accumulate_from (acc : Q) (weights : list Q) : list Q :=
  match weights with
  | [] => []
  | w :: rest => (acc + w)%Q :: accumulate_from (acc + w)%Q rest
  end.

Definition accumulate (weights : list Q) : list Q := accumulate_from 0 weights.

(** [bisect.bisect(cum_weights, x, 0, hi)] on a non-decreasing list. *)
Fixpoint bisect (cum_weights : list Q) (x : Q) (hi : nat) : nat :=
  match hi, cum_weights with
  | S hi', c :: rest => if Qltb x c then O else S (bisect rest x hi')
  | _, _ => O
  end.

(** [self.choices(population, weights=weights, k=1)[0]] *)
Definition choices {A} (population : list A) (weights : list Q) : Rand A :=
  let n := length population in
  let cum_weights := accumulate weights in
  if negb (length cum_weights =? n)%nat then raise ValueError
  else
    match last cum_weights with
    | None => raise IndexError
    | Some total =>
        if Qle_bool total 0 then raise ValueError
        else
          u ← random;
          match population !! bisect cum_weights (u * total)%Q (n - 1) with
          | Some x => mret x
          | None => raise IndexError
          end
    end.

(** Monadic iteration over a list, left to right. *)
Fixpoint for_each {A S} (l : list A) (f : S -> A -> Rand S) (acc : S) : Rand S :=
  match l with
  | [] => mret acc
  | x :: rest => acc' ← f acc x; for_each rest f acc'
  end.

(** The order in which Python iterates over [set(l)]: some arrangement of
    the distinct elements of [l], fixed within a process. *)
Record SetOrder := mkSetOrder {
  set_list : list string -> list string;
  set_list_NoDup : forall l, NoDup (set_list l);
  set_list_elem : forall l x, x ∈ set_list l <-> x ∈ l
}.

(** One such order: first occurrences, left to right. *)
Definition first_occurrence_order : SetOrder.
Proof.
  refine (mkSetOrder (fun l => remove_dups l) _ _).
  - intros l. apply NoDup_remove_dups.
  - intros l x. apply elem_of_remove_dups.
Defined.

(** ** data/templates.py and data/pools.py *)

Definition DSM5_DEPRESSION_SYMPTOMS : list string :=
  [ "Depressed mood";
    "Loss of interest or pleasure";
    "Significant weight/appetite changes";
    "Sleep disturbances";
    "Psychomotor agitation or retardation";
    "Fatigue or loss of energy";
    "Feelings of worthlessness or excessive guilt";
    "Difficulty concentrating or indecisiveness";
    "Recurrent thoughts of death or suicide" ].

Record Template := mkTemplate {
  affective : string;
  cognitive : string;
  somatic : string;
  emphasized_symptoms : list string;
  specifier : string;
  modifiers : list string
}.

Definition BIG5_DEP_TEMPLATES : list (string * Template) :=
  [ ("NEUROTICISM_HIGH",
     mkTemplate
       "Intense sadness, guilt, irritability, emotional volatility"
       "Rumination, self-blame, helplessness, catastrophic thinking"
       "Fatigue, sleep disturbance, tension, agitation"
       [ "Depressed mood"; "Fatigue or loss of energy";
         "Feelings of worthlessness or excessive guilt";
         "Difficulty concentrating or indecisiveness" ]
       "MDD with anxious distress"
       [ "worry-prone"; "self-blaming"; "threat-sensitivity";
         "emotionally-reactive"; "ruminative" ]);
    ("EXTRAVERSION_LOW",
     mkTemplate
       "Emotional flatness, social withdrawal, anhedonia"
       "Hopelessness, pessimism, low reactivity to positives"
       "Psychomotor slowing, hypersomnia, low energy"
       [ "Loss of interest or pleasure"; "Psychomotor agitation or retardation";
         "Fatigue or loss of energy" ]
       "Persistent depressive disorder-like"
       [ "socially-withdrawn"; "pleasure-unresponsive"; "passive";
         "low-initiative"; "isolating" ]);
    ("CONSCIENTIOUSNESS_HIGH",
     mkTemplate
       "Controlled/suppressed affect, tension under responsibility"
       "Perfectionism, strong self-criticism, guilt over small failures, indecision"
       "Insomnia, appetite loss, exhaustion from overwork"
       [ "Significant weight/appetite changes"; "Sleep disturbances";
         "Fatigue or loss of energy";
         "Feelings of worthlessness or excessive guilt" ]
       "Melancholic features"
       [ "perfectionistic"; "rigidly-self-critical"; "duty-focused";
         "overwork-prone"; "failure-intolerant" ]);
    ("CONSCIENTIOUSNESS_LOW",
     mkTemplate
       "Apathy, disengagement, blunted emotion"
       "Disorganization, inefficiency, forgetfulness"
       "Hypersomnia, low motivation, poor self-care, variable appetite"
       [ "Psychomotor agitation or retardation"; "Fatigue or loss of energy";
         "Difficulty concentrating or indecisiveness" ]
       "With functional impairment"
       [ "disorganized"; "unmotivated"; "self-care-neglecting"; "task-avoidant";
         "forgetful" ]);
    ("AGREEABLENESS_HIGH",
     mkTemplate
       "Empathic sadness, guilt about others, over-concern"
       "Moral/relational rumination about failing people"
       "Fatigue from overextending, sleep disturbance from worry"
       [ "Depressed mood"; "Sleep disturbances"; "Fatigue or loss of energy";
         "Feelings of worthlessness or excessive guilt" ]
       "Anxious distress"
       [ "people-pleasing"; "over-responsible-for-others"; "self-sacrificing";
         "conflict-avoidant"; "guilt-prone" ]);
    ("AGREEABLENESS_LOW",
     mkTemplate
       "Irritability, anger, frustration, externalized blame"
       "Defensive/hostile thoughts, rejection sensitivity"
       "Restlessness, agitation, appetite disturbance, insomnia"
       [ "Depressed mood"; "Psychomotor agitation or retardation";
         "Sleep disturbances" ]
       "Mixed features"
       [ "irritable"; "blame-externalizing"; "rejection-sensitive";
         "defensively-hostile"; "interpersonally-strained" ]);
    ("OPENNESS_HIGH",
     mkTemplate
       "Existential sadness, metaphorical expression of distress"
       "Philosophical rumination on meaning and mortality"
       "Variable; fatigue from over-reflection"
       [ "Depressed mood"; "Loss of interest or pleasure";
         "Recurrent thoughts of death or suicide" ]
       "Mild MDD / adjustment-like"
       [ "existentially-focused"; "meaning-seeking"; "introspective";
         "metaphorically-expressive"; "philosophically-ruminating" ]);
    ("OPENNESS_LOW",
     mkTemplate
       "Constricted affect, limited emotional vocabulary"
       "Literal thinking, low insight, denies mood distress"
       "Body-focused complaints (aches, tiredness, sleep/appetite issues)"
       [ "Significant weight/appetite changes"; "Sleep disturbances";
         "Fatigue or loss of energy" ]
       "Somatic-dominant style"
       [ "somatically-focused"; "insight-limited"; "mood-distress-denying";
         "literal-thinking"; "body-complaint-oriented" ]) ].

Definition PACING_LEVELS : list string := ["LOW"; "MED"; "HIGH"].

Definition GENERIC_CONTEXT_DOMAINS : list string :=
  [ "work/role strain"; "relationships strain"; "health concern";
    "self-worth/identity strain"; "general stress/no clear trigger";
    "major life transition"; "grief/bereavement" ].

Definition MAX_CONTEXT_DOMAINS : Z := 2.

Definition INTENSITY_LEVELS : list string := ["LOW"; "MED"; "HIGH"].
Definition EPISODE_DENSITY_LEVELS : list string :=
  ["ULTRA_LOW"; "LOW"; "MED"; "HIGH"].
Definition PATIENT_HUMOR_LEVELS : list string := ["none"; "occasional"; "frequent"].

Definition VOICE_STYLE_OPTIONS : list (string * list string) :=
  [ ("verbosity", ["terse"; "moderate"; "detailed"]);
    ("expressiveness", ["flat"; "balanced"; "intense"]);
    ("trust", ["guarded"; "neutral"; "open"]);
    ("intellect", ["low-functioning"; "moderate-functioning"; "high-functioning"]) ].

Definition LIVING_SITUATION_POOL : list string :=
  ["alone"; "with partner"; "with family"; "shared housing"].
Definition WORK_ROLE_POOL : list string :=
  ["employed"; "student"; "caregiving role"; "between roles"].
Definition ROUTINE_STABILITY_POOL : list string :=
  ["stable routine"; "variable routine"].
Definition SUPPORT_LEVEL_POOL : list string :=
  ["low support"; "moderate support"; "high support"].

Definition AGE_RANGES : list string :=
  ["16-19"; "20-24"; "25-29"; "30-34"; "35-39"; "40-49"; "50-59"; "60-69"; "70-80"].

Definition AGE_DEFAULT_WEIGHTS : list Q :=
  [1; 2; 5 # 2; 2; 3 # 2; 3 # 2; 1; 4 # 5; 1 # 2]%Q.

Definition AGE_WEIGHTS_BY_ROLE : list (string * list Q) :=
  [ ("student", [4; 5; 3; 1; 1 # 2; 3 # 10; 1 # 5; 1 # 10; 1 # 20]%Q);
    ("employed", [1 # 2; 2; 3; 3; 3; 5 # 2; 2; 1; 3 # 10]%Q);
    ("caregiving role", [1 # 10; 3 # 10; 4 # 5; 3 # 2; 5 # 2; 3; 3; 5 # 2; 2]%Q);
    ("between roles", [3 # 2; 2; 5 # 2; 2; 3 # 2; 1; 4 # 5; 3 # 5; 2 # 5]%Q) ].

Definition LIFE_FACET_CATEGORIES : list string :=
  [ "identity_stage"; "cultural_background_orientation"; "sense_of_belonging";
    "values_and_priorities"; "self_view";
    "short_term_goal"; "long_term_goal_or_dream"; "stalled_goal";
    "source_of_motivation";
    "key_partner_or_love_interest"; "closest_friend_or_confidant";
    "family_relationship_pattern"; "work_or_school_ally";
    "conflictual_relationship";
    "work_or_study_pressure"; "sense_of_achievement"; "role_conflicts";
    "financial_pressure_or_stability"; "schedule_and_time_pressure";
    "responsibility_load";
    "physical_health_constraints"; "sleep_pattern_tendency";
    "existing_diagnoses_or_labels"; "past_help_seeking";
    "body_image_concerns_or_comfort";
    "current_primary_stressor"; "secondary_stressors"; "loss_or_change";
    "unresolved_issue"; "fear_or_worry_theme";
    "coping_style"; "day_to_day_routines"; "soothing_activities";
    "less_helpful_coping"; "digital_or_social_media_habits";
    "hobbies_and_interests"; "small_joys"; "personal_quirks";
    "self_presentation_style"; "areas_of_competence_or_pride";
    "past_difficult_period"; "prior_relationship_disappointment_or_breakdown";
    "earlier_school_or_work_challenge";
    "family_history_of_health_or_mental_health_issues";
    "significant_move_or_transition";
    "housing_and_neighbourhood_feel"; "access_to_resources";
    "time_and_energy_constraints";
    "explanatory_style"; "beliefs_about_help_and_treatment";
    "beliefs_about_self_worth"; "hopes_for_future";
    "preoccupations_or_obsessions" ].

Definition TRAUMA_ADVERSITY_FACETS : list string :=
  [ "past_difficult_period"; "prior_relationship_disappointment_or_breakdown";
    "family_history_of_health_or_mental_health_issues";
    "significant_move_or_transition"; "loss_or_change" ].

(** ** generation/background_writer.py *)

(** [compute_symptom_severity] *)
Definition compute_symptom_severity (depression_profile : gmap string string)
  : string :=
  let values := (map_to_list depression_profile).*2 in
  let count (freq : string) : nat :=
    length (filter (fun v => v = freq) values) in
  let significant_count := (count "SOME" + count "OFTEN")%nat in
  let often_count := count "OFTEN" in
  if (significant_count =? 0)%nat then "minimal"
  else if (significant_count <=? 2)%nat
          || ((significant_count <=? 4)%nat && (often_count =? 0)%nat)
  then "mild"
  else if (significant_count <=? 5)%nat || (often_count <=? 3)%nat
  then "moderate"
  else "severe".

(** [d[k] = v] on a dictionary kept in insertion order. *)
Fixpoint dict_set {V} (k : string) (v : V) (d : list (string * V))
  : list (string * V) :=
  match d with
  | [] => [(k, v)]
  | (k', v') :: rest =>
      if String.eqb k k' then (k, v) :: rest else (k', v') :: dict_set k v rest
  end.

Definition dict_set_all {V} (kvs : list (string * V)) (d : list (string * V))
  : list (string * V) :=
  fold_left (fun d kv => dict_set kv.1 kv.2 d) kvs d.

(** The boosts of one context domain (lines 100-129). *)
Definition boost_domain (category_weights : list (string * Q)) (domain : string)
  : list (string * Q) :=
  let w := category_weights in
  let w :=
    if contains "work" domain || contains "role" domain then
      dict_set_all [ ("work_or_study_pressure", 3 # 1); ("sense_of_achievement", 2 # 1);
                     ("role_conflicts", 2 # 1); ("responsibility_load", 2 # 1) ]%Q w
    else w in
  let w :=
    if contains "relationship" domain then
      dict_set_all [ ("family_relationship_pattern", 5 # 2);
                     ("closest_friend_or_confidant", 2 # 1);
                     ("key_partner_or_love_interest", 2 # 1);
                     ("conflictual_relationship", 2 # 1) ]%Q w
    else w in
  let w :=
    if contains "health" domain then
      dict_set_all [ ("physical_health_constraints", 3 # 1);
                     ("sleep_pattern_tendency", 2 # 1);
                     ("body_image_concerns_or_comfort", 3 # 2) ]%Q w
    else w in
  let w :=
    if contains "self-worth" domain || contains "identity" domain then
      dict_set_all [ ("self_view", 5 # 2); ("beliefs_about_self_worth", 5 # 2);
                     ("identity_stage", 2 # 1) ]%Q w
    else w in
  let w :=
    if contains "transition" domain then
      dict_set_all [ ("significant_move_or_transition", 5 # 2);
                     ("stalled_goal", 2 # 1); ("loss_or_change", 2 # 1) ]%Q w
    else w in
  if contains "grief" domain || contains "bereavement" domain then
    dict_set_all [ ("loss_or_change", 3 # 1); ("unresolved_issue", 2 # 1) ]%Q w
  else w.

(** Scaling of the trauma categories that are keys of the dictionary. *)
Definition scale_trauma (factor : Q) (category_weights : list (string * Q))
  : list (string * Q) :=
  fold_left
    (fun w trauma_cat =>
       match list_find (fun kv => kv.1 = trauma_cat) w with
       | Some (_, (_, v)) => dict_set trauma_cat (v * factor)%Q w
       | None => w
       end)
    TRAUMA_ADVERSITY_FACETS category_weights.

(** The dictionary [category_weights] before sampling (lines 96-144). *)
Definition category_weights (context_domains : list string) (severity : string)
  : list (string * Q) :=
  let w := map (fun cat => (cat, 1 # 1)%Q) LIFE_FACET_CATEGORIES in
  let w := fold_left boost_domain context_domains w in
  let w := dict_set_all [ ("current_primary_stressor", 4 # 1);
                          ("coping_style", 5 # 2) ]%Q w in
  if str_in severity ["moderate"; "severe"]
     || existsb (fun d => str_in d ["grief/bereavement"; "major life transition"])
          context_domains
  then scale_trauma (3 # 2) w
  else scale_trauma (1 # 2) w.

(** The local variables of the sampling loop (lines 150-171). *)
Record FacetLoop := mkFacetLoop {
  selected : list string;
  trauma_in_required : nat;
  attempts : nat
}.

(** [while len(selected) < num_facets and attempts < 100]; the fuel is the
    number of attempts that are left. *)
Fixpoint facet_loop (fuel : nat) (num_facets : Z)
  (categories : list string) (weights : list Q) (st : FacetLoop)
  : Rand FacetLoop :=
  if Z.of_nat (length (selected st)) <? num_facets then
    match fuel with
    | O => mret st
    | S fuel' =>
        candidate ← choices categories weights;
        let st := mkFacetLoop (selected st) (trauma_in_required st)
                    (S (attempts st)) in
        if str_in candidate (selected st) then
          facet_loop fuel' num_facets categories weights st
        else if str_in candidate TRAUMA_ADVERSITY_FACETS then
          if (2 <=? trauma_in_required st)%nat then
            facet_loop fuel' num_facets categories weights st
          else
            facet_loop fuel' num_facets categories weights
              (mkFacetLoop (selected st ++ [candidate])
                 (S (trauma_in_required st)) (attempts st))
        else
          facet_loop fuel' num_facets categories weights
            (mkFacetLoop (selected st ++ [candidate])
               (trauma_in_required st) (attempts st))
    end
  else mret st.

(** The state in which the loop of [select_required_facets] stops. *)
Definition required_facets_loop
  (context_domains : list string) (depression_profile : gmap string string)
  (severity : string) : Rand FacetLoop :=
  let w := category_weights context_domains severity in
  num_facets ← randint 5 8;
  facet_loop 100 num_facets w.*1 w.*2 (mkFacetLoop [] 0 0).

Definition select_required_facets
  (context_domains : list string) (depression_profile : gmap string string)
  (severity : string) : Rand (list string) :=
  st ← required_facets_loop context_domains depression_profile severity;
  mret (selected st).

(** Modelled from the spec: [LifeFacet] and [PatientLifeBackground] of
    data/life_background.py, which is not among the sources; the fields are
    the keyword arguments with which [parse_background_writer_output]
    builds them. *)
Record LifeFacet := mkLifeFacet {
  category : json;
  salience : json;
  description : json
}.

Record PatientLifeBackground := mkPatientLifeBackground {
  name : json;
  age_range : json;
  pronouns : json;
  core_roles : json;
  core_relationships : json;
  core_stressor_summary : json;
  life_facets : list LifeFacet
}.

(** An entry of the prompt trace of the background writer; the prompt
    itself is left out. *)
Record WriterTrace := mkWriterTrace {
  trace_agent : string;
  trace_output : string
}.

Section BackgroundWriter.

Variable json_loads : string -> option json.

Definition parse_life_facet (facet_data : json) : result LifeFacet :=
  category ← get facet_data "category" (JStr EmptyString);
  salience ← get facet_data "salience" (JStr "med");
  description ← get facet_data "description" (JStr EmptyString);
  Ok (mkLifeFacet category salience description).

Fixpoint parse_life_facets (items : list json) : result (list LifeFacet) :=
  match items with
  | [] => Ok []
  | facet_data :: rest =>
      facet ← parse_life_facet facet_data;
      facets ← parse_life_facets rest;
      Ok (facet :: facets)
  end.

(** [for facet_data in data.get("life_facets", [])]: the values over which
    Python iterates, or the [TypeError] of a value that is not iterable. *)
Definition iterate (v : json) : result (list json) :=
  match v with
  | JArr items => Ok items
  | JObj fields => Ok (map (fun kv => JStr kv.1) fields)
  | JStr s =>
      Ok (map (fun c => JStr (String c EmptyString)) (String.list_ascii_of_string s))
  | _ => Raise TypeError
  end.

(** [parse_background_writer_output]: [Ok None] is the [None] returned by
    the [except] clause, [Raise] an exception that the clause lets through. *)
Definition parse_background_writer_output (output : string)
  : result (option PatientLifeBackground) :=
  match json_loads (strip_code_fences output) with
  | None => Ok None
  | Some data =>
      raw_facets ← get data "life_facets" (JArr []);
      match iterate raw_facets with
      | Raise TypeError => Ok None
      | Raise e => Raise e
      | Ok items =>
          life_facets ← parse_life_facets items;
          name ← get data "name" (JStr "Patient");
          age_range ← get data "age_range" (JStr "adult");
          pronouns ← get data "pronouns" (JStr "they/them");
          core_roles ← get data "core_roles" (JArr []);
          core_relationships ← get data "core_relationships" (JArr []);
          core_stressor_summary ← get data "core_stressor_summary" (JStr EmptyString);
          Ok (Some (mkPatientLifeBackground name age_range pronouns core_roles
                      core_relationships core_stressor_summary life_facets))
      end
  end.

(** [call_background_writer].  [writer_reply] is what the call of the
    background-writer agent does: [None] when it raises, [Some output]
    when it returns.  The trace of a failed call records [ERROR: ] followed
    by the text of the exception in the source; that text is not modelled,
    the trace of the model records [ERROR] alone, and no statement below
    reads the output of the trace of a failed call. *)
Definition call_background_writer
  (writer_reply : option string)
  (depression_profile : gmap string string) (context_domains : list string)
  : Rand (option PatientLifeBackground * WriterTrace) :=
  let severity := compute_symptom_severity depression_profile in
  required_facets ← select_required_facets context_domains depression_profile severity;
  match writer_reply with
  | Some output =>
      match parse_background_writer_output output with
      | Ok background => mret (background, mkWriterTrace "background_writer" output)
      | Raise _ => mret (None, mkWriterTrace "background_writer" "ERROR")
      end
  | None => mret (None, mkWriterTrace "background_writer" "ERROR")
  end.

End BackgroundWriter.

(** ** generation/profile_generation.py *)

(** The value of [personality]: the keys that the session runner reads with
    a default are optional. *)
Record Personality := mkPersonality {
  BIG5_TEMPLATE : string;
  AFFECTIVE_STYLE : string;
  COGNITIVE_STYLE : string;
  SOMATIC_STYLE : string;
  SPECIFIER_HINT : string;
  MODIFIERS : list string;
  PACING : option string;
  CONTEXT_DOMAINS : list string;
  EPISODE_DENSITY : option string;
  VOICE_STYLE : gmap string string;
  PERSONAL_BACKGROUND : gmap string string;
  AGE_RANGE : option string;
  EMPH_INTENSITY : gmap string string;
  EXTRA_ELEVATED_SYMPTOMS : list string
}.

(** The dictionary returned by [sample_patient_profile]. *)
Record Profile := mkProfile {
  template_id : string;
  template : Template;
  personality : Personality;
  depression_profile : gmap string string;
  life_background : option PatientLifeBackground;
  background_writer_prompt_trace : option WriterTrace
}.

(** The [forced] overrides: a field is [Some] when its key is in the
    dictionary. *)
Record Forced := mkForced {
  forced_template_id : option string;
  forced_modifiers : option (list string);
  forced_pacing : option string;
  forced_context_domains : option (list string);
  forced_episode_density : option string;
  forced_voice_style : option (gmap string string);
  forced_voice_style_partial : option (list (string * string));
  forced_personal_background : option (gmap string string);
  forced_age_range : option string;
  forced_emph_intensity : option (gmap string string);
  forced_extra_elevated : option (list string);
  forced_skip_life_background : option bool
}.

Definition no_overrides : Forced :=
  mkForced None None None None None None None None None None None None.

(** The frequency of an emphasized symptom of the given intensity. *)
Definition emphasized_frequency (level : string) : Rand string :=
  if String.eqb level "LOW" then
    choices ["RARE"; "SOME"; "OFTEN"] [5 # 1; 4 # 1; 1 # 1]%Q
  else if String.eqb level "HIGH" then
    choices ["SOME"; "OFTEN"] [2 # 1; 8 # 1]%Q
  else
    choices ["SOME"; "OFTEN"; "RARE"] [5 # 1; 4 # 1; 1 # 1]%Q.

Definition non_emphasized_of (emphasized : list string) : list string :=
  filter (fun s => str_in s emphasized = false) DSM5_DEPRESSION_SYMPTOMS.

Section ProfileGeneration.

Variable order : SetOrder.

(** ULTRA_LOW, lines 60-75: the symptoms that will be non-NONE. *)
Definition ultra_low_selection (template : Template) : Rand (list string) :=
  target_symptom_count ← choice [0; 1; 2]%nat;
  let candidate_pool := set_list order (emphasized_symptoms template) in
  let non_emphasized := non_emphasized_of (emphasized_symptoms template) in
  let candidate_pool :=
    if (length candidate_pool <? target_symptom_count)%nat
    then candidate_pool ++ non_emphasized else candidate_pool in
  if (0 <? target_symptom_count)%nat
  then sample candidate_pool (target_symptom_count `min` length candidate_pool)
  else mret [].

Definition all_none : gmap string string :=
  fold_left (fun p symptom => <[symptom := "NONE"]> p)
    DSM5_DEPRESSION_SYMPTOMS ∅.

(** The frequency drawn for one symptom of the ULTRA_LOW selection
    (lines 83-102). *)
Definition ultra_low_assign_one (template : Template)
  (emph_intensity : gmap string string)
  (depression_profile : gmap string string) (symptom : string)
  : Rand (gmap string string) :=
  if str_in symptom (emphasized_symptoms template) then
    match emph_intensity !! symptom with
    | None => raise KeyError
    | Some level =>
        v ← emphasized_frequency level; mret (<[symptom := v]> depression_profile)
    end
  else
    v ← choices ["RARE"; "SOME"; "OFTEN"] [5 # 1; 3 # 1; 2 # 1]%Q;
    mret (<[symptom := v]> depression_profile).

(** ULTRA_LOW, lines 77-102. *)
Definition ultra_low_assign (template : Template)
  (emph_intensity : gmap string string) (selected_symptoms : list string)
  : Rand (gmap string string) :=
  for_each selected_symptoms (ultra_low_assign_one template emph_intensity)
    all_none.

(** The frequency drawn for one symptom under a standard density
    (lines 114-138). *)
Definition standard_assign_one (template : Template)
  (non_emph_weights : list Q)
  (emph_intensity : gmap string string) (extra_high : list string)
  (depression_profile : gmap string string) (symptom : string)
  : Rand (gmap string string) :=
  if str_in symptom (emphasized_symptoms template) then
    match emph_intensity !! symptom with
    | None => raise KeyError
    | Some level =>
        v ← emphasized_frequency level; mret (<[symptom := v]> depression_profile)
    end
  else if str_in symptom extra_high then
    v ← choices ["RARE"; "SOME"; "OFTEN"] [2 # 1; 5 # 1; 3 # 1]%Q;
    mret (<[symptom := v]> depression_profile)
  else
    v ← choices ["NONE"; "RARE"; "SOME"] non_emph_weights;
    mret (<[symptom := v]> depression_profile).

(** Standard densities, lines 104-138. *)
Definition standard_assign (template : Template) (episode_density : string)
  (emph_intensity : gmap string string) (extra_high : list string)
  : Rand (gmap string string) :=
  let non_emph_weights :=
    if String.eqb episode_density "LOW" then [7 # 1; 2 # 1; 1 # 1]%Q
    else if String.eqb episode_density "HIGH" then [3 # 1; 3 # 1; 4 # 1]%Q
    else [5 # 1; 3 # 1; 2 # 1]%Q in
  for_each DSM5_DEPRESSION_SYMPTOMS
    (standard_assign_one template non_emph_weights emph_intensity extra_high) ∅.

Definition generate_depression_profile
  (template : Template) (episode_density : string)
  (emph_intensity : gmap string string) (extra_high : list string)
  : Rand (gmap string string) :=
  if String.eqb episode_density "ULTRA_LOW" then
    selected_symptoms ← ultra_low_selection template;
    ultra_low_assign template emph_intensity selected_symptoms
  else standard_assign template episode_density emph_intensity extra_high.

(** [BIG5_DEP_TEMPLATES[template_id]] *)
Definition lookup_template (template_id : string) : Rand Template :=
  match list_find (fun kv => kv.1 = template_id) BIG5_DEP_TEMPLATES with
  | Some (_, (_, t)) => mret t
  | None => raise KeyError
  end.

(** The steps of [sample_patient_profile], in the order of the source. *)

Definition sample_template_id (forced : Forced) : Rand string :=
  match forced_template_id forced with
  | Some t => mret t
  | None => choice BIG5_DEP_TEMPLATES.*1
  end.

Definition sample_modifiers (forced : Forced) (template : Template)
  : Rand (list string) :=
  match forced_modifiers forced with
  | Some m => mret m
  | None => k ← randint 0 2; sample (modifiers template) (Z.to_nat k)
  end.

Definition sample_pacing (forced : Forced) : Rand string :=
  match forced_pacing forced with
  | Some p => mret p
  | None => choice PACING_LEVELS
  end.

Definition sample_context_domains (forced : Forced) : Rand (list string) :=
  match forced_context_domains forced with
  | Some c => mret c
  | None =>
      num_domains ← randint 0 MAX_CONTEXT_DOMAINS;
      sample GENERIC_CONTEXT_DOMAINS (Z.to_nat num_domains)
  end.

Definition sample_episode_density (forced : Forced) : Rand string :=
  match forced_episode_density forced with
  | Some d => mret d
  | None => choices EPISODE_DENSITY_LEVELS [1 # 1; 5 # 2; 9 # 2; 2 # 1]%Q
  end.

Definition sample_voice_style (forced : Forced) : Rand (gmap string string) :=
  voice_style ←
    match forced_voice_style forced with
    | Some v => mret v
    | None =>
        v ← for_each VOICE_STYLE_OPTIONS
              (fun (v : gmap string string) dim_options =>
                 value ← choice dim_options.2; mret (<[dim_options.1 := value]> v))
              ∅;
        humor ← choices PATIENT_HUMOR_LEVELS [6 # 1; 3 # 1; 1 # 1]%Q;
        mret (<["humor" := humor]> v)
    end;
  match forced_voice_style_partial forced with
  | Some overrides =>
      mret (fold_left (fun (v : gmap string string) kv => <[kv.1 := kv.2]> v)
              overrides voice_style)
  | None => mret voice_style
  end.

(** The personal background and the work role that conditions the age. *)
Definition sample_personal_background (forced : Forced)
  : Rand (gmap string string * string) :=
  match forced_personal_background forced with
  | Some b => mret (b, default "employed" (b !! "work_role"))
  | None =>
      work_role ← choice WORK_ROLE_POOL;
      living_situation ← choice LIVING_SITUATION_POOL;
      routine_stability ← choice ROUTINE_STABILITY_POOL;
      support_level ← choice SUPPORT_LEVEL_POOL;
      let personal_background : gmap string string :=
        <["support_level" := support_level]>
          (<["routine_stability" := routine_stability]>
             (<["work_role" := work_role]>
                (<["living_situation" := living_situation]> ∅))) in
      let keys := ["living_situation"; "work_role"; "routine_stability";
                   "support_level"] in
      k ← randint 1 2;
      dropped ← sample keys (Z.to_nat k);
      mret (fold_left (fun (b : gmap string string) key => delete key b)
              dropped personal_background, work_role)
  end.

Definition sample_age_range (forced : Forced) (work_role : string) : Rand string :=
  match forced_age_range forced with
  | Some a => mret a
  | None =>
      let age_weights := table_get work_role AGE_WEIGHTS_BY_ROLE AGE_DEFAULT_WEIGHTS in
      choices AGE_RANGES age_weights
  end.

Definition sample_emph_intensity (forced : Forced) (template : Template)
  : Rand (gmap string string) :=
  match forced_emph_intensity forced with
  | Some e => mret e
  | None =>
      for_each (set_list order (emphasized_symptoms template))
        (fun (e : gmap string string) sym =>
           level ← choices INTENSITY_LEVELS [3 # 1; 5 # 1; 2 # 1]%Q;
           mret (<[sym := level]> e))
        ∅
  end.

Definition sample_extra_elevated (forced : Forced) (template : Template)
  : Rand (list string) :=
  match forced_extra_elevated forced with
  | Some x => mret x
  | None =>
      k ← randint 0 1;
      sample (non_emphasized_of (emphasized_symptoms template)) (Z.to_nat k)
  end.

(** What the sampler draws before it turns to the background writer:
    [template_id], [template], [personality] and [depression_profile]. *)
Definition sample_profile_fields (forced : Forced)
  : Rand (string * Template * Personality * gmap string string) :=
  template_id ← sample_template_id forced;
  template ← lookup_template template_id;
  modifiers ← sample_modifiers forced template;
  pacing ← sample_pacing forced;
  context_domains ← sample_context_domains forced;
  episode_density ← sample_episode_density forced;
  voice_style ← sample_voice_style forced;
  background ← sample_personal_background forced;
  let '(personal_background, work_role) :=
    (background : gmap string string * string) in
  age_range ← sample_age_range forced work_role;
  emph_intensity ← sample_emph_intensity forced template;
  extra_high ← sample_extra_elevated forced template;
  depression_profile ←
    generate_depression_profile template episode_density emph_intensity extra_high;
  mret (template_id, template,
        {| BIG5_TEMPLATE := template_id;
           AFFECTIVE_STYLE := affective template;
           COGNITIVE_STYLE := cognitive template;
           SOMATIC_STYLE := somatic template;
           SPECIFIER_HINT := specifier template;
           MODIFIERS := modifiers;
           PACING := Some pacing;
           CONTEXT_DOMAINS := context_domains;
           EPISODE_DENSITY := Some episode_density;
           VOICE_STYLE := voice_style;
           PERSONAL_BACKGROUND := personal_background;
           AGE_RANGE := Some age_range;
           EMPH_INTENSITY := emph_intensity;
           EXTRA_ELEVATED_SYMPTOMS := extra_high |},
        depression_profile).

Variable json_loads : string -> option json.

(** [sample_patient_profile(rng, forced)].  [writer_reply] is the outcome
    of the one call of the background-writer agent. *)
Definition sample_patient_profile (writer_reply : option string) (forced : Forced)
  : Rand Profile :=
  fields ← sample_profile_fields forced;
  let '(template_id, template, personality, depression_profile) :=
    (fields : string * Template * Personality * gmap string string) in
  match forced_skip_life_background forced with
  | Some true =>
      mret (mkProfile template_id template personality depression_profile
              None None)
  | _ =>
      bg_result ← call_background_writer json_loads writer_reply
                    depression_profile (CONTEXT_DOMAINS personality);
      mret (mkProfile template_id template personality depression_profile
              bg_result.1 (Some bg_result.2))
  end.

End ProfileGeneration.

(** *** Concrete inputs used in the examples *)

Definition zero_tape : Random := mkRandom (fun _ => 0%N) 0.

(** A tape whose draws differ from cell to cell. *)
Definition stepping_tape : Random :=
  mkRandom (fun n => (N.of_nat (7 * n + 3) * 1000000000000000)%N) 0.

(** A tape whose raw draws are all 1: every [_randbelow] returns 1 and
    every [random()] returns 2^-53. *)
Definition ones_tape : Random := mkRandom (fun _ => 1%N) 0.

(** Another order of iteration over a set: last occurrences first. *)
Definition reversed_order : SetOrder.
Proof.
  refine (mkSetOrder (fun l => rev (remove_dups l)) _ _).
  - intros l. rewrite <- Permutation_rev. apply NoDup_remove_dups.
  - intros l x. rewrite <- Permutation_rev. apply elem_of_remove_dups.
Defined.

Definition neuroticism_high : Template :=
  mkTemplate
    "Intense sadness, guilt, irritability, emotional volatility"
    "Rumination, self-blame, helplessness, catastrophic thinking"
    "Fatigue, sleep disturbance, tension, agitation"
    [ "Depressed mood"; "Fatigue or loss of energy";
      "Feelings of worthlessness or excessive guilt";
      "Difficulty concentrating or indecisiveness" ]
    "MDD with anxious distress"
    [ "worry-prone"; "self-blaming"; "threat-sensitivity";
      "emotionally-reactive"; "ruminative" ].

Definition medium_intensity : gmap string string :=
  list_to_map (map (fun s => (s, "MED")) (emphasized_symptoms neuroticism_high)).

(** [json.loads] on the two writer replies of the examples: the empty
    object [{}] and [plain_reply]. *)
Definition braces_json : string -> option json := fun text =>
  if String.eqb text "{}" then Some (JObj []) else None.

(** ** The agent identifier (session_runner.py, lines 549-579) *)

(** [sorted(l)] on strings: by code point, that is, bytewise on the
    encoded strings. *)
Definition sorted (l : list string) : list string := merge_sort String.le l.

(** The labelled values of [profile_key_parts], each a label ending in
    [=] and the value that the f-string puts after it. *)
Definition profile_key_fields
  (template_id : string) (personality : Personality)
  (doctor_persona_id : string) (doctor_microstyle : gmap string string)
  : list (string * string) :=
  let voice_style := VOICE_STYLE personality in
  let modifiers := MODIFIERS personality in
  [ ("TEMPLATE=", template_id);
    ("P_PACING=", default "MED" (PACING personality));
    ("DENSITY=", default "MED" (EPISODE_DENSITY personality));
    ("AGE=", default EmptyString (AGE_RANGE personality));
    ("TRUST=", default "neutral" (voice_style !! "trust"));
    ("VERBOSITY=", default "moderate" (voice_style !! "verbosity"));
    ("EXPRESSIVENESS=", default "balanced" (voice_style !! "expressiveness"));
    ("INTELLECT=", default "average" (voice_style !! "intellect"));
    ("P_HUMOR=", default "none" (voice_style !! "humor"));
    ("MODS=", join "," (sorted modifiers));
    ("PERSONA=", doctor_persona_id);
    ("D_WARMTH=", default "med" (doctor_microstyle !! "warmth"));
    ("D_DIRECT=", default "med" (doctor_microstyle !! "directness"));
    ("D_PACING=", default "med" (doctor_microstyle !! "pacing"));
    ("D_HUMOR=", default "none" (doctor_microstyle !! "humor"));
    ("D_ANIMATION=", default "med" (doctor_microstyle !! "animation")) ].

(** [for symptom in sorted(depression_profile.keys())] *)
Definition symptom_fields (depression_profile : gmap string string)
  : list (string * string) :=
  map (fun symptom =>
         (symptom +:+ "=", default EmptyString (depression_profile !! symptom)))
    (sorted (map_to_list depression_profile).*1).

Definition render_field (field : string * string) : string :=
  field.1 +:+ field.2.

Definition profile_key_parts
  (template_id : string) (personality : Personality)
  (doctor_persona_id : string) (doctor_microstyle : gmap string string)
  (depression_profile : gmap string string) : list string :=
  map render_field
    (profile_key_fields template_id personality doctor_persona_id doctor_microstyle
     ++ symptom_fields depression_profile).

Definition profile_key
  (template_id : string) (personality : Personality)
  (doctor_persona_id : string) (doctor_microstyle : gmap string string)
  (depression_profile : gmap string string) : string :=
  join "|" (profile_key_parts template_id personality doctor_persona_id
              doctor_microstyle depression_profile).

(** The sixteen levers that the comment of lines 549-550 speaks of, by
    name, and the value that a session has for each: the patient's template,
    pacing, density, age range, five voice-style dimensions and modifiers,
    the doctor's persona and five microstyle sliders.  This follows the
    words of the source's comment and of the specification; the theorems
    compare it with [profile_key_fields], which follows the code. *)
Inductive Lever :=
  | L_TEMPLATE | L_P_PACING | L_DENSITY | L_AGE | L_TRUST | L_VERBOSITY
  | L_EXPRESSIVENESS | L_INTELLECT | L_P_HUMOR | L_MODS | L_PERSONA
  | L_D_WARMTH | L_D_DIRECT | L_D_PACING | L_D_HUMOR | L_D_ANIMATION.

#[global] Instance Lever_eq_dec : EqDecision Lever.
Proof. solve_decision. Defined.

Definition levers : list Lever :=
  [ L_TEMPLATE; L_P_PACING; L_DENSITY; L_AGE; L_TRUST; L_VERBOSITY;
    L_EXPRESSIVENESS; L_INTELLECT; L_P_HUMOR; L_MODS; L_PERSONA;
    L_D_WARMTH; L_D_DIRECT; L_D_PACING; L_D_HUMOR; L_D_ANIMATION ].

Definition lever_value (lever : Lever)
  (template_id : string) (personality : Personality)
  (doctor_persona_id : string) (doctor_microstyle : gmap string string)
  : string :=
  match lever with
  | L_TEMPLATE => template_id
  | L_P_PACING => default "MED" (PACING personality)
  | L_DENSITY => default "MED" (EPISODE_DENSITY personality)
  | L_AGE => default EmptyString (AGE_RANGE personality)
  | L_TRUST => default "neutral" (VOICE_STYLE personality !! "trust")
  | L_VERBOSITY => default "moderate" (VOICE_STYLE personality !! "verbosity")
  | L_EXPRESSIVENESS =>
      default "balanced" (VOICE_STYLE personality !! "expressiveness")
  | L_INTELLECT => default "average" (VOICE_STYLE personality !! "intellect")
  | L_P_HUMOR => default "none" (VOICE_STYLE personality !! "humor")
  | L_MODS => join "," (sorted (MODIFIERS personality))
  | L_PERSONA => doctor_persona_id
  | L_D_WARMTH => default "med" (doctor_microstyle !! "warmth")
  | L_D_DIRECT => default "med" (doctor_microstyle !! "directness")
  | L_D_PACING => default "med" (doctor_microstyle !! "pacing")
  | L_D_HUMOR => default "none" (doctor_microstyle !! "humor")
  | L_D_ANIMATION => default "med" (doctor_microstyle !! "animation")
  end.

Definition lever_label (lever : Lever) : string :=
  match lever with
  | L_TEMPLATE => "TEMPLATE="
  | L_P_PACING => "P_PACING="
  | L_DENSITY => "DENSITY="
  | L_AGE => "AGE="
  | L_TRUST => "TRUST="
  | L_VERBOSITY => "VERBOSITY="
  | L_EXPRESSIVENESS => "EXPRESSIVENESS="
  | L_INTELLECT => "INTELLECT="
  | L_P_HUMOR => "P_HUMOR="
  | L_MODS => "MODS="
  | L_PERSONA => "PERSONA="
  | L_D_WARMTH => "D_WARMTH="
  | L_D_DIRECT => "D_DIRECT="
  | L_D_PACING => "D_PACING="
  | L_D_HUMOR => "D_HUMOR="
  | L_D_ANIMATION => "D_ANIMATION="
  end.

Section AgentId.

(** [hashlib.sha256(s.encode()).hexdigest()] *)
Variable sha256_hexdigest : string -> string.

Definition agent_hash (profile_key : string) : string :=
  String.substring 0 16 (sha256_hexdigest profile_key).

Definition agent_id
  (template_id : string) (personality : Personality)
  (doctor_persona_id : string) (doctor_microstyle : gmap string string)
  (depression_profile : gmap string string) : string :=
  "AGENT_" +:+ agent_hash (profile_key template_id personality doctor_persona_id
                             doctor_microstyle depression_profile).

End AgentId.

(** *** Concrete inputs used in the examples *)

Definition sample_personality (context_domains : list string) : Personality :=
  {| BIG5_TEMPLATE := "NEUROTICISM_HIGH";
     AFFECTIVE_STYLE := affective neuroticism_high;
     COGNITIVE_STYLE := cognitive neuroticism_high;
     SOMATIC_STYLE := somatic neuroticism_high;
     SPECIFIER_HINT := specifier neuroticism_high;
     MODIFIERS := ["worry-prone"; "ruminative"];
     PACING := Some "MED";
     CONTEXT_DOMAINS := context_domains;
     EPISODE_DENSITY := Some "HIGH";
     VOICE_STYLE := list_to_map [("trust", "neutral"); ("verbosity", "terse")];
     PERSONAL_BACKGROUND := list_to_map [("work_role", "student")];
     AGE_RANGE := Some "20-24";
     EMPH_INTENSITY := medium_intensity;
     EXTRA_ELEVATED_SYMPTOMS := [] |}.

Definition sample_microstyle : gmap string string :=
  list_to_map [("warmth", "high"); ("directness", "med"); ("pacing", "med");
               ("humor", "none"); ("animation", "moderate")].

Definition sample_depression_profile : gmap string string :=
  <["Depressed mood" := "OFTEN"]> all_none.

(** ** Further parts of the session runner and of the doctor personas *)

(** The line feed. *)
Definition newline : string := String "010"%char EmptyString.

(** [readable_conversation] (session_runner.py, lines 1351-1364): the
    transcript with the speakers named. *)
Definition speaker_of (role : string) : string :=
  if String.eqb role "assistant" then "doctor"
  else if String.eqb role "user" then "patient"
  else role.

Definition readable_conversation (conversation_history : list (string * string))
  : list (string * string) :=
  map (fun msg => (speaker_of msg.1, msg.2)) conversation_history.

(** [n] exchanges between two speakers. *)
Fixpoint exchanges (a b : string) (n : nat) : list string :=
  match n with
  | O => []
  | S n' => a :: b :: exchanges a b n'
  end.

(** The overrides that cli.py builds for [--forced-template]. *)
Definition forced_template (template_id : string) : Forced :=
  mkForced (Some template_id) None None None None None None None None None
    None None.

(** [risk_summary] (session_runner.py, lines 648-661). *)
Definition risk_summary (depression_profile : gmap string string) : string :=
  let suicidal_freq :=
    default "NONE" (depression_profile !! "Recurrent thoughts of death or suicide") in
  let depressed_freq := default "NONE" (depression_profile !! "Depressed mood") in
  if str_in suicidal_freq ["SOME"; "OFTEN"] then
    "high risk: recent suicidal thoughts"
  else if str_in depressed_freq ["OFTEN"] || String.eqb suicidal_freq "RARE" then
    "moderate depression, monitor closely"
  else if str_in depressed_freq ["SOME"] then
    "mild to moderate depression, no immediate risk"
  else "low risk, minimal symptoms".

(** ** prompts/doctor_personas.py *)

Definition MICROSTYLE_OPTIONS : list (string * list string) :=
  [ ("warmth", ["low"; "med"; "high"]);
    ("directness", ["low"; "med"; "high"]);
    ("pacing", ["slow"; "med"; "brisk"]);
    ("humor", ["none"; "light"; "dry"]);
    ("animation", ["reserved"; "moderate"; "animated"]) ].

(** [MICROSTYLE_OPTIONS[slider]] *)
Definition microstyle_options (slider : string) : Rand (list string) :=
  match list_find (fun kv => kv.1 = slider) MICROSTYLE_OPTIONS with
  | Some (_, (_, options)) => mret options
  | None => raise KeyError
  end.

(** [sample_doctor_microstyle()]; the generator is the one of the module
    [random]. *)
Definition sample_doctor_microstyle : Rand (gmap string string) :=
  options ← microstyle_options "warmth";
  warmth ← choice options;
  options ← microstyle_options "directness";
  directness ← choice options;
  options ← microstyle_options "pacing";
  pacing ← choice options;
  options ← microstyle_options "humor";
  humor ← choices options [6 # 1; 3 # 1; 1 # 1]%Q;
  options ← microstyle_options "animation";
  animation ← choices options [4 # 1; 4 # 1; 2 # 1]%Q;
  mret (<["animation" := animation]>
          (<["humor" := humor]>
             (<["pacing" := pacing]>
                (<["directness" := directness]>
                   (<["warmth" := warmth]> (∅ : gmap string string)))))).

(** [microstyle_pacing = doctor_microstyle.get("pacing", "med")] *)
Definition microstyle_pacing (doctor_microstyle : gmap string string) : string :=
  default "med" (doctor_microstyle !! "pacing").

(** A session state at the head of the loop after nine turns that asked
    the nine items in their order, under the budget of med pacing. *)
Definition covered_state : SessionState :=
  {| conversation_history := [("assistant", "Hello."); ("user", "Hi.")];
     dsm_pool := [];
     asked_question_order := DSM_ITEMS;
     doctor_manager_decisions := [];
     patient_manager_decisions := [];
     doctor_turns_elapsed := 9;
     disclosure_state := JStr "PARTIAL";
     dsm_symptom_key_var := Some (JStr "Recurrent thoughts of death or suicide");
     patient_reply := "Hi.";
     target_turns_per_symptom := 2 # 1;
     max_doctor_turns := 24;
     dsm_turn_budget := 18 |}.

(** * Properties of the dialogue loop *)

(** Case analysis on the integer tests of the goal. *)
Ltac ztest :=
  repeat match goal with
    | |- context [?a =? ?b] => destruct (Z.eqb_spec a b)
    | |- context [?a <=? ?b] => destruct (Z.leb_spec a b)
    | |- context [?a <? ?b] => destruct (Z.ltb_spec a b)
    end.

Ltac unbind :=
  unfold mbind, result_bind, rbind in *.

(** Case analysis on the first monadic computation that blocks the goal or
    a hypothesis. *)
Ltac split_result H :=
  match type of H with
  | context [match ?m with Ok _ => _ | Raise _ => _ end] =>
      let E := fresh "E" in
      destruct m eqn:E; [ | discriminate H ]
  end.

Lemma list_remove_head (x : string) (l : list string) :
  list_remove x (x :: l) = l.
Proof. simpl. by rewrite String.eqb_refl. Qed.

Lemma list_remove_perm (x : string) (l : list string) :
  x ∈ l → l ≡ₚ x :: list_remove x l.
Proof.
  induction l as [|y l IH]; intros Hin.
  - by apply elem_of_nil in Hin.
  - simpl. destruct (String.eqb_spec x y) as [->|Hne]; [done|].
    apply elem_of_cons in Hin as [?|Hin]; [done|].
    rewrite (IH Hin) at 1. apply Permutation_swap.
Qed.

Lemma list_remove_length (x : string) (l : list string) :
  x ∈ l → S (length (list_remove x l)) = length l.
Proof.
  intros Hin. by rewrite (Permutation_length (list_remove_perm x l Hin)).
Qed.

Lemma in_pool_spec (k : json) (pool : list string) :
  in_pool k pool = true ↔ ∃ x, k = JStr x ∧ x ∈ pool.
Proof.
  unfold in_pool. rewrite existsb_exists. split.
  - intros (x & Hin & Heq). destruct k; try discriminate. simpl in Heq.
    apply String.eqb_eq in Heq as ->. exists x. split; [done|].
    by apply list_elem_of_In.
  - intros (x & -> & Hin). exists x. split; [by apply list_elem_of_In|].
    simpl. apply String.eqb_refl.
Qed.

(** How one pass changes the pool and the audit list. *)
Definition asks (s s' : SessionState) (x : string) : Prop :=
  x ∈ dsm_pool s
  ∧ dsm_pool s' = list_remove x (dsm_pool s)
  ∧ asked_question_order s' = asked_question_order s ++ [x]
  ∧ dsm_symptom_key_var s' = Some (JStr x).

Definition asks_nothing (s s' : SessionState) : Prop :=
  dsm_pool s' = dsm_pool s
  ∧ asked_question_order s' = asked_question_order s.

Definition same_budget (s s' : SessionState) : Prop :=
  max_doctor_turns s' = max_doctor_turns s
  ∧ dsm_turn_budget s' = dsm_turn_budget s
  ∧ target_turns_per_symptom s' = target_turns_per_symptom s.

Section SessionFacts.

Variable json_loads : string -> option json.
Variable py_str : json -> string.
Variable voice_style : gmap string string.
Variable env : Env.

Abbreviation doctor_turn := (doctor_turn json_loads voice_style env).
Abbreviation loop_body := (loop_body json_loads py_str voice_style env).
Abbreviation branch_move := (branch_move json_loads py_str env).
Abbreviation dialogue_loop := (dialogue_loop json_loads py_str voice_style env).
Abbreviation run_dialogue_loop := (run_dialogue_loop json_loads py_str voice_style env).

Lemma apply_dsm_choice_spec pool asked key instr pool' asked' key' instr' :
  apply_dsm_choice pool asked key instr = Ok (pool', asked', key', instr') →
  (pool = [] ∧ pool' = [] ∧ asked' = asked ∧ key' = key)
  ∨ (∃ x, x ∈ pool ∧ pool' = list_remove x pool ∧ asked' = asked ++ [x]
          ∧ key' = Some (JStr x)
          ∧ (if in_pool (default JNull key) pool then key = Some (JStr x)
             else ∃ rest, pool = x :: rest)).
Proof.
  unfold apply_dsm_choice. destruct key as [k|]; [|discriminate].
  destruct (in_pool k pool) eqn:Hin.
  - simpl. rewrite Hin. apply in_pool_spec in Hin as (x & -> & Hx).
    intros [= <- <- <- <-]. right. exists x. by repeat split.
  - assert (dsm_fallback pool asked (Some k) instr = (pool', asked', key', instr') →
            (pool = [] ∧ pool' = [] ∧ asked' = asked ∧ key' = Some k)
            ∨ (∃ x, x ∈ pool ∧ pool' = list_remove x pool ∧ asked' = asked ++ [x]
                    ∧ key' = Some (JStr x) ∧ ∃ rest, pool = x :: rest)) as Hfb.
    { unfold dsm_fallback. destruct pool as [|first rest].
      - intros [= <- <- <- <-]. by left.
      - intros [= <- <- <- <-]. right. exists first.
        repeat split; [apply elem_of_cons; by left|by exists rest]. }
    intros [= H]. destruct (Hfb H) as [?|(x & ? & ? & ? & ? & ?)]; [by left|].
    right. exists x. simpl. rewrite Hin. by repeat split.
Qed.

(** The tail of the body: one more turn, the frozen budget, and at most
    one item moved from the pool to the audit list. *)
Lemma doctor_turn_spec s mv s' :
  doctor_turn s mv = Ok s' →
  doctor_turns_elapsed s' = doctor_turns_elapsed s + 1
  ∧ same_budget s s'
  ∧ doctor_manager_decisions s' = doctor_manager_decisions s
  ∧ (∃ g, parse_patient_manager_output json_loads
            (patient_manager_reply env (doctor_turns_elapsed s + 1))
            voice_style (disclosure_state s) = Ok g
          ∧ disclosure_state s' = disclosure_stage g)
  ∧ (if eq_str (mv_next_action mv) "DSM"
     then (dsm_pool s = [] ∧ asks_nothing s s'
           ∧ dsm_symptom_key_var s' = mv_dsm_symptom_key mv)
          ∨ (∃ x, asks s s' x
                  ∧ (if in_pool (default JNull (mv_dsm_symptom_key mv)) (dsm_pool s)
                     then mv_dsm_symptom_key mv = Some (JStr x)
                     else ∃ rest, dsm_pool s = x :: rest))
     else asks_nothing s s' ∧ dsm_symptom_key_var s' = mv_dsm_symptom_key mv).
Proof.
  unfold doctor_turn. unbind. intros H.
  split_result H. destruct a as [[[pool asked] key] instr].
  split_result H. split_result H. injection H as <-. unfold asks, asks_nothing. simpl.
  split; [done|]. split; [done|]. split; [done|].
  split; [by eexists|].
  destruct (eq_str (mv_next_action mv) "DSM").
  - apply apply_dsm_choice_spec in E as [(-> & -> & -> & ->)|(x & ? & ? & ? & ? & ?)].
    + left. by repeat split.
    + right. exists x. by repeat split.
  - by injection E as <- <- <- <-.
Qed.

Lemma log_decision_fields s mode mv :
  let s1 := log_decision s mode mv in
  dsm_pool s1 = dsm_pool s
  ∧ asked_question_order s1 = asked_question_order s
  ∧ doctor_turns_elapsed s1 = doctor_turns_elapsed s
  ∧ disclosure_state s1 = disclosure_state s
  ∧ dsm_symptom_key_var s1 = dsm_symptom_key_var s
  ∧ same_budget s s1.
Proof. by repeat split. Qed.

(** A pass that ends in [break]: only the post-DSM branch does, and it
    leaves every counter as it was. *)
Lemma loop_body_break s s' :
  loop_body s = Ok (Break s') →
  select_mode s = POST_DSM
  ∧ doctor_turns_elapsed s' = doctor_turns_elapsed s
  ∧ asks_nothing s s'
  ∧ disclosure_state s' = disclosure_state s
  ∧ dsm_symptom_key_var s' = dsm_symptom_key_var s
  ∧ same_budget s s'.
Proof.
  unfold loop_body. unbind. intros H. split_result H.
  destruct (select_mode s) eqn:Hm;
    try (split_result H; discriminate H).
  destruct (eq_str (mv_next_action a) "END");
    [|split_result H; discriminate H].
  injection H as <-. by repeat split.
Qed.

Lemma branch_move_key s mode mv :
  branch_move mode s = Ok mv →
  match mode with
  | POST_DSM => mv_dsm_symptom_key mv = dsm_symptom_key_var s
  | FORCE_DSM =>
      mv_next_action mv = JStr "DSM"
      ∧ ∃ first rest, dsm_pool s = first :: rest
                      ∧ mv_dsm_symptom_key mv = Some (JStr first)
  | _ => ∃ d, parse_doctor_manager_output json_loads py_str
                (doctor_manager_reply env (doctor_turns_elapsed s + 1))
                (dsm_pool s) (random_draw env (doctor_turns_elapsed s + 1)) = Ok d
              ∧ mv_next_action mv = next_action d
              ∧ mv_dsm_symptom_key mv = Some (dsm_symptom_key d)
  end.
Proof.
  unfold branch_move. unbind. destruct mode; intros H.
  - split_result H. by injection H as <-.
  - destruct (dsm_pool s) as [|first rest] eqn:Hp; [discriminate|].
    split_result H. injection H as <-. simpl. split; [done|]. by exists first, rest.
  - split_result H. injection H as <-. by eexists.
  - split_result H. injection H as <-. by eexists.
Qed.

(** A pass that reaches the bottom of the body. *)
Lemma loop_body_continue s s' :
  loop_body s = Ok (Continue s') →
  doctor_turns_elapsed s' = doctor_turns_elapsed s + 1
  ∧ same_budget s s'
  ∧ (∃ g, parse_patient_manager_output json_loads
            (patient_manager_reply env (doctor_turns_elapsed s + 1))
            voice_style (disclosure_state s) = Ok g
          ∧ disclosure_state s' = disclosure_stage g)
  ∧ ∃ mv, branch_move (select_mode s) s = Ok mv
      ∧ (if eq_str (mv_next_action mv) "DSM"
         then (dsm_pool s = [] ∧ asks_nothing s s'
               ∧ dsm_symptom_key_var s' = mv_dsm_symptom_key mv)
              ∨ (∃ x, asks s s' x
                   ∧ (if in_pool (default JNull (mv_dsm_symptom_key mv)) (dsm_pool s)
                      then mv_dsm_symptom_key mv = Some (JStr x)
                      else ∃ rest, dsm_pool s = x :: rest))
         else asks_nothing s s' ∧ dsm_symptom_key_var s' = mv_dsm_symptom_key mv).
Proof.
  unfold loop_body. unbind. intros H. split_result H.
  assert (doctor_turn (log_decision s (select_mode s) a) a = Ok s') as Ht.
  { destruct (select_mode s); try (split_result H; by injection H as <-).
    destruct (eq_str (mv_next_action a) "END"); [discriminate|].
    split_result H; by injection H as <-. }
  apply doctor_turn_spec in Ht as (He & Hb & _ & Hg & Hd).
  split; [done|]. split; [done|]. split; [done|]. by exists a.
Qed.

(** *** The decision tree *)

Lemma select_mode_post s : select_mode s = POST_DSM ↔ dsm_pool s = [].
Proof.
  unfold select_mode, remaining_dsm_items.
  destruct (dsm_pool s) as [|x l] eqn:Hp; simpl length.
  - by simpl.
  - destruct (Z.eqb_spec (Z.of_nat (S (length l))) 0); [lia|].
    split; [|done]. by repeat case_match.
Qed.

Lemma select_mode_force s :
  select_mode s = FORCE_DSM
  ↔ dsm_pool s ≠ [] ∧ remaining_total_turns s ≤ remaining_dsm_items s.
Proof.
  unfold select_mode.
  destruct (remaining_dsm_items s =? 0) eqn:H0.
  - split; [done|]. intros [Hne _]. unfold remaining_dsm_items in H0.
    destruct (dsm_pool s); [done|simpl in H0; lia].
  - destruct (remaining_total_turns s <=? remaining_dsm_items s) eqn:Hle.
    + split; [|done]. intros _. split; [|lia].
      intros Hnil. unfold remaining_dsm_items in H0. rewrite Hnil in H0.
      simpl in H0. lia.
    + split; [by repeat case_match|]. intros [_ ?]. lia.
Qed.

Lemma Qltb_lt (x y : Q) : Qltb x y = true ↔ (x < y)%Q.
Proof.
  unfold Qltb. rewrite Qlt_alt. by destruct (x ?= y)%Q.
Qed.

Lemma select_mode_ratio s :
  dsm_pool s ≠ [] →
  ¬ remaining_total_turns s ≤ remaining_dsm_items s →
  ratio s = Some (inject_Z (remaining_dsm_turns s)
                  / inject_Z (remaining_dsm_items s))%Q
  ∧ (select_mode s = LOW_TURNS
     ↔ (inject_Z (remaining_dsm_turns s) / inject_Z (remaining_dsm_items s)
        < target_turns_per_symptom s)%Q)
  ∧ (select_mode s = NORMAL
     ↔ ¬ (inject_Z (remaining_dsm_turns s) / inject_Z (remaining_dsm_items s)
          < target_turns_per_symptom s)%Q).
Proof.
  intros Hne Hgt.
  assert (0 < remaining_dsm_items s) as Hpos.
  { unfold remaining_dsm_items. destruct (dsm_pool s); [done|simpl; lia]. }
  assert (ratio s = Some (inject_Z (remaining_dsm_turns s)
                          / inject_Z (remaining_dsm_items s))%Q) as Hr.
  { unfold ratio. by destruct (Z.ltb_spec 0 (remaining_dsm_items s)); [|lia]. }
  split; [done|].
  unfold select_mode, ratio_below_target. rewrite Hr.
  destruct (Z.eqb_spec (remaining_dsm_items s) 0); [lia|].
  destruct (Z.leb_spec (remaining_total_turns s) (remaining_dsm_items s)); [lia|].
  destruct (Qltb _ _) eqn:Hlt.
  - apply Qltb_lt in Hlt. by split.
  - assert (¬ (inject_Z (remaining_dsm_turns s) / inject_Z (remaining_dsm_items s)
               < target_turns_per_symptom s)%Q) as Hn.
    { intros Hc. apply Qltb_lt in Hc. congruence. }
    by split.
Qed.

(** *** Coverage *)

(** Every item is either asked or pending, and the turns that are left
    suffice for the pending ones. *)
Definition covered (s : SessionState) : Prop :=
  asked_question_order s ++ dsm_pool s ≡ₚ DSM_ITEMS
  ∧ Z.of_nat (length (dsm_pool s)) ≤ max_doctor_turns s - doctor_turns_elapsed s.

Lemma asks_perm s s' x :
  asks s s' x →
  asked_question_order s' ++ dsm_pool s' ≡ₚ asked_question_order s ++ dsm_pool s
  ∧ S (length (dsm_pool s')) = length (dsm_pool s).
Proof.
  intros (Hin & -> & -> & _). split.
  - rewrite <- app_assoc. simpl. by rewrite <- (list_remove_perm x _ Hin).
  - by apply list_remove_length.
Qed.

Lemma covered_step s s' :
  covered s →
  doctor_turns_elapsed s < max_doctor_turns s →
  loop_body s = Ok (Continue s') →
  covered s'.
Proof.
  intros [Hperm Hlen] Hlt Hbody.
  apply loop_body_continue in Hbody as (He & (Hm & _ & _) & _ & mv & Hmv & Hch).
  unfold covered. rewrite He, Hm.
  destruct (decide (select_mode s = FORCE_DSM)) as [Hf|Hnf].
  - rewrite Hf in Hmv. apply branch_move_key in Hmv as (Ha & first & rest & Hp & _).
    rewrite Ha in Hch. simpl in Hch.
    destruct Hch as [(Hnil & _)|(x & Hasks & _)]; [congruence|].
    apply asks_perm in Hasks as [Hp' Hl']. rewrite Hp'. split; [done|]. lia.
  - assert (Z.of_nat (length (dsm_pool s))
            < max_doctor_turns s - doctor_turns_elapsed s) as Hslack.
    { destruct (decide (dsm_pool s = [])) as [->|Hne]; [simpl; lia|].
      destruct (Z.le_gt_cases (remaining_total_turns s) (remaining_dsm_items s))
        as [Hle|Hgt]; [|unfold remaining_total_turns, remaining_dsm_items in Hgt; lia].
      exfalso. apply Hnf. by apply select_mode_force. }
    assert (asks_nothing s s' ∨ ∃ x, asks s s' x) as [[-> ->]|(x & Hasks)].
    { destruct (eq_str (mv_next_action mv) "DSM").
      - destruct Hch as [(_ & ? & _)|(x & ? & _)]; [by left|right; by exists x].
      - left. by destruct Hch. }
    + split; [done|lia].
    + apply asks_perm in Hasks as [Hp' Hl']. rewrite Hp'. split; [done|lia].
Qed.

Lemma covered_result fuel s s' :
  covered s →
  dialogue_loop fuel s = Some (Ok s') →
  covered s' ∧ dsm_pool s' = [].
Proof.
  revert s. induction fuel as [|fuel IH]; intros s Hc; simpl.
  - destruct (doctor_turns_elapsed s <? max_doctor_turns s) eqn:Hlt; [done|].
    intros [= <-]. split; [done|]. destruct Hc as [_ Hlen].
    destruct (dsm_pool s); [done|simpl in Hlen; lia].
  - destruct (doctor_turns_elapsed s <? max_doctor_turns s) eqn:Hlt.
    + destruct (loop_body s) as [[s1|s1]|] eqn:Hb; [|intros [= <-]|done].
      * apply IH. apply (covered_step s); [done|lia|done].
      * apply loop_body_break in Hb as (Hm & He & [Hp Ha] & _ & _ & (Hx & _)).
        apply select_mode_post in Hm. destruct Hc as [Hperm Hlen].
        unfold covered. rewrite Hp, Ha, He, Hx, Hm in *. split; [|done].
        split; [done|]. simpl in *. lia.
    + intros [= <-]. split; [done|]. destruct Hc as [_ Hlen].
      destruct (dsm_pool s); [done|simpl in Hlen; lia].
Qed.

(** *** Termination: the fuel of [run_dialogue_loop] is never used up. *)

Lemma dialogue_loop_fuel fuel s :
  max_doctor_turns s - doctor_turns_elapsed s ≤ Z.of_nat fuel →
  ∃ r, dialogue_loop fuel s = Some r.
Proof.
  revert s. induction fuel as [|fuel IH]; intros s Hf; simpl.
  - destruct (Z.ltb_spec (doctor_turns_elapsed s) (max_doctor_turns s));
      [lia|by eexists].
  - destruct (doctor_turns_elapsed s <? max_doctor_turns s); [|by eexists].
    destruct (loop_body s) as [[s1|s1]|] eqn:Hb; [|by eexists..].
    apply IH. apply loop_body_continue in Hb as (He & (Hm & _) & _). lia.
Qed.

Lemma run_dialogue_loop_total s : ∃ r, run_dialogue_loop s = Some r.
Proof. apply dialogue_loop_fuel. lia. Qed.

(** The result of a run is a state the loop reaches, left either by the
    [while] test or by [break]. *)
Lemma dialogue_loop_reaches fuel s0 s s' :
  loop_reaches json_loads py_str voice_style env s0 s →
  dialogue_loop fuel s = Some (Ok s') →
  ∃ s1, loop_reaches json_loads py_str voice_style env s0 s1
        ∧ ((s' = s1 ∧ ¬ doctor_turns_elapsed s1 < max_doctor_turns s1)
           ∨ (doctor_turns_elapsed s1 < max_doctor_turns s1
              ∧ loop_body s1 = Ok (Break s'))).
Proof.
  revert s. induction fuel as [|fuel IH]; intros s Hr; simpl.
  - destruct (doctor_turns_elapsed s <? max_doctor_turns s) eqn:Hlt; [done|].
    intros [= <-]. exists s. split; [done|]. left. split; [done|lia].
  - destruct (doctor_turns_elapsed s <? max_doctor_turns s) eqn:Hlt.
    + destruct (loop_body s) as [[s1|s1]|] eqn:Hb; [|intros [= <-]|done].
      * apply IH. eapply reaches_next; [done|lia|done].
      * exists s. split; [done|]. right. split; [lia|done].
    + intros [= <-]. exists s. split; [done|]. left. split; [done|lia].
Qed.

(** *** Replies that raise nothing *)

Lemma parse_doctor_manager_output_ok reply keys draw :
  doctor_manager_reply_ok json_loads reply = true →
  ∃ d, parse_doctor_manager_output json_loads py_str reply keys draw = Ok d.
Proof.
  unfold doctor_manager_reply_ok, parse_doctor_manager_output.
  destruct (json_loads _) as [[| | | | |fields]|]; try done.
  - simpl. destruct (instruction_or_empty _) as [[instr blank]|]; [|done].
    intros _. by eexists.
  - intros _. destruct keys; by eexists.
Qed.

Lemma parse_post_dsm_manager_output_ok reply :
  doctor_manager_reply_ok json_loads reply = true →
  ∃ d, parse_post_dsm_manager_output json_loads reply = Ok d.
Proof.
  unfold doctor_manager_reply_ok, parse_post_dsm_manager_output.
  destruct (json_loads _) as [[| | | | |fields]|]; try done.
  - simpl. destruct (instruction_or_empty _) as [[instr blank]|]; [|done].
    intros _. by eexists.
  - intros _. by eexists.
Qed.

Lemma parse_patient_manager_output_ok reply vs cur :
  patient_manager_reply_ok json_loads reply = true →
  ∃ g, parse_patient_manager_output json_loads reply vs cur = Ok g.
Proof.
  unfold patient_manager_reply_ok, parse_patient_manager_output.
  destruct (json_loads _) as [[| | | | |fields]|]; try done; intros _; by eexists.
Qed.

(** Once the pool is empty the variable [dsm_symptom_key] holds a string:
    the item asked last. *)
Definition key_bound (s : SessionState) : Prop :=
  dsm_pool s = [] → ∃ x, dsm_symptom_key_var s = Some (JStr x).

Lemma key_bound_step s s' :
  key_bound s → loop_body s = Ok (Continue s') → key_bound s'.
Proof.
  intros Hk Hb. apply loop_body_continue in Hb as (_ & _ & _ & mv & Hmv & Hch).
  intros Hnil.
  assert (dsm_pool s = [] → mv_dsm_symptom_key mv = dsm_symptom_key_var s) as Hpost.
  { intros Hp. apply select_mode_post in Hp as Hm. rewrite Hm in Hmv.
    by apply branch_move_key in Hmv. }
  destruct (eq_str (mv_next_action mv) "DSM").
  - destruct Hch as [(Hp & _ & ->)|(x & (_ & _ & _ & ->) & _)]; [|by exists x].
    rewrite (Hpost Hp). by apply Hk.
  - destruct Hch as [[Hp _] ->]. rewrite Hp in Hnil. rewrite (Hpost Hnil). by apply Hk.
Qed.

Lemma doctor_turn_ok s mv :
  patient_manager_reply_ok json_loads
    (patient_manager_reply env (doctor_turns_elapsed s + 1)) = true →
  (eq_str (mv_next_action mv) "DSM" = true →
   match dsm_pool s with
   | [] => ∃ x, mv_dsm_symptom_key mv = Some (JStr x)
   | _ => is_Some (mv_dsm_symptom_key mv)
   end) →
  ∃ s', doctor_turn s mv = Ok s'.
Proof.
  intros Hpm Hkey. unfold doctor_turn. unbind.
  destruct (parse_patient_manager_output_ok _ voice_style (disclosure_state s) Hpm)
    as [g Hg].
  destruct (eq_str (mv_next_action mv) "DSM") eqn:Hd.
  - specialize (Hkey eq_refl).
    assert (∃ pool asked x instr,
              apply_dsm_choice (dsm_pool s) (asked_question_order s)
                (mv_dsm_symptom_key mv) (mv_doctor_instruction mv)
              = Ok (pool, asked, Some (JStr x), instr)) as (pool & asked & x & instr & ->).
    { unfold apply_dsm_choice, dsm_fallback.
      destruct (dsm_pool s) as [|first rest] eqn:Hp.
      - destruct Hkey as [x ->]. simpl. by eexists _, _, _, _.
      - destruct Hkey as [k ->].
        destruct (in_pool k (first :: rest)) eqn:Hin; [|by eexists _, _, _, _].
        apply in_pool_spec in Hin as (x & -> & _). by eexists _, _, _, _. }
    rewrite Hg. unfold ground_truth_lookup. rewrite Hd. simpl.
    destruct (negb _); by eexists.
  - rewrite Hg. unfold ground_truth_lookup. rewrite Hd. by eexists.
Qed.

Lemma loop_body_ok s :
  replies_well_formed json_loads env → key_bound s →
  ∃ step, loop_body s = Ok step.
Proof.
  intros Hwf Hk. destruct (Hwf (doctor_turns_elapsed s + 1)) as [Hdm Hpm].
  assert (dsm_pool s ≠ [] →
          ∃ d, parse_doctor_manager_output json_loads py_str
                 (doctor_manager_reply env (doctor_turns_elapsed s + 1))
                 (dsm_pool s) (random_draw env (doctor_turns_elapsed s + 1))
               = Ok d) as Hparse
    by (intros _; by apply parse_doctor_manager_output_ok).
  assert (∀ mode mv,
            (eq_str (mv_next_action mv) "DSM" = true →
             match dsm_pool s with
             | [] => ∃ x, mv_dsm_symptom_key mv = Some (JStr x)
             | _ => is_Some (mv_dsm_symptom_key mv)
             end) →
            ∃ s', doctor_turn (log_decision s mode mv) mv = Ok s') as Htail
    by (intros mode mv Hkey; by apply doctor_turn_ok).
  unfold loop_body, branch_move. unbind.
  destruct (select_mode s) eqn:Hm.
  - apply select_mode_post in Hm as Hnil.
    destruct (parse_post_dsm_manager_output_ok _ Hdm) as [d ->].
    destruct (eq_str _ "END") eqn:Hend; [by eexists|].
    match goal with
    | |- context [log_decision s ?m ?mv] => destruct (Htail m mv) as [s' ->]
    end; [|by eexists].
    intros _. simpl. rewrite Hnil. by apply Hk.
  - apply select_mode_force in Hm as [Hne _].
    destruct (Hparse Hne) as [d ->].
    destruct (dsm_pool s) as [|first rest] eqn:Hp; [done|].
    match goal with
    | |- context [log_decision s ?m ?mv] => destruct (Htail m mv) as [s' ->]
    end; [|by eexists].
    intros _. by simpl.
  - assert (dsm_pool s ≠ []) as Hne
      by (intros Hn; apply select_mode_post in Hn; congruence).
    destruct (Hparse Hne) as [d ->].
    match goal with
    | |- context [log_decision s ?m ?mv] => destruct (Htail m mv) as [s' ->]
    end; [|by eexists].
    intros _. simpl. by destruct (dsm_pool s).
  - assert (dsm_pool s ≠ []) as Hne
      by (intros Hn; apply select_mode_post in Hn; congruence).
    destruct (Hparse Hne) as [d ->].
    match goal with
    | |- context [log_decision s ?m ?mv] => destruct (Htail m mv) as [s' ->]
    end; [|by eexists].
    intros _. simpl. by destruct (dsm_pool s).
Qed.

Lemma dialogue_loop_ok fuel s r :
  replies_well_formed json_loads env → key_bound s →
  dialogue_loop fuel s = Some r → ∃ s', r = Ok s'.
Proof.
  intros Hwf. revert s. induction fuel as [|fuel IH]; intros s Hk; simpl.
  - destruct (_ <? _); [done|]. intros [= <-]. by eexists.
  - destruct (_ <? _); [|intros [= <-]; by eexists].
    destruct (loop_body_ok s Hwf Hk) as [[s1|s1] Hb]; rewrite Hb.
    + apply IH. by apply (key_bound_step s).
    + intros [= <-]. by eexists.
Qed.

(** What a pass appends to [doctor_manager_decisions]. *)
Lemma loop_body_logs s step :
  loop_body s = Ok step →
  ∃ d, doctor_manager_decisions (step_state step)
       = doctor_manager_decisions s ++ [d]
       ∧ dm_manager_type d = manager_type_of (select_mode s)
       ∧ dm_turn d = doctor_turns_elapsed s + 1.
Proof.
  unfold loop_body. unbind. intros H. split_result H.
  assert (∀ s', doctor_turn (log_decision s (select_mode s) a) a = Ok s' →
          ∃ d, doctor_manager_decisions s' = doctor_manager_decisions s ++ [d]
               ∧ dm_manager_type d = manager_type_of (select_mode s)
               ∧ dm_turn d = doctor_turns_elapsed s + 1) as Ht.
  { intros s' Hs'. apply doctor_turn_spec in Hs' as (_ & _ & -> & _).
    simpl. by eexists. }
  destruct (select_mode s) eqn:Hm;
    try (split_result H; injection H as <-; by apply Ht).
  destruct (eq_str (mv_next_action a) "END").
  - injection H as <-. simpl. by eexists.
  - split_result H; injection H as <-; by apply Ht.
Qed.

End SessionFacts.

(** * Claims about the session state machine *)

Lemma DSM_ITEMS_NoDup : NoDup DSM_ITEMS.
Proof. apply (bool_decide_unpack _). by vm_compute. Qed.

Lemma loop_entry_covered (s : SessionState) :
  loop_entry s → NUM_DSM_ITEMS ≤ max_doctor_turns s → covered s.
Proof.
  intros (Hp & Ha & He) Hmax. unfold covered. rewrite Hp, Ha, He. split; [done|].
  unfold NUM_DSM_ITEMS in Hmax. simpl. lia.
Qed.

(** C1: from the head of the loop, with every DSM item pending and a turn
    budget of at least 9 + buffer, the loop never runs out of fuel, whatever
    the replies are; every run that completes has asked all nine DSM items,
    each exactly once, and has emptied the pool; and the run does complete
    when no reply makes a parser raise. *)
Theorem dsm_coverage_guarantee
  (json_loads : string → option json) (py_str : json → string)
  (voice_style : gmap string string) (env : Env) (s0 : SessionState) :
  loop_entry s0 →
  NUM_DSM_ITEMS + BUFFER_TURNS ≤ max_doctor_turns s0 →
  (∃ r, run_dialogue_loop json_loads py_str voice_style env s0 = Some r)
  ∧ (∀ s, run_dialogue_loop json_loads py_str voice_style env s0 = Some (Ok s) →
          asked_question_order s ≡ₚ DSM_ITEMS
          ∧ NoDup (asked_question_order s)
          ∧ dsm_pool s = [])
  ∧ (replies_well_formed json_loads env →
     ∃ s, run_dialogue_loop json_loads py_str voice_style env s0 = Some (Ok s)).
Proof.
  intros Hentry Hmax.
  assert (covered s0) as Hc.
  { apply loop_entry_covered; [done|]. unfold BUFFER_TURNS in Hmax. lia. }
  split; [apply run_dialogue_loop_total|]. split.
  - intros s Hrun. apply (covered_result _ _ _ _ _ _ _ Hc) in Hrun as [[Hperm _] Hnil].
    rewrite Hnil, app_nil_r in Hperm. split; [done|]. split; [|done].
    rewrite Hperm. apply DSM_ITEMS_NoDup.
  - intros Hwf.
    destruct (run_dialogue_loop_total json_loads py_str voice_style env s0) as [r Hr].
    assert (key_bound s0) as Hk.
    { intros Hnil. destruct Hentry as (Hp & _). by rewrite Hp in Hnil. }
    destruct (dialogue_loop_ok json_loads py_str voice_style env _ _ r Hwf Hk Hr)
      as [s ->].
    by exists s.
Qed.

(** The budget of the planner is large enough for every pacing and persona. *)
Lemma planned_budget_covers (microstyle_pacing doctor_persona_id : string) :
  NUM_DSM_ITEMS + BUFFER_TURNS
  ≤ Planner.max_doctor_turns microstyle_pacing doctor_persona_id.
Proof.
  unfold Planner.max_doctor_turns, Planner.base_turn_budget,
    Planner.target_turns_per_symptom, Planner.base_target, PACING_TARGETS.
  simpl table_get.
  destruct (str_in _ _); repeat destruct (String.eqb _ _); by vm_compute.
Qed.

(** A session of garbled replies: every doctor-manager reply falls back to
    a DSM item, and the post-DSM manager then falls back to END. *)
Lemma dsm_coverage_guarantee_witness :
  loop_entry (entry_state (2 # 1) 24 18)
  ∧ NUM_DSM_ITEMS + BUFFER_TURNS ≤ max_doctor_turns (entry_state (2 # 1) 24 18)
  ∧ ∃ s, run_dialogue_loop no_json plain_str ∅ garbled_env
           (entry_state (2 # 1) 24 18) = Some (Ok s)
         ∧ asked_question_order s ≡ₚ DSM_ITEMS.
Proof.
  assert (loop_entry (entry_state (2 # 1) 24 18)) as He by done.
  assert (NUM_DSM_ITEMS + BUFFER_TURNS
          ≤ max_doctor_turns (entry_state (2 # 1) 24 18)) as Hm by done.
  split; [done|]. split; [done|].
  destruct (dsm_coverage_guarantee no_json plain_str ∅ garbled_env _ He Hm)
    as (_ & Hcov & Hrun).
  destruct Hrun as [s Hs]; [done|].
  exists s. split; [done|]. by apply Hcov.
Defined.

(** In the force-coverage branch the reply of the guidance call does not
    reach the choice of the item. *)
Lemma force_dsm_pass
  (json_loads : string → option json) (py_str : json → string)
  (voice_style : gmap string string) (env : Env) (s : SessionState) (step : Step) :
  select_mode s = FORCE_DSM →
  loop_body json_loads py_str voice_style env s = Ok step →
  ∃ first rest s',
    step = Continue s'
    ∧ dsm_pool s = first :: rest
    ∧ dsm_pool s' = rest
    ∧ asked_question_order s' = asked_question_order s ++ [first]
    ∧ dsm_symptom_key_var s' = Some (JStr first).
Proof.
  intros Hm Hb. destruct step as [s'|s'].
  - apply loop_body_continue in Hb as (_ & _ & _ & mv & Hmv & Hch).
    rewrite Hm in Hmv. apply branch_move_key in Hmv as (Ha & first & rest & Hp & Hk).
    rewrite Ha in Hch. simpl in Hch. exists first, rest, s'. split; [done|].
    split; [done|].
    destruct Hch as [(Hnil & _)|(x & (Hin & Hp' & Ha' & Hk') & Hx)]; [congruence|].
    rewrite Hk, Hp in Hx. simpl default in Hx.
    assert (in_pool (JStr first) (first :: rest) = true) as Hmem.
    { apply in_pool_spec. exists first. split; [done|]. apply elem_of_cons. by left. }
    rewrite Hmem in Hx. injection Hx as <-.
    rewrite Hp, list_remove_head in Hp'. by repeat split.
  - apply loop_body_break in Hb as (Hpost & _). congruence.
Qed.

(** C2: the branch of a pass is read off the current state alone: POST_DSM
    exactly when the pool is empty; otherwise FORCE_DSM exactly when the
    turns that are left do not exceed the pending items; otherwise LOW_TURNS
    exactly when the ratio of the remaining DSM turns to the pending items
    is below the target, and NORMAL if not.  The pass logs that branch, and
    in FORCE_DSM it asks the first pending item whatever the guidance call
    returned. *)
Theorem mode_selection_decision_tree
  (json_loads : string → option json) (py_str : json → string)
  (voice_style : gmap string string) (env : Env) (s : SessionState) :
  (select_mode s = POST_DSM ↔ dsm_pool s = [])
  ∧ (dsm_pool s ≠ [] →
     (select_mode s = FORCE_DSM
      ↔ remaining_total_turns s ≤ remaining_dsm_items s))
  ∧ (dsm_pool s ≠ [] → ¬ remaining_total_turns s ≤ remaining_dsm_items s →
     ratio s = Some (inject_Z (remaining_dsm_turns s)
                     / inject_Z (remaining_dsm_items s))%Q
     ∧ (select_mode s = LOW_TURNS
        ↔ (inject_Z (remaining_dsm_turns s) / inject_Z (remaining_dsm_items s)
           < target_turns_per_symptom s)%Q)
     ∧ (select_mode s = NORMAL
        ↔ ¬ (inject_Z (remaining_dsm_turns s) / inject_Z (remaining_dsm_items s)
             < target_turns_per_symptom s)%Q))
  ∧ (∀ step, loop_body json_loads py_str voice_style env s = Ok step →
       ∃ d, last (doctor_manager_decisions (step_state step)) = Some d
            ∧ dm_manager_type d = manager_type_of (select_mode s)
            ∧ dm_turn d = doctor_turns_elapsed s + 1)
  ∧ (select_mode s = FORCE_DSM →
     (∀ step, loop_body json_loads py_str voice_style env s = Ok step →
        ∃ first rest s',
          step = Continue s'
          ∧ dsm_pool s = first :: rest
          ∧ dsm_pool s' = rest
          ∧ asked_question_order s' = asked_question_order s ++ [first]
          ∧ dsm_symptom_key_var s' = Some (JStr first))
     ∧ (replies_well_formed json_loads env →
        ∃ s', loop_body json_loads py_str voice_style env s = Ok (Continue s'))).
Proof.
  split; [apply select_mode_post|].
  split.
  { intros Hne. rewrite select_mode_force. tauto. }
  split; [apply select_mode_ratio|].
  split.
  { intros step Hb.
    destruct (loop_body_logs _ _ _ _ _ _ Hb) as (d & Hd & Ht & Hn).
    exists d. rewrite Hd, last_snoc. by repeat split. }
  intros Hm. split; [intros step; by apply force_dsm_pass|].
  intros Hwf.
  destruct (loop_body_ok json_loads py_str voice_style env s Hwf) as [step Hstep].
  { intros Hnil. apply select_mode_post in Hnil. congruence. }
  destruct (force_dsm_pass _ _ _ _ _ _ Hm Hstep) as (_ & _ & s' & -> & _).
  by exists s'.
Qed.

Lemma str_in_extended (doctor_persona_id : string) :
  str_in doctor_persona_id EXTENDED_PACING_PERSONAS = true
  ↔ doctor_persona_id = "very_warm_chatty"
    ∨ doctor_persona_id = "trauma_informed_slow".
Proof.
  unfold str_in, EXTENDED_PACING_PERSONAS. simpl.
  destruct (String.eqb_spec doctor_persona_id "very_warm_chatty");
    destruct (String.eqb_spec doctor_persona_id "trauma_informed_slow");
    simpl; split; try tauto; try done.
Qed.

Lemma loop_body_same_budget
  (json_loads : string → option json) (py_str : json → string)
  (voice_style : gmap string string) (env : Env) (s : SessionState) (step : Step) :
  loop_body json_loads py_str voice_style env s = Ok step →
  same_budget s (step_state step).
Proof.
  destruct step as [s'|s']; intros Hb.
  - by apply loop_body_continue in Hb as (_ & ? & _).
  - by apply loop_body_break in Hb as (_ & _ & _ & _ & _ & ?).
Qed.

Lemma same_budget_trans (s1 s2 s3 : SessionState) :
  same_budget s1 s2 → same_budget s2 s3 → same_budget s1 s3.
Proof. unfold same_budget. intros (-> & -> & ->) (-> & -> & ->). done. Qed.

Lemma dialogue_loop_same_budget
  (json_loads : string → option json) (py_str : json → string)
  (voice_style : gmap string string) (env : Env) (fuel : nat)
  (s s' : SessionState) :
  dialogue_loop json_loads py_str voice_style env fuel s = Some (Ok s') →
  same_budget s s'.
Proof.
  revert s. induction fuel as [|fuel IH]; intros s; simpl.
  - destruct (_ <? _); [done|]. by intros [= <-].
  - destruct (_ <? _); [|by intros [= <-]].
    destruct (loop_body _ _ _ _ s) as [[s1|s1]|] eqn:Hb; [| |done].
    + intros Hl. eapply same_budget_trans; [|by apply IH].
      by apply (loop_body_same_budget _ _ _ _ _ _ Hb).
    + intros [= <-]. by apply (loop_body_same_budget _ _ _ _ _ _ Hb).
Qed.

(** C3: the planner gives 2.5, 2.0 and 1.5 turns per symptom for slow, med
    and brisk pacing, adds 0.5 capped at 3.0 exactly for the two
    extended-pacing personas, and allows ceil(target * 9) + 5 + 1 doctor
    turns, which is 24 for med pacing and a persona that is not extended;
    the session starts with these values and no pass of the loop, nor the
    loop as a whole, changes them. *)
Theorem turn_budget_planner_formula :
  (∀ persona,
     ¬ (persona = "very_warm_chatty" ∨ persona = "trauma_informed_slow") →
     (Planner.target_turns_per_symptom "slow" persona == 5 # 2)%Q
     ∧ (Planner.target_turns_per_symptom "med" persona == 2 # 1)%Q
     ∧ (Planner.target_turns_per_symptom "brisk" persona == 3 # 2)%Q
     ∧ Planner.max_doctor_turns "med" persona = 24)
  ∧ (∀ persona,
       persona = "very_warm_chatty" ∨ persona = "trauma_informed_slow" →
       (Planner.target_turns_per_symptom "slow" persona == 3 # 1)%Q
       ∧ (Planner.target_turns_per_symptom "med" persona == 5 # 2)%Q
       ∧ (Planner.target_turns_per_symptom "brisk" persona == 2 # 1)%Q
       ∧ ∀ pacing,
           Planner.target_turns_per_symptom pacing persona
           = Qmin (Planner.base_target pacing + (1 # 2)) (3 # 1))
  ∧ (∀ pacing persona,
       Planner.max_doctor_turns pacing persona
       = Qceiling (Planner.target_turns_per_symptom pacing persona * inject_Z 9)
         + 5 + 1
       ∧ Planner.dsm_turn_budget pacing persona
         = Qceiling (Planner.target_turns_per_symptom pacing persona * inject_Z 9))
  ∧ (∀ json_loads voice_style env greeting pacing persona s0,
       session_start json_loads voice_style env greeting pacing persona = Ok s0 →
       target_turns_per_symptom s0 = Planner.target_turns_per_symptom pacing persona
       ∧ max_doctor_turns s0 = Planner.max_doctor_turns pacing persona
       ∧ dsm_turn_budget s0 = Planner.dsm_turn_budget pacing persona)
  ∧ (∀ json_loads py_str voice_style env s,
       (∀ step, loop_body json_loads py_str voice_style env s = Ok step →
                same_budget s (step_state step))
       ∧ (∀ s', run_dialogue_loop json_loads py_str voice_style env s = Some (Ok s') →
                same_budget s s')).
Proof.
  split.
  { intros persona Hne. apply (not_iff_compat (str_in_extended persona)) in Hne.
    apply not_true_is_false in Hne.
    unfold Planner.max_doctor_turns, Planner.base_turn_budget,
      Planner.target_turns_per_symptom. rewrite Hne. by vm_compute. }
  split.
  { intros persona He. apply str_in_extended in He.
    unfold Planner.target_turns_per_symptom. rewrite He. by vm_compute. }
  split; [done|].
  split.
  { intros json_loads voice_style env greeting pacing persona s0.
    unfold session_start. unbind. intros H. split_result H. by injection H as <-. }
  intros json_loads py_str voice_style env s. split.
  - intros step. apply loop_body_same_budget.
  - intros s'. apply dialogue_loop_same_budget.
Qed.

Lemma loop_reaches_budget
  (json_loads : string → option json) (py_str : json → string)
  (voice_style : gmap string string) (env : Env) (s0 s : SessionState) :
  loop_reaches json_loads py_str voice_style env s0 s →
  same_budget s0 s
  ∧ doctor_turns_elapsed s0 ≤ doctor_turns_elapsed s
  ∧ (doctor_turns_elapsed s0 ≤ max_doctor_turns s0 →
     doctor_turns_elapsed s ≤ max_doctor_turns s0).
Proof.
  induction 1 as [|s s' Hr (Hb & Hle & Hmax) Hlt Hbody].
  - by repeat split.
  - apply loop_body_continue in Hbody as (He & Hb' & _).
    split; [by eapply same_budget_trans|].
    destruct Hb as (Hm & _). rewrite Hm in Hlt. split; [lia|]. intros _. lia.
Qed.

(** C4, as the loop has it: [doctor_turns_elapsed] starts at 0, grows by
    exactly one in every pass that reaches the bottom of the body, is left
    as it is by the pass that ends the session through END, and never
    exceeds [max_doctor_turns], which no pass changes; the body is entered
    only while [doctor_turns_elapsed < max_doctor_turns]. *)
Theorem budget_bound_invariant
  (json_loads : string → option json) (py_str : json → string)
  (voice_style : gmap string string) (env : Env) (s0 : SessionState) :
  doctor_turns_elapsed s0 = 0 →
  0 ≤ max_doctor_turns s0 →
  (∀ s, loop_reaches json_loads py_str voice_style env s0 s →
        0 ≤ doctor_turns_elapsed s ≤ max_doctor_turns s0
        ∧ max_doctor_turns s = max_doctor_turns s0
        ∧ (∀ s', loop_body json_loads py_str voice_style env s = Ok (Continue s') →
                 doctor_turns_elapsed s' = doctor_turns_elapsed s + 1)
        ∧ (∀ s', loop_body json_loads py_str voice_style env s = Ok (Break s') →
                 doctor_turns_elapsed s' = doctor_turns_elapsed s))
  ∧ (∀ s, run_dialogue_loop json_loads py_str voice_style env s0 = Some (Ok s) →
          0 ≤ doctor_turns_elapsed s ≤ max_doctor_turns s0
          ∧ max_doctor_turns s = max_doctor_turns s0)
  ∧ (∀ fuel s, ¬ doctor_turns_elapsed s < max_doctor_turns s →
               dialogue_loop json_loads py_str voice_style env fuel s = Some (Ok s)).
Proof.
  intros H0 Hmax.
  assert (∀ s, loop_reaches json_loads py_str voice_style env s0 s →
               0 ≤ doctor_turns_elapsed s ≤ max_doctor_turns s0
               ∧ max_doctor_turns s = max_doctor_turns s0) as Hreach.
  { intros s Hr. apply loop_reaches_budget in Hr as ((Hm & _) & Hle & Hb). lia. }
  split.
  { intros s Hr. destruct (Hreach s Hr) as [? ?]. split; [done|]. split; [done|].
    split; intros s' Hb.
    - by apply loop_body_continue in Hb as (? & _).
    - by apply loop_body_break in Hb as (_ & ? & _). }
  split.
  { intros s Hrun.
    apply (dialogue_loop_reaches json_loads py_str voice_style env _ s0 s0)
      in Hrun as (s1 & Hr & Hend); [|constructor].
    destruct (Hreach s1 Hr) as [? ?].
    destruct Hend as [[-> _]|[_ Hb]]; [done|].
    apply loop_body_break in Hb as (_ & -> & _ & _ & _ & (-> & _)). done. }
  intros fuel s Hge. destruct fuel; simpl;
    destruct (Z.ltb_spec (doctor_turns_elapsed s) (max_doctor_turns s)); done.
Qed.

Lemma loop_prefix_reaches
  (json_loads : string → option json) (py_str : json → string)
  (voice_style : gmap string string) (env : Env) (n : nat)
  (s0 s1 s : SessionState) :
  loop_reaches json_loads py_str voice_style env s0 s1 →
  loop_prefix json_loads py_str voice_style env n s1 = Some s →
  loop_reaches json_loads py_str voice_style env s0 s.
Proof.
  revert s1. induction n as [|n IH]; intros s1 Hr; simpl.
  - by intros [= <-].
  - destruct (Z.ltb_spec (doctor_turns_elapsed s1) (max_doctor_turns s1)); [|done].
    destruct (loop_body _ _ _ _ s1) as [[s2|s2]|] eqn:Hb; try done.
    apply IH. by eapply reaches_next.
Qed.

(** A session of garbled replies under the budget of med pacing: the
    counter stays within 24. *)
Lemma budget_bound_invariant_witness :
  doctor_turns_elapsed (entry_state (2 # 1) 24 18) = 0
  ∧ 0 ≤ max_doctor_turns (entry_state (2 # 1) 24 18)
  ∧ ∀ s, run_dialogue_loop no_json plain_str ∅ garbled_env
           (entry_state (2 # 1) 24 18) = Some (Ok s) →
         0 ≤ doctor_turns_elapsed s ≤ 24.
Proof.
  split; [done|]. split; [done|].
  apply (budget_bound_invariant no_json plain_str ∅ garbled_env
           (entry_state (2 # 1) 24 18)); done.
Defined.

(** C4 as stated fails on the pass that ends the session: after nine
    passes of garbled replies the pool is empty, the tenth pass is entered
    with the counter at 9, takes END and leaves the counter at 9. *)
Lemma end_pass_is_not_counted :
  ∃ s9 s10,
    loop_prefix no_json plain_str ∅ garbled_env 9 (entry_state (2 # 1) 24 18)
    = Some s9
    ∧ doctor_turns_elapsed s9 < max_doctor_turns s9
    ∧ loop_body no_json plain_str ∅ garbled_env s9 = Ok (Break s10)
    ∧ doctor_turns_elapsed s9 = 9
    ∧ doctor_turns_elapsed s10 = 9
    ∧ length (doctor_manager_decisions s10) = 10%nat.
Proof.
  eexists _, _. split; [by vm_compute|]. split; [by vm_compute|].
  split; [by vm_compute|]. by vm_compute.
Qed.

Lemma random_choice_in (draw : nat) (seq : list string) :
  seq ≠ [] → random_choice draw seq ∈ seq.
Proof.
  intros Hne. unfold random_choice. apply list_elem_of_In, nth_In.
  apply Nat.mod_upper_bound. by destruct seq.
Qed.

(** C5, as the loop has it: a doctor-manager reply that is no JSON yields
    the decision DSM with a key drawn from the remaining pool, or FOLLOW_UP
    with an empty key when the pool is empty; and in the two branches that
    use the decision, a decision whose action is DSM and whose key is not in
    the pool makes the pass ask the first pending item instead: it leaves
    the pool and joins the asked order. *)
Theorem decision_step_fallback
  (json_loads : string → option json) (py_str : json → string)
  (voice_style : gmap string string) (env : Env) :
  (∀ manager_output dsm_symptom_keys draw,
     json_loads (strip_code_fences manager_output) = None →
     ∃ d, parse_doctor_manager_output json_loads py_str
            manager_output dsm_symptom_keys draw = Ok d
          ∧ match dsm_symptom_keys with
            | [] => next_action d = JStr "FOLLOW_UP"
                    ∧ dsm_symptom_key d = JStr EmptyString
            | _ => next_action d = JStr "DSM"
                   ∧ ∃ k, k ∈ dsm_symptom_keys ∧ dsm_symptom_key d = JStr k
            end)
  ∧ (∀ s d,
       select_mode s = LOW_TURNS ∨ select_mode s = NORMAL →
       parse_doctor_manager_output json_loads py_str
         (doctor_manager_reply env (doctor_turns_elapsed s + 1))
         (dsm_pool s) (random_draw env (doctor_turns_elapsed s + 1)) = Ok d →
       next_action d = JStr "DSM" →
       in_pool (dsm_symptom_key d) (dsm_pool s) = false →
       (∀ step, loop_body json_loads py_str voice_style env s = Ok step →
          ∃ first rest s',
            step = Continue s'
            ∧ dsm_pool s = first :: rest
            ∧ dsm_pool s' = rest
            ∧ asked_question_order s' = asked_question_order s ++ [first]
            ∧ dsm_symptom_key_var s' = Some (JStr first))
       ∧ (patient_manager_reply_ok json_loads
            (patient_manager_reply env (doctor_turns_elapsed s + 1)) = true →
          ∃ s', loop_body json_loads py_str voice_style env s = Ok (Continue s'))).
Proof.
  split.
  { intros out keys draw Hnone. unfold parse_doctor_manager_output. rewrite Hnone.
    destruct keys as [|k keys]; eexists; (split; [done|]); simpl; [done|].
    split; [done|]. exists (random_choice draw (k :: keys)).
    split; [by apply random_choice_in|done]. }
  intros s d Hmode Hparse Hact Hout.
  assert (branch_move json_loads py_str env (select_mode s) s
          = Ok (mkMove (next_action d) (reason d) (doctor_instruction d)
                  (Some (dsm_symptom_key d)) (dsm_symptom_key d))) as Hmv.
  { unfold branch_move. unbind. destruct Hmode as [-> | ->]; rewrite Hparse, Hact; done. }
  split.
  - intros [s'|s'] Hb.
    + apply loop_body_continue in Hb as (_ & _ & _ & mv & Hmv' & Hch).
      rewrite Hmv in Hmv'. injection Hmv' as <-. simpl in Hch.
      rewrite Hact in Hch. simpl in Hch. rewrite Hout in Hch.
      destruct Hch as [(Hnil & _)|(x & (Hin & Hp & Ha & Hk) & rest & Hx)].
      * apply select_mode_post in Hnil. destruct Hmode; congruence.
      * exists x, rest, s'. rewrite Hx, list_remove_head in Hp. by repeat split.
    + apply loop_body_break in Hb as (Hpost & _). destruct Hmode; congruence.
  - intros Hpm. unfold loop_body. unbind. rewrite Hmv.
    destruct (doctor_turn_ok json_loads voice_style env
                (log_decision s (select_mode s)
                   (mkMove (next_action d) (reason d) (doctor_instruction d)
                      (Some (dsm_symptom_key d)) (dsm_symptom_key d)))
                (mkMove (next_action d) (reason d) (doctor_instruction d)
                   (Some (dsm_symptom_key d)) (dsm_symptom_key d)) Hpm)
      as [s' Hs'].
    { intros _. unfold log_decision. simpl.
      destruct (dsm_pool s) eqn:Hp; [|done].
      apply select_mode_post in Hp. destruct Hmode; congruence. }
    rewrite Hs'. destruct Hmode as [-> | ->]; by exists s'.
Qed.

(** C5 as stated fails for a decision that is not DSM: the reply
    [{"next_action": "FOLLOW_UP"}] carries the empty key, which is not in
    the pool, and the pass asks nothing. *)
Lemma follow_up_asks_nothing :
  ∃ d s1,
    parse_doctor_manager_output follow_up_json plain_str
      follow_up_reply DSM_ITEMS 0 = Ok d
    ∧ in_pool (dsm_symptom_key d) DSM_ITEMS = false
    ∧ loop_body follow_up_json plain_str ∅ follow_up_env
        (entry_state (2 # 1) 24 18) = Ok (Continue s1)
    ∧ dsm_pool s1 = DSM_ITEMS
    ∧ asked_question_order s1 = [].
Proof.
  eexists _, _. split; [by vm_compute|]. split; [by vm_compute|].
  split; [by vm_compute|]. by vm_compute.
Qed.

(** C10: a patient-manager reply that is no JSON is answered with the
    defaults, whose [disclosure_stage] is the current disclosure state; the
    loop writes [disclosure_state] from that guidance and from nothing
    else, so such a reply leaves it as it was, in the greeting exchange and
    in every pass. *)
Theorem disclosure_unchanged_on_malformed
  (json_loads : string → option json) (py_str : json → string)
  (voice_style : gmap string string) (env : Env) :
  (∀ text base_voice_style current_disclosure_state,
     json_loads (strip_code_fences text) = None →
     parse_patient_manager_output json_loads text base_voice_style
       current_disclosure_state
     = Ok (guidance_defaults base_voice_style current_disclosure_state)
     ∧ disclosure_stage
         (guidance_defaults base_voice_style current_disclosure_state)
       = current_disclosure_state)
  ∧ (∀ s s',
       loop_body json_loads py_str voice_style env s = Ok (Continue s') →
       ∃ g, parse_patient_manager_output json_loads
              (patient_manager_reply env (doctor_turns_elapsed s + 1))
              voice_style (disclosure_state s) = Ok g
            ∧ disclosure_state s' = disclosure_stage g)
  ∧ (∀ s s',
       loop_body json_loads py_str voice_style env s = Ok (Break s') →
       disclosure_state s' = disclosure_state s)
  ∧ (∀ s step,
       json_loads (strip_code_fences
                     (patient_manager_reply env (doctor_turns_elapsed s + 1)))
       = None →
       loop_body json_loads py_str voice_style env s = Ok step →
       disclosure_state (step_state step) = disclosure_state s)
  ∧ (∀ greeting pacing persona s0,
       json_loads (strip_code_fences (patient_manager_reply env 0)) = None →
       session_start json_loads voice_style env greeting pacing persona = Ok s0 →
       disclosure_state s0 = JStr (init_disclosure_state voice_style)).
Proof.
  assert (∀ text vs cur,
            json_loads (strip_code_fences text) = None →
            parse_patient_manager_output json_loads text vs cur
            = Ok (guidance_defaults vs cur)) as Hdef.
  { intros text vs cur Hnone. unfold parse_patient_manager_output. by rewrite Hnone. }
  split; [intros text vs cur Hnone; split; [by apply Hdef|done]|].
  split.
  { intros s s' Hb. by apply loop_body_continue in Hb as (_ & _ & ? & _). }
  split.
  { intros s s' Hb. by apply loop_body_break in Hb as (_ & _ & _ & ? & _). }
  split.
  { intros s [s'|s'] Hnone Hb; simpl.
    - apply loop_body_continue in Hb as (_ & _ & (g & Hg & ->) & _).
      rewrite (Hdef _ _ _ Hnone) in Hg. by injection Hg as <-.
    - by apply loop_body_break in Hb as (_ & _ & _ & ? & _). }
  intros greeting pacing persona s0 Hnone. unfold session_start. unbind.
  rewrite (Hdef _ _ _ Hnone). by intros [= <-].
Qed.

(** * Properties of the random primitives *)

Definition advance (r : Random) : Random := mkRandom (tape r) (S (cursor r)).

Ltac unrand := unfold mbind, rand_bind, mret, rand_ret, raise in *.

Lemma randbelow_spec (n : nat) (r : Random) :
  n ≠ 0%nat →
  ∃ j, randbelow n r = Ok (j, advance r) ∧ (j < n)%nat.
Proof.
  intros Hn. destruct n as [|n]; [done|].
  unfold randbelow, next_raw. unrand. eexists. split; [done|].
  pose proof (N.mod_upper_bound (tape r (cursor r)) (N.of_nat (S n))). lia.
Qed.

Lemma randint_spec (a b : Z) (r : Random) :
  a ≤ b →
  ∃ z, randint a b r = Ok (z, advance r) ∧ a ≤ z ≤ b.
Proof.
  intros Hab. unfold randint.
  destruct (Z.ltb_spec b a); [lia|]. unrand.
  destruct (randbelow_spec (Z.to_nat (b - a + 1)) r) as (j & -> & Hj); [lia|].
  eexists. split; [done|]. lia.
Qed.

Lemma choice_spec {A} (seq : list A) (r : Random) :
  seq ≠ [] →
  ∃ x, choice seq r = Ok (x, advance r) ∧ x ∈ seq.
Proof.
  intros Hne. unfold choice. destruct seq as [|a seq]; [done|]. unrand.
  destruct (randbelow_spec (length (a :: seq)) r) as (j & -> & Hj); [done|].
  destruct (lookup_lt_is_Some_2 (a :: seq) j Hj) as [x Hx]. rewrite Hx.
  exists x. split; [done|]. by eapply list_elem_of_lookup_2.
Qed.

Lemma bisect_le (cum_weights : list Q) (x : Q) (hi : nat) :
  (bisect cum_weights x hi ≤ hi)%nat.
Proof.
  revert cum_weights. induction hi as [|hi IH]; intros [|c rest]; simpl; try lia.
  destruct (Qltb x c); [lia|]. specialize (IH rest). lia.
Qed.

Lemma accumulate_from_length (acc : Q) (weights : list Q) :
  length (accumulate_from acc weights) = length weights.
Proof.
  revert acc. induction weights as [|w rest IH]; intros acc; simpl; [done|].
  by rewrite IH.
Qed.

(** The last cumulative weight is positive when every weight is. *)
Lemma accumulate_from_last_pos (acc : Q) (weights : list Q) (total : Q) :
  (0 <= acc)%Q →
  Forall (fun w => (0 < w)%Q) weights →
  last (accumulate_from acc weights) = Some total →
  (0 < total)%Q.
Proof.
  revert acc. induction weights as [|w rest IH]; intros acc Hacc Hpos; simpl; [done|].
  apply Forall_cons in Hpos as [Hw Hrest].
  assert (0 < acc + w)%Q as Hsum.
  { apply Qlt_le_trans with (0 + w)%Q; [by rewrite Qplus_0_l|].
    apply Qplus_le_l. done. }
  destruct rest as [|w' rest'].
  - simpl. by intros [= <-].
  - intros Hlast. apply (IH (acc + w)%Q); [by apply Qlt_le_weak|done|].
    exact Hlast.
Qed.

(** [choices] raises nothing on a non-empty population with as many
    weights, all positive; it returns a member and reads one cell. *)
Lemma choices_spec {A} (population : list A) (weights : list Q) (r : Random) :
  population ≠ [] →
  length weights = length population →
  Forall (fun w => (0 < w)%Q) weights →
  ∃ x, choices population weights r = Ok (x, advance r) ∧ x ∈ population.
Proof.
  intros Hne Hlen Hpos. unfold choices, accumulate.
  rewrite accumulate_from_length, Hlen, Nat.eqb_refl. simpl negb. cbv iota.
  destruct (last (accumulate_from 0 weights)) as [total|] eqn:Hlast.
  - assert (0 < total)%Q as Htot
      by (by apply (accumulate_from_last_pos 0 weights total)).
    destruct (Qle_bool total 0) eqn:Hle.
    { apply Qle_bool_iff in Hle. exfalso. by apply (Qlt_not_le 0 total). }
    unfold random, next_raw. unrand. cbv beta iota delta [negb].
    pose proof (bisect_le (accumulate_from 0 weights)
                  ((Z.of_N (tape r (cursor r) mod 9007199254740992)
                    # 9007199254740992) * total)%Q (length population - 1)) as Hb.
    assert (length population ≠ 0%nat) by (by destruct population).
    destruct (lookup_lt_is_Some_2 population
                (bisect (accumulate_from 0 weights)
                   ((Z.of_N (tape r (cursor r) mod 9007199254740992)
                     # 9007199254740992) * total)%Q (length population - 1)))
      as [x Hx]; [lia|].
    rewrite Hx. exists x. split; [done|]. by eapply list_elem_of_lookup_2.
  - exfalso. apply last_None in Hlast.
    apply (f_equal length) in Hlast. rewrite accumulate_from_length, Hlen in Hlast.
    by destruct population.
Qed.

Lemma sample_loop_spec {A} (k m : nat) (pool : list A) (r : Random) :
  (k ≤ m)%nat → (m ≤ length pool)%nat →
  ∃ l r', sample_loop k m pool r = Ok (l, r')
          ∧ length l = k
          ∧ (∀ x, x ∈ l → x ∈ pool)
          ∧ cursor r' = (cursor r + k)%nat
          ∧ tape r' = tape r.
Proof.
  revert m pool r. induction k as [|k IH]; intros m pool r Hk Hm; simpl.
  - unrand. eexists _, _. split; [done|]. split; [done|].
    split; [by intros x ?%elem_of_nil|]. split; [lia|done].
  - unrand. destruct (randbelow_spec m r) as (j & -> & Hj); [lia|].
    destruct (lookup_lt_is_Some_2 pool j) as [x Hx]; [lia|].
    destruct (lookup_lt_is_Some_2 pool (m - 1)) as [y Hy]; [lia|].
    rewrite Hx, Hy.
    destruct (IH (m - 1)%nat (<[j := y]> pool) (advance r)) as (l & r' & -> & Hl & Hin & Hc & Ht);
      [lia|rewrite length_insert; lia|].
    eexists _, _. split; [done|]. split; [simpl; lia|]. split.
    + intros z [->|Hz]%elem_of_cons; [by eapply list_elem_of_lookup_2|].
      apply Hin in Hz. apply list_elem_of_lookup in Hz as [i Hi].
      destruct (decide (i = j)) as [->|Hne].
      * rewrite list_lookup_insert_eq in Hi by lia. injection Hi as <-.
        by eapply list_elem_of_lookup_2.
      * rewrite list_lookup_insert_ne in Hi by done. by eapply list_elem_of_lookup_2.
    + simpl in Hc. split; [lia|done].
Qed.

Lemma sample_spec {A} (population : list A) (k : nat) (r : Random) :
  (k ≤ length population)%nat →
  ∃ l r', sample population k r = Ok (l, r')
          ∧ length l = k
          ∧ (∀ x, x ∈ l → x ∈ population)
          ∧ cursor r' = (cursor r + k)%nat
          ∧ tape r' = tape r.
Proof.
  intros Hk. unfold sample. destruct (Nat.ltb_spec (length population) k); [lia|].
  by apply sample_loop_spec.
Qed.

(** * The ULTRA_LOW frequency profile *)

Lemma str_in_spec (x : string) (l : list string) :
  str_in x l = true ↔ x ∈ l.
Proof.
  unfold str_in. rewrite existsb_exists. split.
  - intros (y & Hin & ->%String.eqb_eq). by apply list_elem_of_In.
  - intros Hin. exists x. split; [by apply list_elem_of_In|apply String.eqb_refl].
Qed.

Lemma str_in_false (x : string) (l : list string) :
  str_in x l = false ↔ x ∉ l.
Proof.
  rewrite <- str_in_spec. destruct (str_in x l); split; congruence.
Qed.

Lemma emphasized_frequency_spec (level : string) (r : Random) :
  ∃ v, emphasized_frequency level r = Ok (v, advance r)
       ∧ v ∈ ["RARE"; "SOME"; "OFTEN"].
Proof.
  unfold emphasized_frequency.
  destruct (String.eqb level "LOW"); [|destruct (String.eqb level "HIGH")].
  - destruct (choices_spec ["RARE"; "SOME"; "OFTEN"] [5 # 1; 4 # 1; 1 # 1]%Q r)
      as (v & -> & Hv); [done|done|by repeat constructor|]. by exists v.
  - destruct (choices_spec ["SOME"; "OFTEN"] [2 # 1; 8 # 1]%Q r)
      as (v & -> & Hv); [done|done|by repeat constructor|]. exists v.
    split; [done|]. apply elem_of_cons. by right.
  - destruct (choices_spec ["SOME"; "OFTEN"; "RARE"] [5 # 1; 4 # 1; 1 # 1]%Q r)
      as (v & -> & Hv); [done|done|by repeat constructor|]. exists v.
    split; [done|].
    repeat (apply elem_of_cons in Hv as [->|Hv]); [| |by repeat constructor|];
      [by repeat constructor..|by apply elem_of_nil in Hv].
Qed.

Lemma ultra_low_assign_one_spec (template : Template)
  (emph_intensity p : gmap string string) (symptom : string) (r : Random) :
  (symptom ∈ emphasized_symptoms template → is_Some (emph_intensity !! symptom)) →
  ∃ v, ultra_low_assign_one template emph_intensity p symptom r
       = Ok (<[symptom := v]> p, advance r)
       ∧ v ∈ ["RARE"; "SOME"; "OFTEN"].
Proof.
  intros Hcov. unfold ultra_low_assign_one.
  destruct (str_in symptom (emphasized_symptoms template)) eqn:Hin.
  - apply str_in_spec in Hin. destruct (Hcov Hin) as [level ->]. unrand.
    destruct (emphasized_frequency_spec level r) as (v & -> & Hv). by exists v.
  - unrand.
    destruct (choices_spec ["RARE"; "SOME"; "OFTEN"] [5 # 1; 3 # 1; 2 # 1]%Q r)
      as (v & -> & Hv); [done|done|by repeat constructor|]. by exists v.
Qed.

Lemma ultra_low_assign_loop (template : Template)
  (emph_intensity : gmap string string) (selected : list string)
  (p : gmap string string) (r : Random) :
  (∀ s, s ∈ selected → s ∈ emphasized_symptoms template →
        is_Some (emph_intensity !! s)) →
  ∃ p' r',
    for_each selected (ultra_low_assign_one template emph_intensity) p r
    = Ok (p', r')
    ∧ (∀ s, s ∉ selected → p' !! s = p !! s)
    ∧ (∀ s, s ∈ selected →
            ∃ v, p' !! s = Some v ∧ v ∈ ["RARE"; "SOME"; "OFTEN"]).
Proof.
  revert p r. induction selected as [|x rest IH]; intros p r Hcov; simpl.
  - unrand. eexists _, _. split; [done|]. split; [done|].
    by intros s ?%elem_of_nil.
  - unrand.
    destruct (ultra_low_assign_one_spec template emph_intensity p x r)
      as (v & -> & Hv).
    { apply Hcov. apply elem_of_cons. by left. }
    destruct (IH (<[x := v]> p) (advance r)) as (p' & r' & -> & Hout & Hin).
    { intros s Hs. apply Hcov. apply elem_of_cons. by right. }
    eexists _, _. split; [done|]. split.
    + intros s Hs. apply not_elem_of_cons in Hs as [Hne Hs].
      rewrite (Hout s Hs). by rewrite lookup_insert_ne.
    + intros s Hs. destruct (decide (s ∈ rest)) as [Hr|Hr]; [by apply Hin|].
      apply elem_of_cons in Hs as [->|Hs]; [|done].
      exists v. rewrite (Hout x Hr). by rewrite lookup_insert_eq.
Qed.

Lemma fold_none_lookup (l : list string) (m : gmap string string) (s : string) :
  fold_left (fun p symptom => <[symptom := "NONE"]> p) l m !! s
  = if decide (s ∈ l) then Some "NONE" else m !! s.
Proof.
  revert m. induction l as [|x l IH]; intros m; simpl fold_left.
  - destruct (decide (s ∈ [])) as [H|H]; [by apply elem_of_nil in H|done].
  - rewrite IH.
    destruct (decide (s ∈ l)) as [Hl|Hl]; destruct (decide (s ∈ x :: l)) as [Hx|Hx];
      try done.
    + exfalso. apply Hx, elem_of_cons. by right.
    + apply elem_of_cons in Hx as [->|?]; [|done]. by rewrite lookup_insert_eq.
    + rewrite lookup_insert_ne; [done|]. intros ->. apply Hx, elem_of_cons. by left.
Qed.

Lemma all_none_lookup (s : string) :
  all_none !! s
  = if decide (s ∈ DSM5_DEPRESSION_SYMPTOMS) then Some "NONE" else None.
Proof. unfold all_none. by rewrite fold_none_lookup, lookup_empty. Qed.

Lemma non_emphasized_of_elem (emphasized : list string) (s : string) :
  s ∈ non_emphasized_of emphasized
  ↔ s ∈ DSM5_DEPRESSION_SYMPTOMS ∧ s ∉ emphasized.
Proof.
  unfold non_emphasized_of. rewrite list_elem_of_filter, str_in_false. tauto.
Qed.

(** The selection of lines 60-75: at most two symptoms, and symptoms that
    the template does not emphasize only among more symptoms than the
    template emphasizes. *)
Lemma ultra_low_selection_spec (order : SetOrder) (template : Template) (r : Random) :
  ∃ selected r',
    ultra_low_selection order template r = Ok (selected, r')
    ∧ (length selected ≤ 2)%nat
    ∧ (∀ s, s ∈ selected →
            s ∈ emphasized_symptoms template
            ∨ (s ∈ DSM5_DEPRESSION_SYMPTOMS
               ∧ (length (set_list order (emphasized_symptoms template))
                  < length selected)%nat)).
Proof.
  unfold ultra_low_selection. unrand.
  destruct (choice_spec [0; 1; 2]%nat r) as (target & -> & Ht); [done|].
  set (cand := set_list order (emphasized_symptoms template)).
  set (pool := if (length cand <? target)%nat
               then cand ++ non_emphasized_of (emphasized_symptoms template)
               else cand).
  assert (target ≤ 2)%nat as Ht2.
  { repeat (apply elem_of_cons in Ht as [->|Ht]); [lia..|by apply elem_of_nil in Ht]. }
  destruct (Nat.ltb_spec 0 target) as [Hpos|Hzero].
  - destruct (sample_spec pool (target `min` length pool) (advance r))
      as (l & r' & -> & Hlen & Hin & _); [lia|].
    exists l, r'. split; [done|]. split; [lia|].
    intros s Hs. apply Hin in Hs. unfold pool in Hs, Hlen.
    destruct (Nat.ltb_spec (length cand) target) as [Hlt|Hge].
    + apply elem_of_app in Hs as [Hs|Hs].
      * left. apply (proj1 (set_list_elem order _ s)). exact Hs.
      * pose proof Hs as Hmem. apply non_emphasized_of_elem in Hs as [Hd Hne].
        right. split; [done|]. rewrite length_app in Hlen. fold cand.
        destruct (non_emphasized_of (emphasized_symptoms template));
          [by apply elem_of_nil in Hmem|].
        simpl in Hlen. lia.
    + left. apply (proj1 (set_list_elem order _ s)). exact Hs.
  - exists [], (advance r). split; [done|]. split; [simpl; lia|].
    by intros s ?%elem_of_nil.
Qed.


(** On the tape of ones the target count is 1 and the symptom selected is
    an emphasized one, whose intensity is looked up. *)
Lemma ones_tape_selection :
  ∃ rng1,
    ultra_low_selection first_occurrence_order neuroticism_high ones_tape
    = Ok (["Fatigue or loss of energy"], rng1).
Proof. eexists. vm_compute. reflexivity. Qed.

Lemma medium_intensity_covers (s : string) :
  s ∈ emphasized_symptoms neuroticism_high → is_Some (medium_intensity !! s).
Proof.
  intros Hs. simpl in Hs.
  repeat (apply elem_of_cons in Hs as [->|Hs]);
    [apply (bool_decide_unpack _); by vm_compute..|].
  by apply elem_of_nil in Hs.
Qed.



(** * Facet selection of the background writer *)

(** A weight dictionary whose keys are the facet categories, in their
    order, and whose weights are positive. *)
Definition good_weights (d : list (string * Q)) : Prop :=
  d.*1 = LIFE_FACET_CATEGORIES ∧ Forall (fun kv => (0 < kv.2)%Q) d.

Lemma dict_set_keys {V} (k : string) (v : V) (d : list (string * V)) :
  k ∈ d.*1 → (dict_set k v d).*1 = d.*1.
Proof.
  induction d as [|[k' v'] d IH]; simpl; [by intros ?%elem_of_nil|].
  intros Hin. destruct (String.eqb_spec k k') as [->|Hne]; [done|].
  simpl. f_equal. apply IH. apply elem_of_cons in Hin as [?|?]; done.
Qed.

Lemma dict_set_Forall {V} (P : string * V → Prop) (k : string) (v : V)
  (d : list (string * V)) :
  P (k, v) → Forall P d → Forall P (dict_set k v d).
Proof.
  intros Hkv. induction 1 as [|[k' v'] d Hx Hd IH]; simpl.
  - by repeat constructor.
  - destruct (String.eqb k k'); constructor; done.
Qed.

Lemma dict_set_good (k : string) (v : Q) (d : list (string * Q)) :
  good_weights d → k ∈ LIFE_FACET_CATEGORIES → (0 < v)%Q →
  good_weights (dict_set k v d).
Proof.
  intros [Hk Hp] Hin Hv. split.
  - rewrite dict_set_keys; [done|]. by rewrite Hk.
  - by apply dict_set_Forall.
Qed.

Lemma dict_set_all_good (kvs d : list (string * Q)) :
  Forall (fun kv => kv.1 ∈ LIFE_FACET_CATEGORIES ∧ (0 < kv.2)%Q) kvs →
  good_weights d → good_weights (dict_set_all kvs d).
Proof.
  unfold dict_set_all. intros Hkvs. revert d.
  induction Hkvs as [|[k v] kvs [Hk Hv] _ IH]; intros d Hd; simpl; [done|].
  apply IH. by apply dict_set_good.
Qed.

Ltac facet_keys :=
  repeat constructor; simpl;
  first [ apply (bool_decide_unpack _); by vm_compute | done ].

Lemma dict_set_all_if_good (c : bool) (kvs d : list (string * Q)) :
  Forall (fun kv => kv.1 ∈ LIFE_FACET_CATEGORIES ∧ (0 < kv.2)%Q) kvs →
  good_weights d → good_weights (if c then dict_set_all kvs d else d).
Proof. destruct c; [apply dict_set_all_good|done]. Qed.

Lemma boost_domain_good (d : list (string * Q)) (domain : string) :
  good_weights d → good_weights (boost_domain d domain).
Proof.
  intros Hd. unfold boost_domain. cbv zeta.
  repeat (apply dict_set_all_if_good; [facet_keys|]). done.
Qed.

Lemma scale_trauma_good (factor : Q) (d : list (string * Q)) :
  (0 < factor)%Q → good_weights d → good_weights (scale_trauma factor d).
Proof.
  intros Hf. unfold scale_trauma.
  generalize TRAUMA_ADVERSITY_FACETS as cats. intros cats. revert d.
  induction cats as [|c cats IH]; intros d Hd; simpl; [done|].
  apply IH.
  destruct (list_find _ d) as [[i [k v]]|] eqn:Hfind; [|done].
  apply list_find_Some in Hfind as (Hi & Hk & _). simpl in Hk. subst k.
  destruct Hd as [Hkeys Hpos].
  assert ((0 < v)%Q) as Hv.
  { rewrite Forall_forall in Hpos. apply (Hpos (c, v)). by eapply list_elem_of_lookup_2. }
  apply dict_set_good; [done| |].
  - rewrite <- Hkeys. apply list_elem_of_fmap. exists (c, v).
    split; [done|]. by eapply list_elem_of_lookup_2.
  - rewrite <- (Qmult_0_l factor). by apply Qmult_lt_compat_r.
Qed.

Lemma category_weights_good (context_domains : list string) (severity : string) :
  good_weights (category_weights context_domains severity).
Proof.
  unfold category_weights.
  assert (good_weights (map (fun cat => (cat, 1 # 1)%Q) LIFE_FACET_CATEGORIES)) as H0.
  { split.
    - rewrite <- list_fmap_compose. apply list_fmap_id.
    - apply Forall_fmap, Forall_true. done. }
  assert (∀ d, good_weights d → good_weights (fold_left boost_domain context_domains d))
    as Hfold.
  { induction context_domains as [|c cs IH]; intros d Hd; simpl; [done|].
    apply IH. by apply boost_domain_good. }
  destruct (_ || _); apply scale_trauma_good; try done;
    (apply dict_set_all_good; [facet_keys|]); by apply Hfold.
Qed.

(** What holds of the loop variables of [select_required_facets] each
    time the [while] test is evaluated. *)
Definition facet_invariant (num_facets : Z) (categories : list string)
  (st : FacetLoop) : Prop :=
  NoDup (selected st)
  ∧ Z.of_nat (length (selected st)) ≤ num_facets
  ∧ length (filter (fun c => c ∈ TRAUMA_ADVERSITY_FACETS) (selected st))
    = trauma_in_required st
  ∧ (trauma_in_required st ≤ 2)%nat
  ∧ (∀ c, c ∈ selected st → c ∈ categories).

Lemma facet_loop_unfold (fuel : nat) (num_facets : Z)
  (categories : list string) (weights : list Q) (st : FacetLoop) :
  facet_loop (S fuel) num_facets categories weights st
  = if Z.of_nat (length (selected st)) <? num_facets then
      candidate ← choices categories weights;
      let st := mkFacetLoop (selected st) (trauma_in_required st)
                  (S (attempts st)) in
      if str_in candidate (selected st) then
        facet_loop fuel num_facets categories weights st
      else if str_in candidate TRAUMA_ADVERSITY_FACETS then
        if (2 <=? trauma_in_required st)%nat then
          facet_loop fuel num_facets categories weights st
        else
          facet_loop fuel num_facets categories weights
            (mkFacetLoop (selected st ++ [candidate])
               (S (trauma_in_required st)) (attempts st))
      else
        facet_loop fuel num_facets categories weights
          (mkFacetLoop (selected st ++ [candidate])
             (trauma_in_required st) (attempts st))
    else mret st.
Proof. reflexivity. Qed.

Lemma facet_loop_spec (fuel : nat) (num_facets : Z)
  (categories : list string) (weights : list Q) (st : FacetLoop) (r : Random) :
  categories ≠ [] →
  length weights = length categories →
  Forall (fun w => (0 < w)%Q) weights →
  facet_invariant num_facets categories st →
  (attempts st + fuel = 100)%nat →
  ∃ st' r',
    facet_loop fuel num_facets categories weights st r = Ok (st', r')
    ∧ facet_invariant num_facets categories st'
    ∧ (Z.of_nat (length (selected st')) = num_facets ∨ attempts st' = 100%nat).
Proof.
  intros Hne Hlen Hpos. revert st r.
  induction fuel as [|fuel IH]; intros st r Hinv Hatt;
    [simpl|rewrite facet_loop_unfold].
  - destruct (Z.ltb_spec (Z.of_nat (length (selected st))) num_facets).
    + unrand. exists st, r. split; [done|]. split; [done|]. right. lia.
    + unrand. exists st, r. split; [done|]. split; [done|]. left.
      destruct Hinv as (_ & ? & _). lia.
  - destruct (Z.ltb_spec (Z.of_nat (length (selected st))) num_facets) as [Hlt|Hge].
    + unrand.
      destruct (choices_spec categories weights r Hne Hlen Hpos) as (c & -> & Hc).
      destruct Hinv as (Hnd & Hsz & Htr & Htr2 & Hsub).
      cbn [selected trauma_in_required attempts].
      destruct (str_in c (selected st)) eqn:Hsel.
      { apply IH; [by repeat split|simpl; lia]. }
      apply str_in_false in Hsel.
      destruct (str_in c TRAUMA_ADVERSITY_FACETS) eqn:Htrauma.
      * apply str_in_spec in Htrauma.
        destruct (Nat.leb_spec 2 (trauma_in_required st)).
        { apply IH; [by repeat split|simpl; lia]. }
        apply IH; [|simpl; lia]. repeat split; simpl.
        -- apply NoDup_app. split; [done|]. split; [|apply NoDup_singleton].
           intros x Hx ->%list_elem_of_singleton. done.
        -- rewrite length_app. simpl. lia.
        -- rewrite filter_app, length_app, Htr. simpl.
           rewrite filter_cons_True by done. simpl. lia.
        -- lia.
        -- intros x [Hx| ->%list_elem_of_singleton]%elem_of_app; [by apply Hsub|done].
      * apply str_in_false in Htrauma.
        apply IH; [|simpl; lia]. repeat split; simpl.
        -- apply NoDup_app. split; [done|]. split; [|apply NoDup_singleton].
           intros x Hx ->%list_elem_of_singleton. done.
        -- rewrite length_app. simpl. lia.
        -- rewrite filter_app, length_app, Htr. simpl.
           rewrite filter_cons_False by done. simpl. lia.
        -- done.
        -- intros x [Hx| ->%list_elem_of_singleton]%elem_of_app; [by apply Hsub|done].
    + unrand. exists st, r. split; [done|]. split; [done|]. left.
      destruct Hinv as (_ & ? & _). lia.
Qed.

(** The loop of [select_required_facets] raises nothing and stops in a
    state that meets its invariant. *)
Lemma required_facets_loop_spec
  (rng : Random) (context_domains : list string)
  (depression_profile : gmap string string) (severity : string) :
  ∃ st rng',
    required_facets_loop context_domains depression_profile severity rng
    = Ok (st, rng')
    ∧ select_required_facets context_domains depression_profile severity rng
      = Ok (selected st, rng')
    ∧ NoDup (selected st)
    ∧ (length (selected st) ≤ 8)%nat
    ∧ (length (filter (fun c => c ∈ TRAUMA_ADVERSITY_FACETS) (selected st)) ≤ 2)%nat
    ∧ (∀ c, c ∈ selected st → c ∈ LIFE_FACET_CATEGORIES)
    ∧ ((5 ≤ length (selected st) ≤ 8)%nat ∨ attempts st = 100%nat).
Proof.
  unfold select_required_facets, required_facets_loop. unrand.
  destruct (randint_spec 5 8 rng) as (num_facets & -> & Hnum); [lia|].
  destruct (category_weights_good context_domains severity) as [Hkeys Hpos].
  destruct (facet_loop_spec 100 num_facets
              (category_weights context_domains severity).*1
              (category_weights context_domains severity).*2
              (mkFacetLoop [] 0 0) (advance rng))
    as (st & rng' & -> & (Hnd & Hsz & Htr & Htr2 & Hsub) & Hend).
  - by rewrite Hkeys.
  - by rewrite !length_fmap.
  - by apply Forall_fmap.
  - repeat split; simpl; try lia; try done; [apply NoDup_nil_2|].
    by intros c ?%elem_of_nil.
  - done.
  - exists st, rng'. split; [done|]. split; [done|]. split; [done|].
    split; [lia|]. split; [lia|]. split.
    + intros c Hc. rewrite <- Hkeys. by apply Hsub.
    + destruct Hend as [Hfull|Hcap]; [left; lia|by right].
Qed.

(** What the selection loop guarantees: for every generator state,
    context domains, profile and severity, [select_required_facets] returns
    a duplicate-free list of facet categories, at most 8 of them and at most
    2 of them from the trauma/adversity set; the list has between 5 and 8
    categories unless the sampling loop stopped at its cap of 100
    attempts. *)
Theorem required_facet_selection
  (rng : Random) (context_domains : list string)
  (depression_profile : gmap string string) (severity : string) :
  ∃ st rng',
    required_facets_loop context_domains depression_profile severity rng
    = Ok (st, rng')
    ∧ select_required_facets context_domains depression_profile severity rng
      = Ok (selected st, rng')
    ∧ NoDup (selected st)
    ∧ (length (selected st) ≤ 8)%nat
    ∧ (length (filter (fun c => c ∈ TRAUMA_ADVERSITY_FACETS) (selected st)) ≤ 2)%nat
    ∧ (∀ c, c ∈ selected st → c ∈ LIFE_FACET_CATEGORIES)
    ∧ ((5 ≤ length (selected st) ≤ 8)%nat ∨ attempts st = 100%nat).
Proof. apply required_facets_loop_spec. Qed.

(** C8: the code falls short of the 5 to 8 categories that the claim and
    the docstring of [select_required_facets] promise when the loop runs
    into its cap: on the tape of zeros every draw is the first category, so
    that one category is all that 100 attempts select. *)
Lemma facet_selection_can_fall_short :
  ∃ rng',
    select_required_facets [] ∅ "mild" zero_tape = Ok (["identity_stage"], rng')
    ∧ (length ["identity_stage"] < 5)%nat.
Proof. eexists. split; [by vm_compute|]. simpl. lia. Qed.

(** * Determinism of the profile sampler *)

(** Two generators are seeded alike when their cursors and all the draws
    from the cursor on coincide; what they drew before is immaterial. *)
Definition seeded_alike (r r' : Random) : Prop :=
  cursor r = cursor r'
  ∧ ∀ n, (cursor r ≤ n)%nat → tape r n = tape r' n.

(** A computation that reads the generator only through its future draws:
    on generators seeded alike it returns the same value, or raises the
    same exception, and leaves them seeded alike. *)
Definition seed_determined {A} (m : Rand A) : Prop :=
  ∀ r r', seeded_alike r r' →
    match m r, m r' with
    | Ok (a, s), Ok (a', s') => a = a' ∧ seeded_alike s s'
    | Raise e, Raise e' => e = e'
    | _, _ => False
    end.

Lemma seeded_alike_refl (r : Random) : seeded_alike r r.
Proof. by split. Qed.

Lemma seed_determined_ret {A} (a : A) : seed_determined (mret a).
Proof. intros r r' Hr. unrand. by split. Qed.

Lemma seed_determined_raise {A} (e : exn) : seed_determined (@raise A e).
Proof. by intros r r' Hr. Qed.

Lemma seed_determined_bind {A B} (m : Rand A) (f : A → Rand B) :
  seed_determined m → (∀ a, seed_determined (f a)) → seed_determined (m ≫= f).
Proof.
  intros Hm Hf r r' Hr. unrand. specialize (Hm r r' Hr).
  destruct (m r) as [[a s]|e], (m r') as [[a' s']|e']; try done.
  destruct Hm as [<- Hs]. by apply Hf.
Qed.

Lemma seed_determined_next_raw : seed_determined next_raw.
Proof.
  intros r r' [Hc Ht]. unfold next_raw. split.
  { rewrite <- Hc. by apply Ht. }
  split; simpl; [by rewrite Hc|]. intros n Hn. apply Ht. lia.
Qed.

Create HintDb seed discriminated.
#[local] Hint Resolve seed_determined_ret seed_determined_raise
  seed_determined_next_raw : seed.

Lemma seed_determined_for_each {A S} (l : list A) (f : S → A → Rand S) (acc : S) :
  (∀ acc x, seed_determined (f acc x)) → seed_determined (for_each l f acc).
Proof.
  intros Hf. revert acc. induction l as [|x l IH]; intros acc; simpl.
  - apply seed_determined_ret.
  - apply seed_determined_bind; [apply Hf|apply IH].
Qed.

(** Goes through the structure of a computation. *)
Ltac seed_step :=
  lazymatch goal with
  | |- seed_determined (mret _) => apply seed_determined_ret
  | |- seed_determined (raise _) => apply seed_determined_raise
  | |- seed_determined next_raw => apply seed_determined_next_raw
  | |- seed_determined (_ ≫= _) =>
      apply seed_determined_bind; [|intros ?; cbv beta]
  | |- seed_determined (for_each _ _ _) =>
      apply seed_determined_for_each; intros ? ?; cbv beta
  | |- seed_determined (let _ := _ in _) => cbv zeta
  | |- seed_determined (match ?x with _ => _ end) => destruct x
  | |- seed_determined _ => solve [auto with seed]
  end.

Ltac seed_auto := repeat seed_step.

Lemma seed_determined_randbelow (n : nat) : seed_determined (randbelow n).
Proof. unfold randbelow. seed_auto. Qed.
#[local] Hint Resolve seed_determined_randbelow : seed.

Lemma seed_determined_random : seed_determined random.
Proof. unfold random. seed_auto. Qed.
#[local] Hint Resolve seed_determined_random : seed.

Lemma seed_determined_randint (a b : Z) : seed_determined (randint a b).
Proof. unfold randint. seed_auto. Qed.
#[local] Hint Resolve seed_determined_randint : seed.

Lemma seed_determined_choice {A} (seq : list A) : seed_determined (choice seq).
Proof. unfold choice. seed_auto. Qed.
#[local] Hint Resolve seed_determined_choice : seed.

Lemma seed_determined_sample_loop {A} (k m : nat) (pool : list A) :
  seed_determined (sample_loop k m pool).
Proof.
  revert m pool. induction k as [|k IH]; intros m pool; simpl; seed_auto.
Qed.
#[local] Hint Resolve seed_determined_sample_loop : seed.

Lemma seed_determined_sample {A} (population : list A) (k : nat) :
  seed_determined (sample population k).
Proof. unfold sample. seed_auto. Qed.
#[local] Hint Resolve seed_determined_sample : seed.

Lemma seed_determined_choices {A} (population : list A) (weights : list Q) :
  seed_determined (choices population weights).
Proof. unfold choices. seed_auto. Qed.
#[local] Hint Resolve seed_determined_choices : seed.

Lemma seed_determined_emphasized_frequency (level : string) :
  seed_determined (emphasized_frequency level).
Proof. unfold emphasized_frequency. seed_auto. Qed.
#[local] Hint Resolve seed_determined_emphasized_frequency : seed.

Lemma seed_determined_generate_depression_profile
  (order : SetOrder) (template : Template) (episode_density : string)
  (emph_intensity : gmap string string) (extra_high : list string) :
  seed_determined
    (generate_depression_profile order template episode_density
       emph_intensity extra_high).
Proof.
  unfold generate_depression_profile, ultra_low_selection, ultra_low_assign,
    standard_assign.
  seed_auto; unfold ultra_low_assign_one, standard_assign_one; seed_auto.
Qed.
#[local] Hint Resolve seed_determined_generate_depression_profile : seed.

Lemma seed_determined_facet_loop (fuel : nat) (num_facets : Z)
  (categories : list string) (weights : list Q) (st : FacetLoop) :
  seed_determined (facet_loop fuel num_facets categories weights st).
Proof.
  revert st. induction fuel as [|fuel IH]; intros st;
    [simpl|rewrite facet_loop_unfold]; seed_auto.
Qed.
#[local] Hint Resolve seed_determined_facet_loop : seed.

Lemma seed_determined_select_required_facets
  (context_domains : list string) (depression_profile : gmap string string)
  (severity : string) :
  seed_determined
    (select_required_facets context_domains depression_profile severity).
Proof. unfold select_required_facets, required_facets_loop. seed_auto. Qed.
#[local] Hint Resolve seed_determined_select_required_facets : seed.

Lemma seed_determined_sample_profile_fields (order : SetOrder) (forced : Forced) :
  seed_determined (sample_profile_fields order forced).
Proof.
  unfold sample_profile_fields, sample_template_id, lookup_template,
    sample_modifiers, sample_pacing, sample_context_domains,
    sample_episode_density, sample_voice_style, sample_personal_background,
    sample_age_range, sample_emph_intensity, sample_extra_elevated.
  seed_auto.
Qed.

(** What the reply of the background writer contributes to the profile. *)
Definition writer_outcome (json_loads : string → option json)
  (writer_reply : option string) : option PatientLifeBackground * WriterTrace :=
  match writer_reply with
  | Some output =>
      match parse_background_writer_output json_loads output with
      | Ok background => (background, mkWriterTrace "background_writer" output)
      | Raise _ => (None, mkWriterTrace "background_writer" "ERROR")
      end
  | None => (None, mkWriterTrace "background_writer" "ERROR")
  end.

Lemma call_background_writer_outcome (json_loads : string → option json)
  (writer_reply : option string) (depression_profile : gmap string string)
  (context_domains : list string) :
  call_background_writer json_loads writer_reply depression_profile context_domains
  = (select_required_facets context_domains depression_profile
       (compute_symptom_severity depression_profile)
     ≫= fun _ => mret (writer_outcome json_loads writer_reply)).
Proof.
  unfold call_background_writer, writer_outcome.
  destruct writer_reply as [output|]; [|done].
  by destruct (parse_background_writer_output json_loads output).
Qed.

(** The draws of the sampler in the order of the source: template,
    modifiers, pacing, context domains, episode density, voice style,
    personal background, age range, intensities of the emphasized symptoms,
    extra-elevated symptom, frequency profile.  Every step starts from the
    state of the generator that the step before it left; a step whose value
    is forced draws nothing. *)
Definition drawn_in_order (order : SetOrder) (forced : Forced) (rng : Random)
  (template_id : string) (template : Template) (personality : Personality)
  (depression_profile : gmap string string) (after : Random) : Prop :=
  ∃ r1 r2 r3 r4 r5 r6 r7 r8 r9 r10 pacing density work_role age,
    sample_template_id forced rng = Ok (template_id, r1)
    ∧ lookup_template template_id r1 = Ok (template, r1)
    ∧ sample_modifiers forced template r1 = Ok (MODIFIERS personality, r2)
    ∧ sample_pacing forced r2 = Ok (pacing, r3)
    ∧ PACING personality = Some pacing
    ∧ sample_context_domains forced r3 = Ok (CONTEXT_DOMAINS personality, r4)
    ∧ sample_episode_density forced r4 = Ok (density, r5)
    ∧ EPISODE_DENSITY personality = Some density
    ∧ sample_voice_style forced r5 = Ok (VOICE_STYLE personality, r6)
    ∧ sample_personal_background forced r6
      = Ok ((PERSONAL_BACKGROUND personality, work_role), r7)
    ∧ sample_age_range forced work_role r7 = Ok (age, r8)
    ∧ AGE_RANGE personality = Some age
    ∧ sample_emph_intensity order forced template r8
      = Ok (EMPH_INTENSITY personality, r9)
    ∧ sample_extra_elevated forced template r9
      = Ok (EXTRA_ELEVATED_SYMPTOMS personality, r10)
    ∧ generate_depression_profile order template density
        (EMPH_INTENSITY personality) (EXTRA_ELEVATED_SYMPTOMS personality) r10
      = Ok (depression_profile, after).

Lemma lookup_template_state (template_id : string) (template : Template)
  (r r' : Random) :
  lookup_template template_id r = Ok (template, r') → r' = r.
Proof.
  unfold lookup_template. unrand.
  destruct (list_find _ BIG5_DEP_TEMPLATES) as [[? [? ?]]|]; [|done].
  by intros [= _ <-].
Qed.

(** One step of the sampler that returned. *)
Ltac sampler_step H E :=
  match type of H with
  | match ?step with _ => _ end = Ok _ =>
      destruct step as [[? ?]|?] eqn:E; [cbn beta iota in H|discriminate H]
  end.

Lemma sample_profile_fields_stages (order : SetOrder) (forced : Forced)
  (rng : Random) (template_id : string) (template : Template)
  (personality : Personality) (depression_profile : gmap string string)
  (after : Random) :
  sample_profile_fields order forced rng
  = Ok ((template_id, template, personality, depression_profile), after) →
  drawn_in_order order forced rng template_id template personality
    depression_profile after.
Proof.
  unfold sample_profile_fields. unrand. intros H.
  sampler_step H E1. sampler_step H E2.
  apply lookup_template_state in E2 as Hsame. subst.
  sampler_step H E3. sampler_step H E4. sampler_step H E5. sampler_step H E6.
  sampler_step H E7. sampler_step H E8.
  match type of E8 with _ = Ok (?b, _) => destruct b as [background work_role] end.
  sampler_step H E9. sampler_step H E10. sampler_step H E11. sampler_step H E12.
  injection H as <- <- <- <- <-.
  unfold drawn_in_order. cbn [MODIFIERS PACING CONTEXT_DOMAINS EPISODE_DENSITY
    VOICE_STYLE PERSONAL_BACKGROUND AGE_RANGE EMPH_INTENSITY
    EXTRA_ELEVATED_SYMPTOMS].
  eexists _, _, _, _, _, _, _, _, _, _, _, _, _, _.
  repeat (split; [eassumption || reflexivity|]). eassumption.
Qed.

(** The branch of the sampler that calls the background writer: the
    facets are drawn alike, the reply only fills [life_background] and the
    prompt trace. *)
Ltac writer_case Hs1 Hstages Hskip :=
  rewrite !call_background_writer_outcome; unrand;
  match type of Hs1 with
  | seeded_alike ?s1 ?s1' =>
      match goal with
      | |- context [select_required_facets ?c ?dp ?sev s1] =>
          pose proof (seed_determined_select_required_facets c dp sev s1 s1' Hs1)
            as Hsel;
          destruct (select_required_facets c dp sev s1) as [[sel s2]|e] eqn:Esel;
          destruct (select_required_facets c dp sev s1') as [[sel' s2']|e'];
          try done;
          destruct Hsel as [<- Hs2]; cbn [fst snd];
          do 4 (split; [done|]); split; [exact Hs2|];
          split; [by intros <-|];
          split; [by intros output background -> [= <-] _|];
          split; [intros; congruence|];
          exists s1; split; [exact Hstages|];
          split; [intros; congruence|];
          intros _; by exists sel
      end
  end.


(** On the stepping tape the sampler returns a profile, whether the
    background writer replies [{}] or fails. *)
Lemma stepping_tape_profile (reply : option string) :
  reply = Some "{}" ∨ reply = None →
  ∃ p s, sample_patient_profile first_occurrence_order braces_json
           reply no_overrides stepping_tape = Ok (p, s).
Proof.
  intros [->| ->]; eexists _, _; vm_compute; reflexivity.
Qed.



(** The seed does not fix the order in which Python iterates over a set of
    strings: on one tape, the step that draws the intensities gives the
    same emphasized symptom different intensities under two orders of
    iteration. *)
Lemma set_order_reaches_the_intensities :
  match
    sample_emph_intensity first_occurrence_order no_overrides neuroticism_high
      stepping_tape,
    sample_emph_intensity reversed_order no_overrides neuroticism_high
      stepping_tape
  with
  | Ok (e, _), Ok (e', _) =>
      e !! "Fatigue or loss of energy" = Some "LOW"
      ∧ e' !! "Fatigue or loss of energy" = Some "HIGH"
  | _, _ => False
  end.
Proof. vm_compute. split; reflexivity. Qed.

(** * The agent identifier *)

Lemma append_nil (b : string) : EmptyString +:+ b = b.
Proof. reflexivity. Qed.

Lemma append_cons (x : ascii) (a b : string) :
  String x a +:+ b = String x (a +:+ b).
Proof. reflexivity. Qed.

Lemma append_assoc (a b c : string) : (a +:+ b) +:+ c = a +:+ (b +:+ c).
Proof.
  induction a as [|x a IH]; [by rewrite !append_nil|].
  by rewrite !append_cons, IH.
Qed.

Lemma append_empty_r (a : string) : a +:+ EmptyString = a.
Proof.
  induction a as [|x a IH]; [by rewrite append_nil|]. by rewrite append_cons, IH.
Qed.

Lemma append_length (a b : string) :
  String.length (a +:+ b) = (String.length a + String.length b)%nat.
Proof.
  induction a as [|x a IH]; [by rewrite append_nil|].
  rewrite append_cons. simpl. by rewrite IH.
Qed.

Lemma append_inj_l (a x y : string) : a +:+ x = a +:+ y → x = y.
Proof. apply String.app_inj. Qed.

Lemma append_inj_r (b x y : string) : x +:+ b = y +:+ b → x = y.
Proof.
  revert y. induction x as [|c x IH]; intros [|d y] H;
    rewrite ?append_nil, ?append_cons in H.
  - done.
  - apply (f_equal String.length) in H. simpl in H. rewrite append_length in H. lia.
  - apply (f_equal String.length) in H. simpl in H. rewrite append_length in H. lia.
  - injection H as -> H. f_equal. by apply IH.
Qed.

(** What [join] puts before and after one of its parts. *)
Fixpoint join_before (sep : string) (pre : list string) : string :=
  match pre with
  | [] => EmptyString
  | p :: rest => p +:+ sep +:+ join_before sep rest
  end.

Definition join_after (sep : string) (post : list string) : string :=
  match post with
  | [] => EmptyString
  | _ => sep +:+ join sep post
  end.

Lemma join_cons (sep p : string) (rest : list string) :
  join sep (p :: rest) = p +:+ join_after sep rest.
Proof. destruct rest; simpl; [by rewrite append_empty_r|done]. Qed.

Lemma join_middle (sep : string) (pre : list string) (x : string)
  (post : list string) :
  join sep (pre ++ x :: post)
  = join_before sep pre +:+ x +:+ join_after sep post.
Proof.
  induction pre as [|p pre IH].
  - simpl app. by rewrite join_cons.
  - change ((p :: pre) ++ x :: post) with (p :: (pre ++ x :: post)).
    rewrite join_cons. unfold join_after at 1.
    destruct (pre ++ x :: post) eqn:E; [by destruct pre|].
    rewrite IH. cbn [join_before]. by rewrite !append_assoc.
Qed.

(** Two keys that differ in the value of one labelled field are different
    strings. *)
Lemma join_fields_inj (pre post : list (string * string)) (tag v v' : string) :
  join "|" (map render_field (pre ++ (tag, v) :: post))
  = join "|" (map render_field (pre ++ (tag, v') :: post)) →
  v = v'.
Proof.
  rewrite !map_app. simpl map. rewrite !join_middle. unfold render_field. simpl.
  intros H. apply append_inj_l in H.
  apply append_inj_r in H. by apply append_inj_l in H.
Qed.

(** [sorted] does not depend on the order of its argument. *)
Lemma sorted_perm (l l' : list string) : l ≡ₚ l' → sorted l = sorted l'.
Proof.
  intros Hp. unfold sorted. apply (Sorted_unique String.le).
  - apply Sorted_merge_sort, _.
  - apply Sorted_merge_sort, _.
  - by rewrite !merge_sort_Permutation.
Qed.

Lemma sorted_keys_insert (m : gmap string string) (k v v' : string) :
  m !! k = Some v →
  sorted (map_to_list (<[k := v']> m)).*1 = sorted (map_to_list m).*1.
Proof.
  intros Hk. apply sorted_perm, NoDup_Permutation.
  - apply NoDup_fst_map_to_list.
  - apply NoDup_fst_map_to_list.
  - intros x. rewrite !list_elem_of_fmap. split.
    + intros ([x1 x2] & -> & Hin%elem_of_map_to_list). simpl.
      destruct (decide (k = x1)) as [<-|Hne].
      * exists (k, v). split; [done|]. by apply elem_of_map_to_list.
      * rewrite lookup_insert_ne in Hin by done.
        exists (x1, x2). split; [done|]. by apply elem_of_map_to_list.
    + intros ([x1 x2] & -> & Hin%elem_of_map_to_list). simpl.
      destruct (decide (k = x1)) as [<-|Hne].
      * exists (k, v'). split; [done|]. apply elem_of_map_to_list.
        by rewrite lookup_insert_eq.
      * exists (x1, x2). split; [done|]. apply elem_of_map_to_list.
        by rewrite lookup_insert_ne.
Qed.

(** Changing the frequency of one symptom changes one labelled field. *)
Lemma symptom_fields_insert (m : gmap string string) (k v v' : string) :
  m !! k = Some v →
  ∃ pre post,
    symptom_fields m = pre ++ (k +:+ "=", v) :: post
    ∧ symptom_fields (<[k := v']> m) = pre ++ (k +:+ "=", v') :: post.
Proof.
  intros Hk. unfold symptom_fields. rewrite (sorted_keys_insert m k v v' Hk).
  assert (NoDup (sorted (map_to_list m).*1)) as Hnd.
  { unfold sorted. rewrite merge_sort_Permutation. apply NoDup_fst_map_to_list. }
  assert (k ∈ sorted (map_to_list m).*1) as Hin.
  { unfold sorted. rewrite merge_sort_Permutation. apply list_elem_of_fmap.
    exists (k, v). split; [done|]. by apply elem_of_map_to_list. }
  apply list_elem_of_split in Hin as (k1 & k2 & Hsplit). rewrite Hsplit in *.
  apply NoDup_app in Hnd as (_ & Hk1 & Hk2). apply NoDup_cons in Hk2 as [Hk2 _].
  exists (map (fun s => (s +:+ "=", default EmptyString (m !! s))) k1),
         (map (fun s => (s +:+ "=", default EmptyString (m !! s))) k2).
  rewrite !map_app. simpl map. rewrite Hk, lookup_insert_eq. simpl. split; [done|].
  f_equal; [|f_equal]; apply map_ext_in; intros s Hs%list_elem_of_In;
    rewrite lookup_insert_ne; try done; intros <-.
  - apply (Hk1 k); [done|]. apply elem_of_cons. by left.
  - done.
Qed.

(** The fields of the key are the sixteen levers, labelled, in the order
    of the source. *)
Lemma profile_key_fields_levers
  (template_id : string) (personality : Personality)
  (doctor_persona_id : string) (doctor_microstyle : gmap string string) :
  profile_key_fields template_id personality doctor_persona_id doctor_microstyle
  = map (fun lever =>
           (lever_label lever,
            lever_value lever template_id personality doctor_persona_id
              doctor_microstyle))
      levers.
Proof. reflexivity. Qed.

Lemma levers_complete (lever : Lever) : lever ∈ levers.
Proof.
  destruct lever;
    repeat first [ apply list_elem_of_here | apply list_elem_of_further ].
Qed.

Lemma levers_NoDup : NoDup levers.
Proof. apply (bool_decide_unpack _). by vm_compute. Qed.

(** Two lists of labelled fields that differ in the value of one field
    give different keys. *)
Lemma one_field_changes_the_key
  (pre post : list (string * string)) (tag v v' : string) :
  v ≠ v' →
  join "|" (map render_field (pre ++ (tag, v) :: post))
  ≠ join "|" (map render_field (pre ++ (tag, v') :: post)).
Proof. intros Hne Hkey. by apply Hne, (join_fields_inj pre post tag). Qed.

(** The agent id and the sixteen levers.  Sessions that agree on the
    template, the patient's pacing, density, age range, five voice-style
    dimensions and modifiers (in whatever order these were drawn), the
    doctor's persona and five microstyle sliders, and the depression
    profile get the same agent id, whatever their other fields are; so do
    sessions that agree on the value of every lever.  Sessions that differ
    in the value of exactly one lever, or in the frequency of exactly one
    symptom, get different keys to hash. *)
Theorem agent_id_stability_and_sensitivity (sha256_hexdigest : string → string) :
  (∀ template_id personality personality' doctor_persona_id
     doctor_microstyle doctor_microstyle' depression_profile,
     PACING personality = PACING personality' →
     EPISODE_DENSITY personality = EPISODE_DENSITY personality' →
     AGE_RANGE personality = AGE_RANGE personality' →
     (∀ dim, dim ∈ ["trust"; "verbosity"; "expressiveness"; "intellect"; "humor"] →
             VOICE_STYLE personality !! dim = VOICE_STYLE personality' !! dim) →
     MODIFIERS personality ≡ₚ MODIFIERS personality' →
     (∀ slider, slider ∈ ["warmth"; "directness"; "pacing"; "humor"; "animation"] →
                doctor_microstyle !! slider = doctor_microstyle' !! slider) →
     agent_id sha256_hexdigest template_id personality doctor_persona_id
       doctor_microstyle depression_profile
     = agent_id sha256_hexdigest template_id personality' doctor_persona_id
         doctor_microstyle' depression_profile)
  ∧ (∀ template_id personality doctor_persona_id doctor_microstyle
       template_id' personality' doctor_persona_id' doctor_microstyle'
       depression_profile,
       (∀ lever,
          lever_value lever template_id personality doctor_persona_id
            doctor_microstyle
          = lever_value lever template_id' personality' doctor_persona_id'
              doctor_microstyle') →
       agent_id sha256_hexdigest template_id personality doctor_persona_id
         doctor_microstyle depression_profile
       = agent_id sha256_hexdigest template_id' personality' doctor_persona_id'
           doctor_microstyle' depression_profile)
  ∧ (∀ changed template_id personality doctor_persona_id doctor_microstyle
       template_id' personality' doctor_persona_id' doctor_microstyle'
       depression_profile,
       (∀ lever, lever ≠ changed →
          lever_value lever template_id personality doctor_persona_id
            doctor_microstyle
          = lever_value lever template_id' personality' doctor_persona_id'
              doctor_microstyle') →
       lever_value changed template_id personality doctor_persona_id
         doctor_microstyle
       ≠ lever_value changed template_id' personality' doctor_persona_id'
           doctor_microstyle' →
       profile_key template_id personality doctor_persona_id doctor_microstyle
         depression_profile
       ≠ profile_key template_id' personality' doctor_persona_id'
           doctor_microstyle' depression_profile)
  ∧ (∀ template_id personality doctor_persona_id doctor_microstyle
       depression_profile symptom v v',
       depression_profile !! symptom = Some v →
       v ≠ v' →
       profile_key template_id personality doctor_persona_id doctor_microstyle
         depression_profile
       ≠ profile_key template_id personality doctor_persona_id doctor_microstyle
           (<[symptom := v']> depression_profile)).
Proof.
  split.
  { intros t p p' d m m' dp Hpace Hdens Hage Hvoice Hmods Hms.
    unfold agent_id, profile_key, profile_key_parts, profile_key_fields.
    cbv zeta. rewrite Hpace, Hdens, Hage, (sorted_perm _ _ Hmods).
    rewrite !Hvoice
      by repeat first [ apply list_elem_of_here | apply list_elem_of_further ].
    by rewrite !Hms
      by repeat first [ apply list_elem_of_here | apply list_elem_of_further ]. }
  split.
  { intros t p d m t' p' d' m' dp Hall.
    unfold agent_id, profile_key, profile_key_parts.
    rewrite !profile_key_fields_levers.
    do 5 f_equal. apply map_ext. intros lever. by rewrite Hall. }
  split.
  { intros changed t p d m t' p' d' m' dp Hothers Hdiff.
    pose proof levers_NoDup as Hnd.
    destruct (list_elem_of_split levers changed (levers_complete changed))
      as (before & after & Hsplit).
    rewrite Hsplit in Hnd.
    apply NoDup_app in Hnd as (_ & Hbefore & [Hafter _]%NoDup_cons).
    set (fields' := fun lever : Lever =>
                      (lever_label lever, lever_value lever t' p' d' m')).
    assert (∀ part : list Lever,
              (∀ lever, lever ∈ part → lever ≠ changed) →
              map (fun lever => (lever_label lever, lever_value lever t p d m)) part
              = map fields' part) as Hpart.
    { intros part Hne. apply map_ext_in. intros lever Hin%list_elem_of_In.
      unfold fields'. by rewrite (Hothers lever (Hne lever Hin)). }
    assert (profile_key_fields t p d m
            = map fields' before
              ++ (lever_label changed, lever_value changed t p d m)
                 :: map fields' after) as Hl.
    { rewrite profile_key_fields_levers, Hsplit, map_app. simpl map.
      rewrite (Hpart before), (Hpart after); [done| |].
      - by intros lever Hin ->.
      - intros lever Hin ->. apply (Hbefore changed Hin). apply elem_of_cons.
        by left. }
    assert (profile_key_fields t' p' d' m'
            = map fields' before
              ++ (lever_label changed, lever_value changed t' p' d' m')
                 :: map fields' after) as Hr.
    { by rewrite profile_key_fields_levers, Hsplit, map_app. }
    unfold profile_key, profile_key_parts.
    rewrite Hl, Hr, <- !app_assoc, <- !app_comm_cons.
    by apply one_field_changes_the_key. }
  intros t p d m dp symptom v v' Hlook Hne.
  destruct (symptom_fields_insert dp symptom v v' Hlook) as (pre & post & H1 & H2).
  unfold profile_key, profile_key_parts. rewrite H1, H2, !app_assoc.
  by apply one_field_changes_the_key.
Qed.

(** C7: the code falls short of the claim, and of its own comment (lines
    549-550: the id changes when any patient or doctor parameter changes),
    for the sampled fields that the key leaves out: two sessions that differ
    in their context domains alone get the same key, hence the same agent id
    whatever the digest is. *)
Lemma context_domains_do_not_reach_the_key :
  CONTEXT_DOMAINS (sample_personality ["health concern"])
  ≠ CONTEXT_DOMAINS (sample_personality ["grief/bereavement"])
  ∧ profile_key "NEUROTICISM_HIGH" (sample_personality ["health concern"])
      "warm_validating" sample_microstyle sample_depression_profile
    = profile_key "NEUROTICISM_HIGH" (sample_personality ["grief/bereavement"])
        "warm_validating" sample_microstyle sample_depression_profile
  ∧ ∀ sha256_hexdigest : string → string,
      agent_id sha256_hexdigest "NEUROTICISM_HIGH"
        (sample_personality ["health concern"])
        "warm_validating" sample_microstyle sample_depression_profile
      = agent_id sha256_hexdigest "NEUROTICISM_HIGH"
          (sample_personality ["grief/bereavement"])
          "warm_validating" sample_microstyle sample_depression_profile.
Proof.
  assert (profile_key "NEUROTICISM_HIGH" (sample_personality ["health concern"])
            "warm_validating" sample_microstyle sample_depression_profile
          = profile_key "NEUROTICISM_HIGH"
              (sample_personality ["grief/bereavement"])
              "warm_validating" sample_microstyle sample_depression_profile)
    as Hkey by (vm_compute; reflexivity).
  split; [discriminate|]. split; [exact Hkey|].
  intros sha256_hexdigest. unfold agent_id. by rewrite Hkey.
Qed.

(** * Fence stripping and the manager parsers *)

(** ** Strings as the primitives see them *)

Lemma list_ascii_app (a b : string) :
  String.list_ascii_of_string (a +:+ b)
  = String.list_ascii_of_string a ++ String.list_ascii_of_string b.
Proof.
  induction a as [|c a IH]; [done|]. rewrite append_cons. simpl. by rewrite IH.
Qed.

Lemma string_of_list_app (x y : list ascii) :
  String.string_of_list_ascii (x ++ y)
  = String.string_of_list_ascii x +:+ String.string_of_list_ascii y.
Proof.
  induction x as [|c x IH]; [done|]. simpl. by rewrite IH, append_cons.
Qed.

Lemma reverse_app (a b : string) :
  reverse (a +:+ b) = reverse b +:+ reverse a.
Proof.
  unfold reverse. by rewrite list_ascii_app, rev_app_distr, string_of_list_app.
Qed.

Lemma reverse_involutive (s : string) : reverse (reverse s) = s.
Proof.
  unfold reverse.
  by rewrite String.list_ascii_of_string_of_list_ascii, rev_involutive,
    String.string_of_list_ascii_of_string.
Qed.

Lemma reverse_cons (c : ascii) (s : string) :
  reverse (String c s) = reverse s +:+ String c EmptyString.
Proof.
  change (String c s) with (String c EmptyString +:+ s). by rewrite reverse_app.
Qed.

Lemma prefix_app (p s : string) : String.prefix p (p +:+ s) = true.
Proof.
  induction p as [|a p IH]; [by destruct s|].
  rewrite append_cons. simpl. by destruct (ascii_dec a a).
Qed.

Lemma prefix_weaken (a b s : string) :
  String.prefix (a +:+ b) s = true → String.prefix a s = true.
Proof.
  revert s. induction a as [|c a IH]; intros s; [by destruct s|].
  rewrite append_cons. destruct s as [|d s]; simpl; [done|].
  destruct (ascii_dec c d); [apply IH|done].
Qed.

Lemma slice_from_app (p s : string) : slice_from (String.length p) (p +:+ s) = s.
Proof.
  induction p as [|a p IH]; [by destruct s|]. rewrite append_cons. by simpl.
Qed.

Lemma slice_to_minus_app (s q : string) :
  slice_to_minus (String.length q) (s +:+ q) = s.
Proof.
  unfold slice_to_minus. rewrite append_length.
  replace (String.length s + String.length q - String.length q)%nat
    with (String.length s) by lia.
  induction s as [|c s IH]; [by destruct q|].
  rewrite append_cons. simpl. by rewrite IH.
Qed.

(** A string that is empty or starts with a character that is no space. *)
Definition starts_visible (s : string) : Prop :=
  match s with
  | EmptyString => True
  | String c _ => isspace c = false
  end.

Lemma lstrip_visible (s : string) : starts_visible (lstrip s).
Proof.
  induction s as [|c s IH]; [done|]. simpl.
  by destruct (isspace c) eqn:Hc.
Qed.

Lemma lstrip_fixed (s : string) : starts_visible s → lstrip s = s.
Proof. destruct s as [|c s]; [done|]. simpl. by intros ->. Qed.

Lemma lstrip_snoc (x : string) (c : ascii) :
  isspace c = false →
  ∃ w, lstrip (x +:+ String c EmptyString) = w +:+ String c EmptyString.
Proof.
  intros Hc. induction x as [|d x IH].
  - exists EmptyString. rewrite !append_nil. simpl. by rewrite Hc.
  - rewrite append_cons. simpl. destruct (isspace d); [done|].
    exists (String d x). by rewrite append_cons.
Qed.

Lemma rstrip_cons (c : ascii) (r : string) :
  isspace c = false → ∃ w, rstrip (String c r) = String c w.
Proof.
  intros Hc. unfold rstrip. rewrite reverse_cons.
  destruct (lstrip_snoc (reverse r) c Hc) as [w ->].
  rewrite reverse_app. exists (reverse w). done.
Qed.

Lemma rstrip_fixed (s : string) : starts_visible (reverse s) → rstrip s = s.
Proof.
  intros Hv. unfold rstrip. by rewrite (lstrip_fixed _ Hv), reverse_involutive.
Qed.

Lemma strip_fixed (s : string) :
  starts_visible s → starts_visible (reverse s) → strip s = s.
Proof.
  intros Hs Hr. unfold strip. rewrite (lstrip_fixed _ Hs). by apply rstrip_fixed.
Qed.

(** [strip] removes all it can the first time. *)
Lemma strip_idempotent (s : string) : strip (strip s) = strip s.
Proof.
  unfold strip at 2 3. pose proof (lstrip_visible s) as Hu.
  set (u := lstrip s) in *.
  apply strip_fixed.
  - destruct u as [|c r]; [done|]. by destruct (rstrip_cons c r Hu) as [w ->].
  - unfold rstrip. rewrite reverse_involutive. apply lstrip_visible.
Qed.

Lemma strip_nonblank (c : ascii) (r : string) :
  isspace c = false → strip (String c r) ≠ EmptyString.
Proof.
  intros Hc. unfold strip. simpl lstrip. rewrite Hc.
  by destruct (rstrip_cons c r Hc) as [w ->].
Qed.

Lemma strip_newline (body : string) : strip (newline +:+ body) = strip body.
Proof. done. Qed.

(** ** The fences *)

Lemma fence_cleaned (tag body : string) :
  starts_visible (tag +:+ newline +:+ body +:+ "```") →
  strip (tag +:+ newline +:+ body +:+ "```")
  = tag +:+ newline +:+ body +:+ "```"
  ∧ endswith (newline +:+ body +:+ "```") "```" = true
  ∧ slice_to_minus 3 (newline +:+ body +:+ "```") = newline +:+ body
  ∧ startswith (newline +:+ body +:+ "```") "```" = false.
Proof.
  intros Hv. split; [|split; [|split]].
  - apply strip_fixed; [done|].
    rewrite <- !append_assoc, reverse_app. done.
  - unfold endswith. rewrite <- append_assoc, reverse_app. apply prefix_app.
  - rewrite <- append_assoc. apply (slice_to_minus_app _ "```").
  - done.
Qed.

Lemma json_fence_cleaned (body : string) :
  strip_code_fences ("```json" +:+ newline +:+ body +:+ "```") = strip body.
Proof.
  destruct (fence_cleaned "```json" body) as (Hstrip & Hend & Hcut & Hnl);
    [done|].
  unfold strip_code_fences; cbv zeta; rewrite Hstrip.
  assert (startswith ("```json" +:+ newline +:+ body +:+ "```") "```json" = true)
    as -> by apply prefix_app.
  rewrite (slice_from_app "```json"), Hnl, Hend, Hcut. apply strip_newline.
Qed.

Lemma bare_fence_cleaned (body : string) :
  strip_code_fences ("```" +:+ newline +:+ body +:+ "```") = strip body.
Proof.
  destruct (fence_cleaned "```" body) as (Hstrip & Hend & Hcut & Hnl);
    [done|].
  unfold strip_code_fences; cbv zeta; rewrite Hstrip.
  assert (startswith ("```" +:+ newline +:+ body +:+ "```") "```json" = false)
    as -> by done.
  assert (startswith ("```" +:+ newline +:+ body +:+ "```") "```" = true)
    as -> by apply prefix_app.
  rewrite (slice_from_app "```"), Hend, Hcut. apply strip_newline.
Qed.

(** A reply wrapped in a Markdown fence, with or without the language
    tag, is cleaned to the text inside the fence, stripped. *)
Theorem strip_code_fences_fenced (body : string) :
  strip_code_fences ("```json" +:+ newline +:+ body +:+ "```") = strip body
  ∧ strip_code_fences ("```" +:+ newline +:+ body +:+ "```") = strip body.
Proof.
  split; [apply json_fence_cleaned | apply bare_fence_cleaned].
Qed.

(** A reply without fences is only stripped, and cleaning it twice changes
    nothing more. *)
Lemma strip_code_fences_plain (text : string) :
  startswith (strip text) "```" = false →
  endswith (strip text) "```" = false →
  strip_code_fences text = strip text.
Proof.
  intros Hs He. unfold strip_code_fences. cbv zeta.
  assert (startswith (strip text) "```json" = false) as ->.
  { destruct (startswith (strip text) "```json") eqn:Hj; [|done].
    unfold startswith in *. apply (prefix_weaken "```" "json") in Hj. congruence. }
  rewrite Hs, He. apply strip_idempotent.
Qed.

(** A fenced reply is parsed as the bare reply is: all four parsers see the
    same cleaned text. *)
Theorem fenced_reply_parses_alike
  (json_loads : string → option json) (py_str : json → string)
  (body : string) (dsm_symptom_keys : list string) (draw : nat)
  (base_voice_style : gmap string string) (current_disclosure_state : json) :
  startswith (strip body) "```" = false →
  endswith (strip body) "```" = false →
  let fenced := "```json" +:+ newline +:+ body +:+ "```" in
  parse_doctor_manager_output json_loads py_str fenced dsm_symptom_keys draw
  = parse_doctor_manager_output json_loads py_str body dsm_symptom_keys draw
  ∧ parse_post_dsm_manager_output json_loads fenced
    = parse_post_dsm_manager_output json_loads body
  ∧ parse_patient_manager_output json_loads fenced base_voice_style
      current_disclosure_state
    = parse_patient_manager_output json_loads body base_voice_style
        current_disclosure_state
  ∧ parse_background_writer_output json_loads fenced
    = parse_background_writer_output json_loads body.
Proof.
  intros Hs He fenced.
  assert (strip_code_fences fenced = strip_code_fences body) as Hclean.
  { unfold fenced. rewrite (json_fence_cleaned body).
    symmetry. by apply strip_code_fences_plain. }
  unfold parse_doctor_manager_output, parse_post_dsm_manager_output,
    parse_patient_manager_output, parse_background_writer_output.
  by rewrite Hclean.
Qed.

Lemma fenced_reply_parses_alike_witness :
  startswith (strip follow_up_reply) "```" = false
  ∧ endswith (strip follow_up_reply) "```" = false
  ∧ parse_post_dsm_manager_output follow_up_json
      ("```json" +:+ newline +:+ follow_up_reply +:+ "```")
    = Ok (mkPostDsmDecision (JStr "FOLLOW_UP") (JStr EmptyString)
            "Follow up on what the patient just said.").
Proof.
  split; [reflexivity|]. split; [reflexivity|].
  destruct (fenced_reply_parses_alike follow_up_json plain_str follow_up_reply
              [] 0 ∅ JNull eq_refl eq_refl) as (_ & -> & _).
  reflexivity.
Defined.

(** ** The instruction handed to the doctor *)

Lemma strip_nonblank_app (c : ascii) (p rest : string) :
  isspace c = false → strip (String c p +:+ rest) ≠ EmptyString.
Proof. intros Hc. rewrite append_cons. by apply strip_nonblank. Qed.

Lemma instruction_or_empty_blank (v : json) (instruction : string) (blank : bool) :
  instruction_or_empty v = Ok (instruction, blank) →
  blank = false → strip instruction ≠ EmptyString.
Proof.
  unfold instruction_or_empty.
  destruct (if truthy v then v else JStr EmptyString); try discriminate.
  intros [= <- <-] Hb. by apply String.eqb_neq.
Qed.

(** Whatever the manager replies, a decision that the parsers return
    carries an instruction that is not blank. *)
Theorem doctor_instruction_never_blank
  (json_loads : string → option json) (py_str : json → string)
  (manager_output : string) (dsm_symptom_keys : list string) (draw : nat) :
  (∀ d, parse_doctor_manager_output json_loads py_str manager_output
          dsm_symptom_keys draw = Ok d →
        strip (doctor_instruction d) ≠ EmptyString)
  ∧ (∀ d, parse_post_dsm_manager_output json_loads manager_output = Ok d →
          strip (post_doctor_instruction d) ≠ EmptyString).
Proof.
  split; intros d.
  - unfold parse_doctor_manager_output.
    destruct (json_loads _) as [v|].
    + unbind. destruct v; simpl; try discriminate.
      destruct (instruction_or_empty _) as [[instruction blank]|] eqn:E;
        [|discriminate].
      intros [= <-]. simpl. destruct blank.
      * destruct (eq_str _ "DSM"); [by apply strip_nonblank_app|].
        destruct (eq_str _ "FOLLOW_UP"); by apply strip_nonblank.
      * by apply (instruction_or_empty_blank _ _ _ E).
    + destruct dsm_symptom_keys; intros [= <-]; simpl;
        [by apply strip_nonblank|by apply strip_nonblank_app].
  - unfold parse_post_dsm_manager_output.
    destruct (json_loads _) as [v|].
    + unbind. destruct v; simpl; try discriminate.
      destruct (instruction_or_empty _) as [[instruction blank]|] eqn:E;
        [|discriminate].
      intros [= <-]. simpl. destruct blank.
      * destruct (eq_str _ "END"); [by apply strip_nonblank|].
        destruct (eq_str _ "FOLLOW_UP"); by apply strip_nonblank.
      * by apply (instruction_or_empty_blank _ _ _ E).
    + intros [= <-]. by apply strip_nonblank.
Qed.

(** ** Replies that are JSON but no object *)

(** A reply that decodes to something other than an object makes every
    manager parser raise [AttributeError]; in the loop the exception reaches
    the caller of the session.  The background writer's parser raises it as
    well, and [call_background_writer] turns it into a missing background. *)
Theorem non_object_reply_raises
  (json_loads : string → option json) (py_str : json → string)
  (text : string) (v : json) :
  json_loads (strip_code_fences text) = Some v →
  (∀ fields, v ≠ JObj fields) →
  (∀ dsm_symptom_keys draw,
     parse_doctor_manager_output json_loads py_str text dsm_symptom_keys draw
     = Raise AttributeError)
  ∧ parse_post_dsm_manager_output json_loads text = Raise AttributeError
  ∧ (∀ base_voice_style current_disclosure_state,
       parse_patient_manager_output json_loads text base_voice_style
         current_disclosure_state = Raise AttributeError)
  ∧ parse_background_writer_output json_loads text = Raise AttributeError
  ∧ (∀ voice_style env s,
       doctor_manager_reply env (doctor_turns_elapsed s + 1) = text →
       loop_body json_loads py_str voice_style env s = Raise AttributeError)
  ∧ (∀ depression_profile context_domains rng,
       ∃ trace rng',
         call_background_writer json_loads (Some text) depression_profile
           context_domains rng = Ok ((None, trace), rng')).
Proof.
  intros Hv Hobj.
  assert (∀ k default, get v k default = Raise AttributeError) as Hget.
  { intros k default. destruct v; try done. by destruct (Hobj fields). }
  assert (∀ keys draw,
            parse_doctor_manager_output json_loads py_str text keys draw
            = Raise AttributeError) as Hdoctor.
  { intros keys draw. unfold parse_doctor_manager_output. rewrite Hv. unbind.
    by rewrite Hget. }
  assert (parse_post_dsm_manager_output json_loads text = Raise AttributeError)
    as Hpost.
  { unfold parse_post_dsm_manager_output. rewrite Hv. unbind. by rewrite Hget. }
  assert (parse_background_writer_output json_loads text = Raise AttributeError)
    as Hwriter.
  { unfold parse_background_writer_output. rewrite Hv. unbind. by rewrite Hget. }
  split; [done|]. split; [done|]. split.
  { intros vs cur. unfold parse_patient_manager_output. rewrite Hv. unbind.
    by rewrite Hget. }
  split; [done|]. split.
  - intros voice_style env s Hreply. unfold loop_body, branch_move. unbind.
    rewrite Hreply, Hpost, Hdoctor.
    destruct (select_mode s) eqn:Hm; try done.
    apply select_mode_force in Hm as [Hne _]. by destruct (dsm_pool s).
  - intros dp cd rng. rewrite call_background_writer_outcome. unrand.
    destruct (required_facets_loop_spec rng cd dp (compute_symptom_severity dp))
      as (st & rng' & _ & -> & _).
    unfold writer_outcome. rewrite Hwriter. by eexists _, _.
Qed.

Lemma non_object_reply_raises_witness :
  (fun _ : string => Some JNull) (strip_code_fences "null") = Some JNull
  ∧ (∀ fields, JNull ≠ JObj fields)
  ∧ parse_post_dsm_manager_output (fun _ => Some JNull) "null"
    = Raise AttributeError.
Proof.
  assert (∀ fields, JNull ≠ JObj fields) as Hobj by done.
  split; [reflexivity|]. split; [exact Hobj|].
  exact (proj1 (proj2 (non_object_reply_raises (fun _ => Some JNull) plain_str
                         "null" JNull eq_refl Hobj))).
Defined.

(** * The transcript and the audit trail of a session *)

Lemma exchanges_snoc (a b : string) (n : nat) :
  exchanges a b n ++ [a; b] = exchanges a b (S n).
Proof. induction n as [|n IH]; [done|]. simpl. by rewrite IH. Qed.

Lemma exchanges_last (a b : string) (n : nat) :
  last (exchanges a b (S n)) = Some b.
Proof. rewrite <- exchanges_snoc. by rewrite (last_app _ [a; b]). Qed.

Lemma exchanges_length (a b : string) (n : nat) :
  length (exchanges a b n) = (2 * n)%nat.
Proof. induction n as [|n IH]; [done|]. simpl. rewrite IH. lia. Qed.

Lemma exchanges_speakers (n : nat) :
  map speaker_of (exchanges "assistant" "user" n) = exchanges "doctor" "patient" n.
Proof. induction n as [|n IH]; [done|]. simpl. by rewrite IH. Qed.

Lemma seqZ_snoc (n : Z) : 0 ≤ n → seqZ 1 (n + 1) = seqZ 1 n ++ [n + 1].
Proof.
  intros Hn. rewrite (seqZ_app 1) by lia. f_equal.
  unfold seqZ. simpl. f_equal. lia.
Qed.

(** What holds whenever the [while] test is evaluated: the dialogue so
    far is the greeting exchange and one exchange per turn, the guidance
    records are numbered 1, 1, 2, ..., the decision records 1, 2, ..., and
    the disclosure state is the stage of the guidance logged last. *)
Definition trail_invariant (s : SessionState) : Prop :=
  0 ≤ doctor_turns_elapsed s
  ∧ (conversation_history s).*1
    = exchanges "assistant" "user" (S (Z.to_nat (doctor_turns_elapsed s)))
  ∧ map pm_turn (patient_manager_decisions s)
    = 1 :: seqZ 1 (doctor_turns_elapsed s)
  ∧ map dm_turn (doctor_manager_decisions s) = seqZ 1 (doctor_turns_elapsed s)
  ∧ ∃ r, last (patient_manager_decisions s) = Some r
         ∧ disclosure_state s = disclosure_stage (pm_guidance r).

Section TrailFacts.

Variable json_loads : string -> option json.
Variable py_str : json -> string.
Variable voice_style : gmap string string.
Variable env : Env.

Lemma doctor_turn_appends s mv s' :
  doctor_turn json_loads voice_style env s mv = Ok s' →
  conversation_history s'
  = conversation_history s
    ++ [("assistant", doctor_reply env (doctor_turns_elapsed s + 1));
        ("user", patient_agent_reply env (doctor_turns_elapsed s + 1))]
  ∧ ∃ g, patient_manager_decisions s'
         = patient_manager_decisions s
           ++ [mkPatientManagerRecord (doctor_turns_elapsed s + 1)
                 (mv_next_action mv) g]
         ∧ disclosure_state s' = disclosure_stage g.
Proof.
  unfold doctor_turn. unbind. intros H. split_result H.
  destruct a as [[[pool asked] key] instr].
  split_result H. split_result H. injection H as <-. simpl.
  rewrite <- app_assoc. split; [done|]. by eexists.
Qed.

(** What one pass appends to the dialogue and to the two logs. *)
Lemma loop_body_appends s step :
  loop_body json_loads py_str voice_style env s = Ok step →
  ∃ d, doctor_manager_decisions (step_state step)
       = doctor_manager_decisions s ++ [d]
       ∧ dm_turn d = doctor_turns_elapsed s + 1
       ∧ dm_manager_type d = manager_type_of (select_mode s)
       ∧ match step with
         | Continue s' =>
             conversation_history s'
             = conversation_history s
               ++ [("assistant", doctor_reply env (doctor_turns_elapsed s + 1));
                   ("user", patient_agent_reply env (doctor_turns_elapsed s + 1))]
             ∧ ∃ g, patient_manager_decisions s'
                    = patient_manager_decisions s
                      ++ [mkPatientManagerRecord (doctor_turns_elapsed s + 1)
                            (dm_next_action d) g]
                    ∧ disclosure_state s' = disclosure_stage g
         | Break s' =>
             conversation_history s'
             = conversation_history s ++ [("assistant", closing_msg)]
             ∧ patient_manager_decisions s' = patient_manager_decisions s
             ∧ disclosure_state s' = disclosure_state s
             ∧ dm_next_action d = JStr "END"
             ∧ dsm_pool s' = []
         end.
Proof.
  unfold loop_body. unbind. intros H. split_result H.
  assert (∀ s', doctor_turn json_loads voice_style env
                  (log_decision s (select_mode s) a) a = Ok s' →
                ∃ d, doctor_manager_decisions s'
                     = doctor_manager_decisions s ++ [d]
                     ∧ dm_turn d = doctor_turns_elapsed s + 1
                     ∧ dm_manager_type d = manager_type_of (select_mode s)
                     ∧ conversation_history s'
                       = conversation_history s
                         ++ [("assistant", doctor_reply env (doctor_turns_elapsed s + 1));
                             ("user", patient_agent_reply env (doctor_turns_elapsed s + 1))]
                     ∧ ∃ g, patient_manager_decisions s'
                            = patient_manager_decisions s
                              ++ [mkPatientManagerRecord (doctor_turns_elapsed s + 1)
                                    (dm_next_action d) g]
                            ∧ disclosure_state s' = disclosure_stage g) as Ht.
  { intros s' Hs'. pose proof Hs' as Hs2.
    apply doctor_turn_spec in Hs' as (_ & _ & Hdm & _).
    apply doctor_turn_appends in Hs2 as (Hh & g & Hpm & Hg).
    simpl in *. eexists. split; [exact Hdm|]. simpl.
    split; [done|]. split; [done|]. split; [done|]. by exists g. }
  destruct (select_mode s) eqn:Hm;
    try (split_result H; injection H as <-; by apply Ht).
  destruct (eq_str (mv_next_action a) "END") eqn:Hend.
  - injection H as <-. simpl. eexists. split; [done|]. simpl.
    split; [done|]. split; [done|]. split; [done|]. split; [done|].
    split; [done|]. split; [|by apply select_mode_post].
    destruct (mv_next_action a); try discriminate.
    simpl in Hend. by apply String.eqb_eq in Hend as ->.
  - split_result H; injection H as <-; by apply Ht.
Qed.

Lemma trail_invariant_step s s' :
  trail_invariant s →
  loop_body json_loads py_str voice_style env s = Ok (Continue s') →
  trail_invariant s'.
Proof.
  intros (H0 & Hroles & Hpm & Hdm & _) Hb. pose proof Hb as Hb2.
  apply loop_body_continue in Hb as (He & _).
  apply loop_body_appends in Hb2 as (d & Hd & Hturn & _ & Hh & g & Hg & Hdisc).
  simpl in Hd. unfold trail_invariant. rewrite He, Hh, Hg, Hd.
  split; [lia|]. split.
  { rewrite fmap_app, Hroles. simpl fmap.
    rewrite exchanges_snoc. f_equal. lia. }
  split.
  { rewrite map_app, Hpm. simpl map. by rewrite seqZ_snoc. }
  split.
  { rewrite map_app, Hdm. simpl map. by rewrite Hturn, seqZ_snoc. }
  eexists. rewrite last_snoc. split; [done|]. by simpl.
Qed.

Lemma trail_invariant_reaches s0 s :
  trail_invariant s0 →
  loop_reaches json_loads py_str voice_style env s0 s →
  trail_invariant s.
Proof.
  intros H0. induction 1 as [|s s' Hr IH Hlt Hb]; [done|].
  by apply (trail_invariant_step s).
Qed.

Lemma session_start_trail greeting pacing persona s0 :
  session_start json_loads voice_style env greeting pacing persona = Ok s0 →
  trail_invariant s0
  ∧ head (conversation_history s0) = Some ("assistant", greeting)
  ∧ doctor_turns_elapsed s0 = 0
  ∧ dsm_pool s0 = DSM_ITEMS
  ∧ asked_question_order s0 = [].
Proof.
  unfold session_start. unbind. intros H. split_result H. injection H as <-.
  unfold trail_invariant. simpl. repeat split; try done. by eexists.
Qed.

(** The state with which a completed session ends: the loop was left by
    its test, and the doctor closes with [final_msg], or by [break] after
    the closing message. *)
Lemma run_session_result greeting pacing persona s :
  run_session json_loads py_str voice_style env greeting pacing persona
  = Some (Ok s) →
  ∃ s0 s1,
    session_start json_loads voice_style env greeting pacing persona = Ok s0
    ∧ loop_reaches json_loads py_str voice_style env s0 s1
    ∧ trail_invariant s1
    ∧ ((¬ doctor_turns_elapsed s1 < max_doctor_turns s1
        ∧ s = say s1 "assistant" final_msg)
       ∨ (doctor_turns_elapsed s1 < max_doctor_turns s1
          ∧ loop_body json_loads py_str voice_style env s1 = Ok (Break s))).
Proof.
  unfold run_session.
  destruct (session_start _ _ _ _ _ _) as [s0|] eqn:Hstart; [|done].
  destruct (run_dialogue_loop _ _ _ _ s0) as [[s2|]|] eqn:Hrun; try done.
  intros [= Hclose].
  apply session_start_trail in Hstart as Hs0. destruct Hs0 as (Hinv & _).
  apply (dialogue_loop_reaches json_loads py_str voice_style env _ s0 s0)
    in Hrun as (s1 & Hr & Hend); [|constructor].
  pose proof (trail_invariant_reaches _ _ Hinv Hr) as Hinv1.
  exists s0, s1. split; [done|]. split; [done|]. split; [done|].
  unfold close_session in Hclose.
  destruct Hend as [[-> Hexit]|[Hlt Hb]].
  - left. split; [done|]. destruct Hinv1 as (_ & Hroles & _).
    pose proof (exchanges_last "assistant" "user"
                  (Z.to_nat (doctor_turns_elapsed s1))) as Hlast.
    rewrite <- Hroles, fmap_last in Hlast.
    destruct (last (conversation_history s1)) as [[role text]|]; [|done].
    simpl in Hlast. injection Hlast as ->. simpl in Hclose. by injection Hclose.
  - right. split; [done|]. pose proof Hb as Hb2.
    apply loop_body_appends in Hb2 as (_ & _ & _ & _ & Hh & _).
    rewrite Hh, last_snoc in Hclose. simpl in Hclose. by injection Hclose as <-.
Qed.

End TrailFacts.

Lemma readable_conversation_speakers (h : list (string * string)) :
  (readable_conversation h).*1 = map speaker_of h.*1
  ∧ (readable_conversation h).*2 = h.*2.
Proof.
  unfold readable_conversation. induction h as [|[role text] h [IH1 IH2]]; [done|].
  split; simpl; f_equal; [exact IH1|exact IH2].
Qed.

Lemma loop_reaches_history
  (json_loads : string → option json) (py_str : json → string)
  (voice_style : gmap string string) (env : Env) (s0 s : SessionState) :
  loop_reaches json_loads py_str voice_style env s0 s →
  ∃ more, conversation_history s = conversation_history s0 ++ more.
Proof.
  induction 1 as [|s s' Hr [more IH] Hlt Hb].
  - exists []. by rewrite app_nil_r.
  - apply loop_body_appends in Hb as (_ & _ & _ & _ & Hh & _).
    rewrite Hh, IH, <- app_assoc. by eexists.
Qed.

(** The facts about a completed session from which the statements below
    are read. *)
Lemma run_session_trail
  (json_loads : string → option json) (py_str : json → string)
  (voice_style : gmap string string) (env : Env)
  (greeting pacing persona : string) (s : SessionState) :
  run_session json_loads py_str voice_style env greeting pacing persona
  = Some (Ok s) →
  ∃ (closing : string) (h : list (string * string)),
    0 ≤ doctor_turns_elapsed s
    ∧ conversation_history s = h ++ [("assistant", closing)]
    ∧ h.*1 = exchanges "assistant" "user" (S (Z.to_nat (doctor_turns_elapsed s)))
    ∧ head h = Some ("assistant", greeting)
    ∧ map pm_turn (patient_manager_decisions s)
      = 1 :: seqZ 1 (doctor_turns_elapsed s)
    ∧ (∃ r, last (patient_manager_decisions s) = Some r
            ∧ disclosure_state s = disclosure_stage (pm_guidance r))
    ∧ ((closing = final_msg
        ∧ ¬ doctor_turns_elapsed s < max_doctor_turns s
        ∧ map dm_turn (doctor_manager_decisions s)
          = seqZ 1 (doctor_turns_elapsed s))
       ∨ (closing = closing_msg
          ∧ dsm_pool s = []
          ∧ map dm_turn (doctor_manager_decisions s)
            = seqZ 1 (doctor_turns_elapsed s + 1)
          ∧ ∃ d, last (doctor_manager_decisions s) = Some d
                 ∧ dm_manager_type d = "post_dsm"
                 ∧ dm_next_action d = JStr "END")).
Proof.
  intros Hrun.
  apply run_session_result in Hrun
    as (s0 & s1 & Hstart & Hr & (H0 & Hroles & Hpm & Hdm & Hlast) & Hend).
  apply session_start_trail in Hstart as (_ & Hhead & _).
  destruct (loop_reaches_history _ _ _ _ _ _ Hr) as [more Hmore].
  assert (head (conversation_history s1) = Some ("assistant", greeting)) as Hh1.
  { rewrite Hmore. destruct (conversation_history s0); [done|]. done. }
  destruct Hend as [[Hexit ->]|[Hlt Hb]].
  - exists final_msg, (conversation_history s1). simpl.
    split; [done|]. split; [done|]. split; [done|]. split; [done|].
    split; [done|]. split; [done|]. left. by repeat split.
  - pose proof Hb as Hb2.
    apply loop_body_break in Hb as (Hm & He & _ & _ & _ & (Hmax & _)).
    apply loop_body_appends in Hb2
      as (d & Hd & Hturn & Htype & Hh & Hpm' & Hdisc & Hact & Hpool).
    simpl in Hd.
    exists closing_msg, (conversation_history s1). rewrite He, Hpm', Hdisc.
    split; [done|]. split; [done|]. split; [done|]. split; [done|].
    split; [done|]. split; [done|]. right.
    split; [done|]. split; [done|]. split.
    + rewrite Hd, map_app, Hdm. simpl map. by rewrite Hturn, seqZ_snoc.
    + exists d. rewrite Hd, last_snoc, Htype, Hm. by repeat split.
Qed.

(** In the transcript of a completed session the doctor and the patient
    alternate: the greeting exchange, one exchange for every turn counted,
    and a closing line of the doctor, which is the closing message of the
    END action or the final message after the last turn. *)
Theorem transcript_alternates
  (json_loads : string → option json) (py_str : json → string)
  (voice_style : gmap string string) (env : Env)
  (greeting pacing persona : string) (s : SessionState) :
  run_session json_loads py_str voice_style env greeting pacing persona
  = Some (Ok s) →
  let n := S (Z.to_nat (doctor_turns_elapsed s)) in
  let conversation := readable_conversation (conversation_history s) in
  (conversation_history s).*1 = exchanges "assistant" "user" n ++ ["assistant"]
  ∧ conversation.*1 = exchanges "doctor" "patient" n ++ ["doctor"]
  ∧ conversation.*2 = (conversation_history s).*2
  ∧ head conversation = Some ("doctor", greeting)
  ∧ (last conversation = Some ("doctor", closing_msg)
     ∨ last conversation = Some ("doctor", final_msg)).
Proof.
  intros Hrun n conversation.
  apply run_session_trail in Hrun
    as (closing & h & _ & Hh & Hroles & Hhead & _ & _ & Hend).
  destruct (readable_conversation_speakers (conversation_history s)) as [Hs1 Hs2].
  assert ((conversation_history s).*1
          = exchanges "assistant" "user" n ++ ["assistant"]) as Hr.
  { by rewrite Hh, fmap_app, Hroles. }
  split; [done|]. split.
  { unfold conversation. by rewrite Hs1, Hr, map_app, exchanges_speakers. }
  split; [done|]. split.
  { unfold conversation, readable_conversation. rewrite Hh.
    destruct h as [|[role text] h]; [done|]. by injection Hhead as -> ->. }
  assert (last conversation = Some ("doctor", closing)) as Hlast.
  { unfold conversation, readable_conversation.
    rewrite Hh, map_app. simpl map. by rewrite last_snoc. }
  rewrite Hlast. destruct Hend as [[-> _]|[-> _]]; [by right|by left].
Qed.

Lemma transcript_alternates_witness :
  ∃ s, run_session no_json plain_str ∅ garbled_env "Hello." "med" "warm_validating"
       = Some (Ok s)
       ∧ (readable_conversation (conversation_history s)).*1
         = exchanges "doctor" "patient" (S (Z.to_nat (doctor_turns_elapsed s)))
           ++ ["doctor"].
Proof.
  assert (∃ s, run_session no_json plain_str ∅ garbled_env "Hello." "med"
                 "warm_validating" = Some (Ok s)) as [s Hs]
    by (eexists; vm_compute; reflexivity).
  exists s. split; [exact Hs|].
  exact (proj1 (proj2 (transcript_alternates _ _ _ _ _ _ _ s Hs))).
Defined.

(** The two logs of a completed session number their records by doctor
    turn: the guidance records 1, 1, 2, ..., n (the greeting exchange and
    the first turn share the number 1), the decision records 1, 2, ..., n,
    and one more, a post-DSM decision END, when that action ended the
    session; the transcript has 2n + 3 lines. *)
Theorem audit_trail_turn_numbers
  (json_loads : string → option json) (py_str : json → string)
  (voice_style : gmap string string) (env : Env)
  (greeting pacing persona : string) (s : SessionState) :
  run_session json_loads py_str voice_style env greeting pacing persona
  = Some (Ok s) →
  0 ≤ doctor_turns_elapsed s
  ∧ map pm_turn (patient_manager_decisions s)
    = 1 :: seqZ 1 (doctor_turns_elapsed s)
  ∧ Z.of_nat (length (conversation_history s)) = 2 * doctor_turns_elapsed s + 3
  ∧ ((¬ doctor_turns_elapsed s < max_doctor_turns s
      ∧ map dm_turn (doctor_manager_decisions s)
        = seqZ 1 (doctor_turns_elapsed s))
     ∨ (dsm_pool s = []
        ∧ map dm_turn (doctor_manager_decisions s)
          = seqZ 1 (doctor_turns_elapsed s + 1)
        ∧ ∃ d, last (doctor_manager_decisions s) = Some d
               ∧ dm_manager_type d = "post_dsm"
               ∧ dm_next_action d = JStr "END")).
Proof.
  intros Hrun.
  apply run_session_trail in Hrun
    as (closing & h & H0 & Hh & Hroles & _ & Hpm & _ & Hend).
  split; [done|]. split; [done|]. split.
  { rewrite Hh, length_app, <- (length_fmap fst h), Hroles, exchanges_length.
    simpl length. lia. }
  destruct Hend as [(_ & ? & ?)|(_ & ? & ? & ?)]; [by left|by right].
Qed.

Lemma audit_trail_turn_numbers_witness :
  ∃ s, run_session no_json plain_str ∅ garbled_env "Hello." "med" "warm_validating"
       = Some (Ok s)
       ∧ map pm_turn (patient_manager_decisions s)
         = 1 :: seqZ 1 (doctor_turns_elapsed s).
Proof.
  assert (∃ s, run_session no_json plain_str ∅ garbled_env "Hello." "med"
                 "warm_validating" = Some (Ok s)) as [s Hs]
    by (eexists; vm_compute; reflexivity).
  exists s. split; [exact Hs|].
  exact (proj1 (proj2 (audit_trail_turn_numbers _ _ _ _ _ _ _ s Hs))).
Defined.

(** The disclosure state with which a completed session ends is the
    [disclosure_stage] of the guidance that was logged last. *)
Theorem final_disclosure_state_is_last_guidance
  (json_loads : string → option json) (py_str : json → string)
  (voice_style : gmap string string) (env : Env)
  (greeting pacing persona : string) (s : SessionState) :
  run_session json_loads py_str voice_style env greeting pacing persona
  = Some (Ok s) →
  ∃ r, last (patient_manager_decisions s) = Some r
       ∧ disclosure_state s = disclosure_stage (pm_guidance r).
Proof.
  intros Hrun.
  by apply run_session_trail in Hrun as (_ & _ & _ & _ & _ & _ & _ & ? & _).
Qed.

Lemma final_disclosure_state_is_last_guidance_witness :
  ∃ s r, run_session no_json plain_str ∅ garbled_env "Hello." "med"
           "warm_validating" = Some (Ok s)
         ∧ last (patient_manager_decisions s) = Some r
         ∧ disclosure_state s = disclosure_stage (pm_guidance r).
Proof.
  assert (∃ s, run_session no_json plain_str ∅ garbled_env "Hello." "med"
                 "warm_validating" = Some (Ok s)) as [s Hs]
    by (eexists; vm_compute; reflexivity).
  destruct (final_disclosure_state_is_last_guidance _ _ _ _ _ _ _ s Hs)
    as (r & Hr & Hd).
  exists s, r. split; [exact Hs|]. split; [exact Hr|exact Hd].
Defined.

(** ** The turn budget *)

(** Whatever the pacing and the persona are, known or not, the planner
    allots between 14 and 27 turns to the DSM items and six more in all:
    at least 11 turns beyond the nine items. *)
Theorem planner_budget_range (microstyle_pacing doctor_persona_id : string) :
  (3 # 2 <= Planner.target_turns_per_symptom microstyle_pacing doctor_persona_id
   <= 3 # 1)%Q
  ∧ 14 ≤ Planner.dsm_turn_budget microstyle_pacing doctor_persona_id ≤ 27
  ∧ Planner.max_doctor_turns microstyle_pacing doctor_persona_id
    = Planner.dsm_turn_budget microstyle_pacing doctor_persona_id + 6
  ∧ NUM_DSM_ITEMS + 11
    ≤ Planner.max_doctor_turns microstyle_pacing doctor_persona_id ≤ 33.
Proof.
  unfold Planner.max_doctor_turns, Planner.dsm_turn_budget,
    Planner.base_turn_budget, Planner.target_turns_per_symptom,
    Planner.base_target, PACING_TARGETS.
  simpl table_get.
  destruct (str_in _ _); repeat destruct (String.eqb _ _);
    vm_compute; repeat split; congruence.
Qed.

(** ** The items asked so far *)

Definition asked_invariant (s : SessionState) : Prop :=
  asked_question_order s ++ dsm_pool s ≡ₚ DSM_ITEMS
  ∧ Z.of_nat (length (asked_question_order s)) ≤ doctor_turns_elapsed s.

Lemma asked_invariant_step
  (json_loads : string → option json) (py_str : json → string)
  (voice_style : gmap string string) (env : Env) (s s' : SessionState) :
  asked_invariant s →
  loop_body json_loads py_str voice_style env s = Ok (Continue s') →
  asked_invariant s'.
Proof.
  intros [Hperm Hlen] Hb.
  apply loop_body_continue in Hb as (He & _ & _ & mv & _ & Hch).
  assert (asks_nothing s s' ∨ ∃ x, asks s s' x) as [[Hp Ha]|(x & Hasks)].
  { destruct (eq_str (mv_next_action mv) "DSM").
    - destruct Hch as [(_ & ? & _)|(x & ? & _)]; [by left|right; by exists x].
    - left. by destruct Hch. }
  - unfold asked_invariant. rewrite Hp, Ha, He. split; [done|lia].
  - destruct (asks_perm _ _ _ Hasks) as [Hp' _].
    destruct Hasks as (_ & _ & Ha & _).
    unfold asked_invariant. rewrite Hp', He, Ha, length_app. simpl length.
    split; [done|lia].
Qed.

(** At every evaluation of the [while] test of a session, the items asked
    and the items pending are together the nine DSM items: no item was
    asked twice, none was lost, and no more items were asked than turns
    were taken. *)
Theorem asked_items_invariant
  (json_loads : string → option json) (py_str : json → string)
  (voice_style : gmap string string) (env : Env) (s0 s : SessionState) :
  loop_entry s0 →
  loop_reaches json_loads py_str voice_style env s0 s →
  asked_question_order s ++ dsm_pool s ≡ₚ DSM_ITEMS
  ∧ NoDup (asked_question_order s)
  ∧ (∀ x, x ∈ asked_question_order s → x ∉ dsm_pool s)
  ∧ (length (asked_question_order s) + length (dsm_pool s) = 9)%nat
  ∧ Z.of_nat (length (asked_question_order s)) ≤ doctor_turns_elapsed s.
Proof.
  intros (Hp & Ha & He) Hr.
  assert (asked_invariant s) as [Hperm Hlen].
  { induction Hr as [|s s' Hr IH Hlt Hb].
    - unfold asked_invariant. rewrite Hp, Ha, He. by simpl.
    - by apply (asked_invariant_step json_loads py_str voice_style env s). }
  pose proof DSM_ITEMS_NoDup as Hnd. rewrite <- Hperm in Hnd.
  apply NoDup_app in Hnd as (Hnd & Hdisj & _).
  split; [done|]. split; [done|]. split; [done|]. split; [|done].
  by rewrite <- length_app, Hperm.
Qed.

Lemma asked_items_invariant_witness :
  loop_entry (entry_state (2 # 1) 24 18)
  ∧ ∃ s, loop_prefix no_json plain_str ∅ garbled_env 3 (entry_state (2 # 1) 24 18)
         = Some s
         ∧ NoDup (asked_question_order s)
         ∧ (length (asked_question_order s) + length (dsm_pool s) = 9)%nat.
Proof.
  assert (loop_entry (entry_state (2 # 1) 24 18)) as He by done.
  split; [exact He|].
  assert (∃ s, loop_prefix no_json plain_str ∅ garbled_env 3
                 (entry_state (2 # 1) 24 18) = Some s) as [s Hs]
    by (eexists; vm_compute; reflexivity).
  exists s. split; [exact Hs|].
  destruct (asked_items_invariant no_json plain_str ∅ garbled_env _ s He)
    as (_ & Hnd & _ & Hlen & _).
  { apply (loop_prefix_reaches _ _ _ _ 3 _ (entry_state (2 # 1) 24 18));
      [constructor|exact Hs]. }
  split; [exact Hnd|exact Hlen].
Defined.

(** ** A session in which no manager reply is JSON *)

(** No reply of the doctor manager or of the patient manager decodes. *)
Definition replies_malformed (json_loads : string → option json) (env : Env)
  : Prop :=
  ∀ turn : Z,
    json_loads (strip_code_fences (doctor_manager_reply env turn)) = None
    ∧ json_loads (strip_code_fences (patient_manager_reply env turn)) = None.

Section MalformedReplies.

Variable json_loads : string -> option json.
Variable py_str : json -> string.
Variable voice_style : gmap string string.
Variable env : Env.
Hypothesis Hbad : replies_malformed json_loads env.

Lemma replies_malformed_well_formed : replies_well_formed json_loads env.
Proof.
  intros turn. destruct (Hbad turn) as [Hd Hp].
  unfold doctor_manager_reply_ok, patient_manager_reply_ok. by rewrite Hd, Hp.
Qed.

(** With an item pending, the pass asks one item and leaves the
    disclosure state alone. *)
Lemma malformed_pass (s : SessionState) :
  dsm_pool s ≠ [] →
  ∃ s' x, loop_body json_loads py_str voice_style env s = Ok (Continue s')
          ∧ asks s s' x
          ∧ doctor_turns_elapsed s' = doctor_turns_elapsed s + 1
          ∧ disclosure_state s' = disclosure_state s
          ∧ same_budget s s'.
Proof.
  intros Hne.
  destruct (loop_body_ok json_loads py_str voice_style env s
              replies_malformed_well_formed) as [step Hstep].
  { intros Hnil. by destruct Hne. }
  destruct step as [s'|s'].
  2: { apply loop_body_break in Hstep as (Hm & _).
       apply select_mode_post in Hm. by destruct Hne. }
  exists s'. pose proof Hstep as Hb.
  apply loop_body_continue in Hb as (He & Hbud & (g & Hg & Hdisc) & mv & Hmv & Hch).
  destruct (Hbad (doctor_turns_elapsed s + 1)) as [Hd Hp].
  assert (mv_next_action mv = JStr "DSM") as Hact.
  { apply branch_move_key in Hmv. destruct (select_mode s) eqn:Hm.
    - apply select_mode_post in Hm. by destruct Hne.
    - by destruct Hmv.
    - destruct Hmv as (d & Hparse & -> & _).
      unfold parse_doctor_manager_output in Hparse. rewrite Hd in Hparse.
      destruct (dsm_pool s); [done|]. by injection Hparse as <-.
    - destruct Hmv as (d & Hparse & -> & _).
      unfold parse_doctor_manager_output in Hparse. rewrite Hd in Hparse.
      destruct (dsm_pool s); [done|]. by injection Hparse as <-. }
  rewrite Hact in Hch. simpl in Hch.
  destruct Hch as [(Hnil & _)|(x & Hasks & _)]; [by destruct Hne|].
  exists x. split; [done|]. split; [done|]. split; [done|]. split; [|done].
  unfold parse_patient_manager_output in Hg. rewrite Hp in Hg.
  injection Hg as <-. by rewrite Hdisc.
Qed.

(** With no item pending, the pass ends the session. *)
Lemma malformed_end (s : SessionState) :
  dsm_pool s = [] →
  ∃ s', loop_body json_loads py_str voice_style env s = Ok (Break s').
Proof.
  intros Hnil. apply select_mode_post in Hnil as Hm.
  destruct (Hbad (doctor_turns_elapsed s + 1)) as [Hd _].
  unfold loop_body, branch_move. rewrite Hm. unbind.
  unfold parse_post_dsm_manager_output. rewrite Hd. by eexists.
Qed.

Lemma malformed_loop (fuel : nat) (s : SessionState) :
  (length (dsm_pool s) < fuel)%nat →
  Z.of_nat (length (dsm_pool s)) < max_doctor_turns s - doctor_turns_elapsed s →
  ∃ s', dialogue_loop json_loads py_str voice_style env fuel s = Some (Ok s')
        ∧ doctor_turns_elapsed s'
          = doctor_turns_elapsed s + Z.of_nat (length (dsm_pool s))
        ∧ asked_question_order s' ≡ₚ asked_question_order s ++ dsm_pool s
        ∧ dsm_pool s' = []
        ∧ disclosure_state s' = disclosure_state s
        ∧ doctor_turns_elapsed s' < max_doctor_turns s'
        ∧ last (conversation_history s') = Some ("assistant", closing_msg).
Proof.
  revert s. induction fuel as [|fuel IH]; intros s Hfuel Hturns; [lia|].
  simpl. destruct (Z.ltb_spec (doctor_turns_elapsed s) (max_doctor_turns s)); [|lia].
  destruct (decide (dsm_pool s = [])) as [Hnil|Hne].
  - destruct (malformed_end s Hnil) as [s' Hb]. rewrite Hb. exists s'.
    split; [done|]. pose proof Hb as Hb2.
    apply loop_body_appends in Hb2 as (_ & _ & _ & _ & Hh & _).
    apply loop_body_break in Hb as (_ & He & [Hp Ha] & Hd & _ & (Hm & _)).
    rewrite He, Hp, Ha, Hd, Hm, Hnil, Hh, last_snoc. simpl. rewrite app_nil_r.
    repeat split; try done; lia.
  - destruct (malformed_pass s Hne) as (s1 & x & Hb & Hasks & He & Hd & (Hm & _)).
    rewrite Hb. destruct (asks_perm _ _ _ Hasks) as [Hperm Hlen].
    destruct (IH s1) as (s' & -> & He' & Ha' & Hp' & Hd' & Hlt' & Hlast);
      [lia|lia|].
    exists s'. split; [done|]. rewrite He', He, Ha', Hd', Hd, Hperm.
    repeat split; try done; lia.
Qed.

End MalformedReplies.

(** When none of the manager replies is JSON, the session still
    completes: the fallbacks ask the nine DSM items, one in each of the
    first nine turns, the tenth decision is the END fallback, the doctor
    says the closing message, and the disclosure state is the initial one
    at the end. *)
Theorem malformed_replies_session
  (json_loads : string → option json) (py_str : json → string)
  (voice_style : gmap string string) (env : Env)
  (greeting pacing persona : string) :
  replies_malformed json_loads env →
  ∃ s, run_session json_loads py_str voice_style env greeting pacing persona
       = Some (Ok s)
       ∧ doctor_turns_elapsed s = 9
       ∧ asked_question_order s ≡ₚ DSM_ITEMS
       ∧ dsm_pool s = []
       ∧ disclosure_state s = JStr (init_disclosure_state voice_style)
       ∧ last (conversation_history s) = Some ("assistant", closing_msg)
       ∧ length (conversation_history s) = 21%nat
       ∧ length (doctor_manager_decisions s) = 10%nat.
Proof.
  intros Hbad.
  destruct (Hbad 0) as [_ Hp0].
  assert (∃ s0, session_start json_loads voice_style env greeting pacing persona
                = Ok s0
                ∧ disclosure_state s0 = JStr (init_disclosure_state voice_style))
    as (s0 & Hstart & Hd0).
  { unfold session_start, parse_patient_manager_output. rewrite Hp0. unbind.
    by eexists. }
  pose proof Hstart as Hs0.
  apply session_start_trail in Hs0 as (_ & _ & He0 & Hp & Ha).
  assert (max_doctor_turns s0 = Planner.max_doctor_turns pacing persona) as Hmax.
  { revert Hstart. unfold session_start. unbind. intros H. split_result H.
    by injection H as <-. }
  pose proof (planned_budget_covers pacing persona) as Hbudget.
  unfold NUM_DSM_ITEMS, BUFFER_TURNS in Hbudget.
  destruct (malformed_loop json_loads py_str voice_style env Hbad
              (Z.to_nat (max_doctor_turns s0 - doctor_turns_elapsed s0)) s0)
    as (s1 & Hloop & He & Hasked & Hpool & Hd & Hlt & Hlast).
  { rewrite Hp, He0, Hmax. simpl. lia. }
  { rewrite Hp, He0, Hmax. simpl. lia. }
  assert (run_session json_loads py_str voice_style env greeting pacing persona
          = Some (Ok s1)) as Hrun.
  { unfold run_session, run_dialogue_loop. rewrite Hstart, Hloop.
    unfold close_session. by rewrite Hlast. }
  exists s1. split; [done|].
  assert (doctor_turns_elapsed s1 = 9) as H9.
  { rewrite He, Hp, He0. done. }
  assert (asked_question_order s1 ≡ₚ DSM_ITEMS) by (by rewrite Hasked, Hp, Ha).
  assert (disclosure_state s1 = JStr (init_disclosure_state voice_style))
    by (by rewrite Hd).
  assert (doctor_turns_elapsed s1 < max_doctor_turns s1) as Hlt9 by done.
  split; [done|]. split; [done|]. split; [done|]. split; [done|].
  apply run_session_trail in Hrun
    as (closing & h & _ & Hh & Hroles & _ & _ & _ & Hend).
  destruct Hend as [(_ & Hexit & _)|(-> & _ & Hdm & _)]; [lia|].
  rewrite Hh, last_snoc, length_app, <- (length_fmap fst h), Hroles,
    exchanges_length, H9.
  split; [done|]. split; [done|].
  rewrite <- (length_map dm_turn), Hdm, H9. done.
Qed.

Lemma malformed_replies_session_witness :
  replies_malformed no_json garbled_env
  ∧ ∃ s, run_session no_json plain_str ∅ garbled_env "Hello." "med"
           "warm_validating" = Some (Ok s)
         ∧ doctor_turns_elapsed s = 9
         ∧ asked_question_order s ≡ₚ DSM_ITEMS.
Proof.
  assert (replies_malformed no_json garbled_env) as Hbad by done.
  split; [exact Hbad|].
  destruct (malformed_replies_session no_json plain_str ∅ garbled_env "Hello."
              "med" "warm_validating" Hbad) as (s & Hs & H9 & Hasked & _).
  exists s. split; [exact Hs|]. split; [exact H9|exact Hasked].
Defined.

(** ** After the last item *)

(** Once the pool is empty it stays empty: whatever the post-DSM manager
    answers, even DSM, no item is asked again, and every later decision is
    logged as a post-DSM decision. *)
Theorem post_dsm_is_absorbing
  (json_loads : string → option json) (py_str : json → string)
  (voice_style : gmap string string) (env : Env) (s0 s : SessionState) :
  dsm_pool s0 = [] →
  loop_reaches json_loads py_str voice_style env s0 s →
  dsm_pool s = []
  ∧ asked_question_order s = asked_question_order s0
  ∧ ∃ later, doctor_manager_decisions s = doctor_manager_decisions s0 ++ later
             ∧ Forall (fun d => dm_manager_type d = "post_dsm") later.
Proof.
  intros Hnil. induction 1 as [|s s' Hr (Hp & Ha & later & Hd & Hall) Hlt Hb].
  - split; [done|]. split; [done|]. exists []. by rewrite app_nil_r.
  - pose proof Hb as Hb2.
    apply loop_body_logs in Hb2 as (d & Hd' & Htype & _). simpl in Hd'.
    apply loop_body_continue in Hb as (_ & _ & _ & mv & _ & Hch).
    assert (asks_nothing s s') as [Hp' Ha'].
    { destruct (eq_str (mv_next_action mv) "DSM").
      - destruct Hch as [(_ & ? & _)|(x & (Hx & _) & _)]; [done|].
        rewrite Hp in Hx. by apply elem_of_nil in Hx.
      - by destruct Hch. }
    rewrite Hp', Ha'. split; [done|]. split; [done|].
    exists (later ++ [d]). rewrite Hd', Hd, <- app_assoc. split; [done|].
    apply Forall_app. split; [done|]. apply Forall_singleton.
    apply select_mode_post in Hp. by rewrite Htype, Hp.
Qed.

Lemma post_dsm_is_absorbing_witness :
  dsm_pool covered_state = []
  ∧ ∃ s, loop_prefix follow_up_json plain_str ∅ follow_up_env 2 covered_state
         = Some s
         ∧ dsm_pool s = []
         ∧ asked_question_order s = DSM_ITEMS.
Proof.
  assert (dsm_pool covered_state = []) as Hnil by done.
  split; [exact Hnil|].
  assert (∃ s, loop_prefix follow_up_json plain_str ∅ follow_up_env 2
                 covered_state = Some s) as [s Hs]
    by (eexists; vm_compute; reflexivity).
  exists s. split; [exact Hs|].
  destruct (post_dsm_is_absorbing follow_up_json plain_str ∅ follow_up_env
              covered_state s Hnil) as (Hp & Ha & _).
  { apply (loop_prefix_reaches _ _ _ _ 2 _ covered_state); [constructor|exact Hs]. }
  split; [exact Hp|exact Ha].
Defined.

(** ** The length of a session *)

Lemma covered_reaches
  (json_loads : string → option json) (py_str : json → string)
  (voice_style : gmap string string) (env : Env) (s0 s : SessionState) :
  covered s0 →
  loop_reaches json_loads py_str voice_style env s0 s →
  covered s.
Proof.
  intros H0. induction 1 as [|s s' Hr IH Hlt Hb]; [done|].
  by apply (covered_step json_loads py_str voice_style env s).
Qed.

Lemma planned_budget_at_most (microstyle_pacing doctor_persona_id : string) :
  Planner.max_doctor_turns microstyle_pacing doctor_persona_id ≤ 33.
Proof.
  unfold Planner.max_doctor_turns, Planner.base_turn_budget,
    Planner.target_turns_per_symptom, Planner.base_target, PACING_TARGETS.
  simpl table_get.
  destruct (str_in _ _); repeat destruct (String.eqb _ _); by vm_compute.
Qed.

(** A completed session took at least nine doctor turns, one for each DSM
    item, and at most the turns that the planner allowed, 33 or fewer; its
    transcript has between 21 and 69 lines. *)
Theorem completed_session_length
  (json_loads : string → option json) (py_str : json → string)
  (voice_style : gmap string string) (env : Env)
  (greeting pacing persona : string) (s : SessionState) :
  run_session json_loads py_str voice_style env greeting pacing persona
  = Some (Ok s) →
  9 ≤ doctor_turns_elapsed s ≤ Planner.max_doctor_turns pacing persona
  ∧ Planner.max_doctor_turns pacing persona ≤ 33
  ∧ 21 ≤ Z.of_nat (length (conversation_history s)) ≤ 69
  ∧ dsm_pool s = []
  ∧ asked_question_order s ≡ₚ DSM_ITEMS.
Proof.
  intros Hrun. pose proof Hrun as Hrun2.
  apply run_session_result in Hrun as (s0 & s1 & Hstart & Hr & _ & Hend).
  pose proof Hstart as Hs0.
  apply session_start_trail in Hs0 as (_ & _ & He0 & Hp0 & Ha0).
  assert (max_doctor_turns s0 = Planner.max_doctor_turns pacing persona) as Hmax.
  { revert Hstart. unfold session_start. unbind. intros H. split_result H.
    by injection H as <-. }
  pose proof (planned_budget_covers pacing persona) as Hlow.
  pose proof (planned_budget_at_most pacing persona) as Hhigh.
  unfold NUM_DSM_ITEMS, BUFFER_TURNS in Hlow.
  assert (covered s1) as [Hperm Hleft].
  { apply (covered_reaches json_loads py_str voice_style env s0); [|done].
    apply loop_entry_covered; [done|]. unfold NUM_DSM_ITEMS. lia. }
  assert (asked_invariant s1) as [_ Hasked].
  { clear Hend Hperm Hleft. induction Hr as [|s2 s3 Hr IH Hlt Hb].
    - unfold asked_invariant. rewrite Hp0, Ha0, He0. by simpl.
    - by apply (asked_invariant_step json_loads py_str voice_style env s2). }
  apply loop_reaches_budget in Hr as ((Hm & _) & _ & Hle).
  assert (dsm_pool s1 = [] ∧ doctor_turns_elapsed s = doctor_turns_elapsed s1
          ∧ dsm_pool s = dsm_pool s1
          ∧ asked_question_order s = asked_question_order s1)
    as (Hnil & He & Hp & Ha).
  { destruct Hend as [[Hexit ->]|[Hlt Hb]].
    - split; [|done]. destruct (dsm_pool s1); [done|]. simpl in Hleft. lia.
    - apply loop_body_break in Hb as (Hmode & ? & [? ?] & _).
      split; [by apply select_mode_post|done]. }
  rewrite Hnil, app_nil_r in Hperm.
  assert (length (asked_question_order s1) = 9%nat) as Hnine
    by (by rewrite Hperm).
  apply run_session_trail in Hrun2 as (closing & h & _ & Hh & Hroles & _).
  assert (Z.of_nat (length (conversation_history s))
          = 2 * doctor_turns_elapsed s + 3) as Hlen.
  { rewrite Hh, length_app, <- (length_fmap fst h), Hroles, exchanges_length.
    simpl length. lia. }
  rewrite He, Hp, Ha, Hnil in *. repeat split; try done; lia.
Qed.

Lemma completed_session_length_witness :
  ∃ s, run_session no_json plain_str ∅ garbled_env "Hello." "med" "warm_validating"
       = Some (Ok s)
       ∧ 9 ≤ doctor_turns_elapsed s
           ≤ Planner.max_doctor_turns "med" "warm_validating".
Proof.
  assert (∃ s, run_session no_json plain_str ∅ garbled_env "Hello." "med"
                 "warm_validating" = Some (Ok s)) as [s Hs]
    by (eexists; vm_compute; reflexivity).
  exists s. split; [exact Hs|].
  exact (proj1 (completed_session_length _ _ _ _ _ _ _ s Hs)).
Defined.

(** * The sampled profile *)

(** ** Sampling without replacement *)

Lemma swap_out_perm {A} (l : list A) (j : nat) (x y : A) :
  l !! j = Some x → x :: <[j := y]> l ≡ₚ l ++ [y].
Proof.
  intros Hj. rewrite insert_take_drop by (by eapply lookup_lt_Some).
  rewrite <- (Permutation_cons_append l y).
  rewrite <- (take_drop_middle l j x Hj) at 3.
  rewrite <- !Permutation_middle. apply Permutation_swap.
Qed.

(** The items drawn and the items left in play are the items that were in
    play. *)
Lemma sample_loop_perm {A} (k m : nat) (pool : list A) (r : Random) :
  (k ≤ m)%nat → (m ≤ length pool)%nat →
  ∃ l r' left, sample_loop k m pool r = Ok (l, r') ∧ l ++ left ≡ₚ take m pool.
Proof.
  revert m pool r. induction k as [|k IH]; intros m pool r Hk Hm; simpl.
  - unrand. by exists [], r, (take m pool).
  - unrand. destruct (randbelow_spec m r) as (j & -> & Hj); [lia|].
    destruct (lookup_lt_is_Some_2 pool j) as [x Hx]; [lia|].
    destruct (lookup_lt_is_Some_2 pool (m - 1)) as [y Hy]; [lia|].
    rewrite Hx, Hy.
    destruct (IH (m - 1)%nat (<[j := y]> pool) (advance r))
      as (l & r' & left & -> & Hperm); [lia|rewrite length_insert; lia|].
    exists (x :: l), r', left. split; [done|]. simpl. rewrite Hperm.
    replace m with (S (m - 1)) at 2 by lia.
    rewrite (take_S_r pool (m - 1) y Hy).
    destruct (decide (j = m - 1)%nat) as [->|Hne].
    + rewrite take_insert_ge by lia. assert (x = y) as -> by congruence.
      apply Permutation_cons_append.
    + rewrite take_insert_lt by lia. apply swap_out_perm.
      rewrite lookup_take_lt by lia. done.
Qed.

(** [sample] on a population without duplicates: [k] distinct members. *)
Lemma sample_distinct {A} (population : list A) (k : nat) (r : Random) :
  (k ≤ length population)%nat →
  NoDup population →
  ∃ l r', sample population k r = Ok (l, r')
          ∧ length l = k
          ∧ NoDup l
          ∧ (∀ x, x ∈ l → x ∈ population).
Proof.
  intros Hk Hnd.
  destruct (sample_spec population k r Hk) as (l & r' & Hs & Hlen & Hin & _).
  exists l, r'. split; [done|]. split; [done|]. split; [|done].
  unfold sample in Hs. destruct (Nat.ltb_spec (length population) k); [lia|].
  destruct (sample_loop_perm k (length population) population r)
    as (l2 & r2 & left & Hs2 & Hperm); [lia|lia|].
  rewrite Hs in Hs2. injection Hs2 as <- <-.
  rewrite firstn_all in Hperm. rewrite <- Hperm in Hnd.
  by apply NoDup_app in Hnd as (? & _).
Qed.

(** ** Loops that fill a dictionary with draws *)

Lemma for_each_fill {A} (keys : list A) (key : A → string)
  (f : gmap string string → A → Rand (gmap string string))
  (P : A → string → Prop) (v0 : gmap string string) (r : Random) :
  (∀ a v r, a ∈ keys → ∃ x, f v a r = Ok (<[key a := x]> v, advance r) ∧ P a x) →
  ∃ v r',
    for_each keys f v0 r = Ok (v, r')
    ∧ (∀ k, k ∉ key <$> keys → v !! k = v0 !! k)
    ∧ (∀ k, k ∈ key <$> keys →
            ∃ a x, a ∈ keys ∧ key a = k ∧ v !! k = Some x ∧ P a x).
Proof.
  revert v0 r. induction keys as [|a keys IH]; intros v0 r Hdraw; simpl.
  - unrand. eexists _, _. split; [done|]. split; [done|].
    by intros k ?%elem_of_nil.
  - unrand.
    destruct (Hdraw a v0 r) as (x & -> & Hx); [apply elem_of_cons; by left|].
    destruct (IH (<[key a := x]> v0) (advance r)) as (v & r' & -> & Hout & Hin).
    { intros b v1 r0 Hb. apply Hdraw. apply elem_of_cons. by right. }
    eexists _, _. split; [done|]. split.
    + intros k Hk. apply not_elem_of_cons in Hk as [Hne Hk].
      rewrite (Hout k Hk). by rewrite lookup_insert_ne.
    + intros k Hk. destruct (decide (k ∈ key <$> keys)) as [Hr|Hr].
      * destruct (Hin k Hr) as (b & y & Hb & ? & ? & ?).
        exists b, y. split; [apply elem_of_cons; by right|done].
      * apply elem_of_cons in Hk as [->|Hk]; [|done].
        exists a, x. split; [apply elem_of_cons; by left|].
        split; [done|]. rewrite (Hout _ Hr). by rewrite lookup_insert_eq.
Qed.

(** ** The frequency profile under a standard density *)

(** The frequencies that lines 114-138 can give to a symptom. *)
Definition frequency_class (template : Template) (extra_high : list string)
  (symptom frequency : string) : Prop :=
  if str_in symptom (emphasized_symptoms template)
  then frequency ∈ ["RARE"; "SOME"; "OFTEN"]
  else if str_in symptom extra_high
       then frequency ∈ ["RARE"; "SOME"; "OFTEN"]
       else frequency ∈ ["NONE"; "RARE"; "SOME"].

Lemma standard_assign_one_spec (template : Template) (weights : list Q)
  (emph_intensity : gmap string string) (extra_high : list string)
  (p : gmap string string) (symptom : string) (r : Random) :
  length weights = 3%nat →
  Forall (fun w => (0 < w)%Q) weights →
  (symptom ∈ emphasized_symptoms template → is_Some (emph_intensity !! symptom)) →
  ∃ v, standard_assign_one template weights emph_intensity extra_high p symptom r
       = Ok (<[symptom := v]> p, advance r)
       ∧ frequency_class template extra_high symptom v.
Proof.
  intros Hlen Hpos Hcov. unfold standard_assign_one, frequency_class.
  destruct (str_in symptom (emphasized_symptoms template)) eqn:Hin.
  - apply str_in_spec in Hin. destruct (Hcov Hin) as [level ->]. unrand.
    destruct (emphasized_frequency_spec level r) as (v & -> & Hv). by exists v.
  - destruct (str_in symptom extra_high); unrand.
    + destruct (choices_spec ["RARE"; "SOME"; "OFTEN"] [2 # 1; 5 # 1; 3 # 1]%Q r)
        as (v & -> & Hv); [done|done|by repeat constructor|]. by exists v.
    + destruct (choices_spec ["NONE"; "RARE"; "SOME"] weights r)
        as (v & -> & Hv); [done|done|done|]. by exists v.
Qed.

Lemma standard_assign_spec (template : Template) (episode_density : string)
  (emph_intensity : gmap string string) (extra_high : list string) (r : Random) :
  (∀ s, s ∈ emphasized_symptoms template → is_Some (emph_intensity !! s)) →
  ∃ p r',
    standard_assign template episode_density emph_intensity extra_high r
    = Ok (p, r')
    ∧ (∀ s, s ∉ DSM5_DEPRESSION_SYMPTOMS → p !! s = None)
    ∧ (∀ s, s ∈ DSM5_DEPRESSION_SYMPTOMS →
            ∃ v, p !! s = Some v ∧ frequency_class template extra_high s v).
Proof.
  intros Hcov. unfold standard_assign.
  set (weights := if String.eqb episode_density "LOW" then _ else _).
  assert (length weights = 3%nat ∧ Forall (fun w => (0 < w)%Q) weights)
    as [Hlen Hpos].
  { unfold weights. destruct (String.eqb episode_density "LOW");
      [|destruct (String.eqb episode_density "HIGH")];
      (split; [done|by repeat constructor]). }
  destruct (for_each_fill DSM5_DEPRESSION_SYMPTOMS id
              (standard_assign_one template weights emph_intensity extra_high)
              (frequency_class template extra_high) ∅ r)
    as (p & r' & -> & Hout & Hin).
  { intros s v r0 _. apply standard_assign_one_spec; [done|done|apply Hcov]. }
  exists p, r'. split; [done|]. rewrite list_fmap_id in Hout, Hin. split.
  - intros s Hs. by rewrite (Hout s Hs).
  - intros s Hs. destruct (Hin s Hs) as (a & v & _ & <- & ? & ?). by exists v.
Qed.

Lemma frequency_class_known (template : Template) (extra_high : list string)
  (s v : string) :
  frequency_class template extra_high s v →
  v ∈ ["NONE"; "RARE"; "SOME"; "OFTEN"].
Proof.
  unfold frequency_class.
  destruct (str_in s _); [|destruct (str_in s _)]; intros Hv;
    repeat (apply elem_of_cons in Hv as [->|Hv]);
    try (by apply elem_of_nil in Hv);
    apply (bool_decide_unpack _); by vm_compute.
Qed.

(** Under a standard density every one of the nine DSM symptoms gets a
    frequency, and no other key does; an emphasized symptom is never NONE,
    nor is one of the extra-elevated symptoms, and a symptom that is
    neither is never OFTEN. *)
Theorem standard_density_profile
  (order : SetOrder) (template : Template) (episode_density : string)
  (emph_intensity : gmap string string) (extra_high : list string)
  (rng : Random) :
  episode_density ≠ "ULTRA_LOW" →
  (∀ s, s ∈ emphasized_symptoms template → is_Some (emph_intensity !! s)) →
  ∃ p rng',
    generate_depression_profile order template episode_density emph_intensity
      extra_high rng = Ok (p, rng')
    ∧ (∀ s, is_Some (p !! s) ↔ s ∈ DSM5_DEPRESSION_SYMPTOMS)
    ∧ (∀ s v, p !! s = Some v → v ∈ ["NONE"; "RARE"; "SOME"; "OFTEN"])
    ∧ (∀ s v, p !! s = Some v →
              s ∈ emphasized_symptoms template ∨ s ∈ extra_high →
              v ∈ ["RARE"; "SOME"; "OFTEN"])
    ∧ (∀ s v, p !! s = Some v →
              s ∉ emphasized_symptoms template → s ∉ extra_high →
              v ∈ ["NONE"; "RARE"; "SOME"]).
Proof.
  intros Hd Hcov. unfold generate_depression_profile.
  apply String.eqb_neq in Hd. rewrite Hd.
  destruct (standard_assign_spec template episode_density emph_intensity
              extra_high rng Hcov) as (p & rng' & -> & Hout & Hin).
  exists p, rng'. split; [done|].
  assert (∀ s v, p !! s = Some v →
                 s ∈ DSM5_DEPRESSION_SYMPTOMS
                 ∧ frequency_class template extra_high s v) as Hclass.
  { intros s v Hs. destruct (decide (s ∈ DSM5_DEPRESSION_SYMPTOMS)) as [Hm|Hm].
    - destruct (Hin s Hm) as (v' & Hv' & ?). split; [done|]. congruence.
    - rewrite (Hout s Hm) in Hs. done. }
  split.
  { intros s. split.
    - intros [v Hv]. by apply (Hclass s v).
    - intros Hs. destruct (Hin s Hs) as (v & -> & _). by eexists. }
  split.
  { intros s v Hs. apply Hclass in Hs as [_ Hs].
    by apply (frequency_class_known template extra_high s). }
  split.
  - intros s v Hs Hmem. apply Hclass in Hs as [_ Hs]. unfold frequency_class in Hs.
    destruct (str_in s (emphasized_symptoms template)) eqn:He; [done|].
    destruct (str_in s extra_high) eqn:Hx; [done|].
    apply str_in_false in He, Hx. by destruct Hmem.
  - intros s v Hs Hne Hnx. apply Hclass in Hs as [_ Hs]. unfold frequency_class in Hs.
    apply str_in_false in Hne, Hnx. by rewrite Hne, Hnx in Hs.
Qed.

Lemma standard_density_profile_witness :
  "MED" ≠ "ULTRA_LOW"
  ∧ (∀ s, s ∈ emphasized_symptoms neuroticism_high →
          is_Some (medium_intensity !! s))
  ∧ ∃ p rng',
      generate_depression_profile first_occurrence_order neuroticism_high "MED"
        medium_intensity [] stepping_tape = Ok (p, rng')
      ∧ ∀ s, is_Some (p !! s) ↔ s ∈ DSM5_DEPRESSION_SYMPTOMS.
Proof.
  assert ("MED" ≠ "ULTRA_LOW") as Hd by done.
  assert (∀ s, s ∈ emphasized_symptoms neuroticism_high →
               is_Some (medium_intensity !! s)) as Hcov.
  { intros s Hs. simpl in Hs.
    repeat (apply elem_of_cons in Hs as [->|Hs]); [by eexists..|].
    by apply elem_of_nil in Hs. }
  split; [exact Hd|]. split; [exact Hcov|].
  destruct (standard_density_profile first_occurrence_order neuroticism_high
              "MED" medium_intensity [] stepping_tape Hd Hcov)
    as (p & rng' & Hrun & Hdom & _).
  exists p, rng'. split; [exact Hrun|exact Hdom].
Defined.

(** ** The sampler without overrides *)

Lemma templates_well_formed :
  Forall (fun kv : string * Template =>
            (2 ≤ length (modifiers kv.2))%nat
            ∧ NoDup (modifiers kv.2)
            ∧ (1 ≤ length (non_emphasized_of (emphasized_symptoms kv.2)))%nat)
    BIG5_DEP_TEMPLATES.
Proof. apply (bool_decide_unpack _). by vm_compute. Qed.

Lemma lookup_template_spec (template_id : string) (r : Random) :
  template_id ∈ BIG5_DEP_TEMPLATES.*1 →
  ∃ t, lookup_template template_id r = Ok (t, r)
       ∧ (template_id, t) ∈ BIG5_DEP_TEMPLATES.
Proof.
  intros Hin. apply list_elem_of_fmap in Hin as ([k t] & Hk & Hin).
  simpl in Hk. subst template_id. unfold lookup_template.
  destruct (list_find (fun kv : string * Template => kv.1 = k) BIG5_DEP_TEMPLATES)
    as [[i [k' t']]|] eqn:Hfind.
  - apply list_find_Some in Hfind as (Hi & Hk & _). simpl in Hk. subst k'.
    exists t'. split; [done|]. by eapply list_elem_of_lookup_2.
  - apply list_find_None in Hfind. rewrite Forall_forall in Hfind.
    by destruct (Hfind _ Hin).
Qed.

Lemma non_emphasized_of_NoDup (emphasized : list string) :
  NoDup (non_emphasized_of emphasized).
Proof.
  unfold non_emphasized_of. apply NoDup_filter.
  apply (bool_decide_unpack _). by vm_compute.
Qed.

Lemma age_weights_good (work_role : string) :
  let w := table_get work_role AGE_WEIGHTS_BY_ROLE AGE_DEFAULT_WEIGHTS in
  length w = length AGE_RANGES ∧ Forall (fun x => (0 < x)%Q) w.
Proof.
  unfold AGE_WEIGHTS_BY_ROLE. simpl table_get.
  repeat destruct (String.eqb work_role _); (split; [done|by repeat constructor]).
Qed.

(** A voice style as the sampler draws it: the four dimensions of
    [VOICE_STYLE_OPTIONS] and the humor level, each with one of its
    options, and nothing else. *)
Definition voice_style_sampled (v : gmap string string) : Prop :=
  (∀ dim options, (dim, options) ∈ VOICE_STYLE_OPTIONS →
                  ∃ x, v !! dim = Some x ∧ x ∈ options)
  ∧ (∃ h, v !! "humor" = Some h ∧ h ∈ PATIENT_HUMOR_LEVELS)
  ∧ (∀ dim, is_Some (v !! dim) →
            dim ∈ ["verbosity"; "expressiveness"; "trust"; "intellect"; "humor"]).

Lemma sample_voice_style_default (r : Random) :
  ∃ v r', sample_voice_style no_overrides r = Ok (v, r') ∧ voice_style_sampled v.
Proof.
  unfold sample_voice_style, no_overrides. cbn [forced_voice_style
    forced_voice_style_partial]. unrand.
  destruct (for_each_fill VOICE_STYLE_OPTIONS fst
              (fun (v : gmap string string) (dim_options : string * list string) =>
                 value ← choice dim_options.2;
                 mret (<[dim_options.1 := value]> v))
              (fun d x => x ∈ d.2) ∅ r) as (v & r1 & Hrun & Hout & Hin).
  { intros d v0 r0 Hd. unrand.
    destruct (choice_spec d.2 r0) as (x & -> & Hx).
    - repeat (apply elem_of_cons in Hd as [->|Hd]); try done.
      by apply elem_of_nil in Hd.
    - by exists x. }
  unrand. rewrite Hrun.
  destruct (choices_spec PATIENT_HUMOR_LEVELS [6 # 1; 3 # 1; 1 # 1]%Q r1)
    as (h & -> & Hh); [done|done|by repeat constructor|].
  eexists _, _. split; [done|]. split; [|split].
  - intros dim options Hd.
    destruct (Hin dim) as ([dim' options'] & x & Hd' & Hk & Hv & Hx).
    { apply list_elem_of_fmap. by exists (dim, options). }
    simpl in Hk. subst dim'. exists x.
    assert (options' = options) as ->.
    { repeat (apply elem_of_cons in Hd as [[= -> ->]|Hd]);
        repeat (apply elem_of_cons in Hd' as [[= <-]|Hd']);
        try done; try (by apply elem_of_nil in Hd');
        by apply elem_of_nil in Hd. }
    split; [|done]. rewrite lookup_insert_ne; [done|].
    intros <-. repeat (apply elem_of_cons in Hd as [[=]|Hd]).
    by apply elem_of_nil in Hd.
  - exists h. by rewrite lookup_insert_eq.
  - intros dim [x Hx]. destruct (decide (dim = "humor")) as [->|Hne].
    + apply (bool_decide_unpack _). by vm_compute.
    + rewrite lookup_insert_ne in Hx by done.
      destruct (decide (dim ∈ VOICE_STYLE_OPTIONS.*1)) as [Hm|Hm].
      * simpl in Hm. repeat (apply elem_of_cons in Hm as [->|Hm]);
          try (apply (bool_decide_unpack _); by vm_compute).
        by apply elem_of_nil in Hm.
      * rewrite (Hout dim Hm) in Hx. done.
Qed.

Lemma fold_delete_lookup (dropped : list string) (m : gmap string string)
  (k : string) :
  fold_left (fun (b : gmap string string) key => delete key b) dropped m !! k
  = if decide (k ∈ dropped) then None else m !! k.
Proof.
  revert m. induction dropped as [|d dropped IH]; intros m; simpl fold_left.
  - destruct (decide (k ∈ [])) as [H|H]; [by apply elem_of_nil in H|done].
  - rewrite IH.
    destruct (decide (k ∈ dropped)) as [Hl|Hl];
      destruct (decide (k ∈ d :: dropped)) as [Hx|Hx]; try done.
    + exfalso. apply Hx, elem_of_cons. by right.
    + apply elem_of_cons in Hx as [->|?]; [|done]. by rewrite lookup_delete_eq.
    + rewrite lookup_delete_ne; [done|]. intros ->. apply Hx, elem_of_cons. by left.
Qed.

Lemma fold_delete_size (dropped : list string) (m : gmap string string) :
  NoDup dropped →
  (∀ d, d ∈ dropped → is_Some (m !! d)) →
  size (fold_left (fun (b : gmap string string) key => delete key b) dropped m)
  = (size m - length dropped)%nat.
Proof.
  revert m. induction dropped as [|d dropped IH]; intros m Hnd Hin; simpl.
  - lia.
  - apply NoDup_cons in Hnd as [Hd Hnd]. rewrite IH; [|done|].
    + rewrite map_size_delete_Some by (apply Hin, elem_of_cons; by left). lia.
    + intros d' Hd'. rewrite lookup_delete_ne by (intros ->; done).
      apply Hin, elem_of_cons. by right.
Qed.

(** A personal background as the sampler draws it: two or three of the
    four facts, each from its pool; the work role that conditions the age is
    drawn from its pool whether or not it is kept. *)
Definition background_sampled (b : gmap string string) (work_role : string)
  : Prop :=
  work_role ∈ WORK_ROLE_POOL
  ∧ (size b = 2%nat ∨ size b = 3%nat)
  ∧ (∀ k x, b !! k = Some x →
            (k = "living_situation" ∧ x ∈ LIVING_SITUATION_POOL)
            ∨ (k = "work_role" ∧ x = work_role)
            ∨ (k = "routine_stability" ∧ x ∈ ROUTINE_STABILITY_POOL)
            ∨ (k = "support_level" ∧ x ∈ SUPPORT_LEVEL_POOL)).

Lemma sample_personal_background_default (r : Random) :
  ∃ b work_role r',
    sample_personal_background no_overrides r = Ok ((b, work_role), r')
    ∧ background_sampled b work_role.
Proof.
  unfold sample_personal_background, no_overrides.
  cbn [forced_personal_background]. unrand.
  destruct (choice_spec WORK_ROLE_POOL r) as (work & -> & Hwork); [done|].
  destruct (choice_spec LIVING_SITUATION_POOL (advance r))
    as (living & -> & Hliving); [done|].
  destruct (choice_spec ROUTINE_STABILITY_POOL (advance (advance r)))
    as (routine & -> & Hroutine); [done|].
  destruct (choice_spec SUPPORT_LEVEL_POOL (advance (advance (advance r))))
    as (support & -> & Hsupport); [done|].
  destruct (randint_spec 1 2 (advance (advance (advance (advance r)))))
    as (k & -> & Hk); [lia|].
  set (keys := ["living_situation"; "work_role"; "routine_stability";
                "support_level"]).
  destruct (sample_distinct keys (Z.to_nat k)
              (advance (advance (advance (advance (advance r))))))
    as (dropped & r' & -> & Hlen & Hnd & Hsub).
  { unfold keys. simpl. lia. }
  { apply (bool_decide_unpack _). by vm_compute. }
  set (b := <["support_level" := support]>
              (<["routine_stability" := routine]>
                 (<["work_role" := work]>
                    (<["living_situation" := living]> ∅)))).
  assert (∀ key, key ∈ keys → is_Some (b !! key)) as Hkeys.
  { intros key Hkey. unfold keys in Hkey.
    repeat (apply elem_of_cons in Hkey as [->|Hkey]);
      [by eexists..|by apply elem_of_nil in Hkey]. }
  assert (size b = 4%nat) as Hsize.
  { unfold b. rewrite !map_size_insert_None; [done|done..]. }
  eexists _, _, _. split; [done|]. split; [done|]. split.
  - rewrite fold_delete_size; [|done|by intros d ?%Hsub%Hkeys].
    rewrite Hsize, Hlen. lia.
  - intros key x. rewrite fold_delete_lookup.
    destruct (decide (key ∈ dropped)); [done|]. unfold b.
    destruct (decide (key = "support_level")) as [->|?];
      [rewrite lookup_insert_eq; intros [= <-]; auto 10|
       rewrite lookup_insert_ne by done].
    destruct (decide (key = "routine_stability")) as [->|?];
      [rewrite lookup_insert_eq; intros [= <-]; auto 10|
       rewrite lookup_insert_ne by done].
    destruct (decide (key = "work_role")) as [->|?];
      [rewrite lookup_insert_eq; intros [= <-]; auto 10|
       rewrite lookup_insert_ne by done].
    destruct (decide (key = "living_situation")) as [->|?];
      [rewrite lookup_insert_eq; intros [= <-]; auto 10|
       rewrite lookup_insert_ne by done].
    done.
Qed.

Lemma sample_emph_intensity_default (order : SetOrder) (template : Template)
  (r : Random) :
  ∃ e r',
    sample_emph_intensity order no_overrides template r = Ok (e, r')
    ∧ (∀ s, s ∈ emphasized_symptoms template →
            ∃ level, e !! s = Some level ∧ level ∈ INTENSITY_LEVELS)
    ∧ (∀ s, is_Some (e !! s) → s ∈ emphasized_symptoms template).
Proof.
  unfold sample_emph_intensity, no_overrides. cbn [forced_emph_intensity].
  destruct (for_each_fill (set_list order (emphasized_symptoms template)) id
              (fun (e : gmap string string) (sym : string) =>
                 level ← choices INTENSITY_LEVELS [3 # 1; 5 # 1; 2 # 1]%Q;
                 mret (<[sym := level]> e))
              (fun _ level => level ∈ INTENSITY_LEVELS) ∅ r)
    as (e & r' & -> & Hout & Hin).
  { intros sym e r0 _. unrand.
    destruct (choices_spec INTENSITY_LEVELS [3 # 1; 5 # 1; 2 # 1]%Q r0)
      as (level & -> & Hl); [done|done|by repeat constructor|]. by exists level. }
  exists e, r'. split; [done|]. rewrite list_fmap_id in Hout, Hin. split.
  - intros s Hs. apply (set_list_elem order) in Hs.
    destruct (Hin s Hs) as (a & level & _ & _ & ? & ?). by exists level.
  - intros s [x Hx]. apply (set_list_elem order).
    destruct (decide (s ∈ set_list order (emphasized_symptoms template)));
      [done|]. by rewrite (Hout s) in Hx.
Qed.

(** The frequency profile exists for every density once every emphasized
    symptom has an intensity. *)
Lemma generate_depression_profile_total (order : SetOrder) (template : Template)
  (episode_density : string) (emph_intensity : gmap string string)
  (extra_high : list string) (r : Random) :
  (∀ s, s ∈ emphasized_symptoms template → is_Some (emph_intensity !! s)) →
  ∃ p r',
    generate_depression_profile order template episode_density emph_intensity
      extra_high r = Ok (p, r')
    ∧ (∀ s, s ∈ DSM5_DEPRESSION_SYMPTOMS →
            ∃ v, p !! s = Some v ∧ v ∈ ["NONE"; "RARE"; "SOME"; "OFTEN"]).
Proof.
  intros Hcov. unfold generate_depression_profile.
  destruct (String.eqb episode_density "ULTRA_LOW").
  - unrand.
    destruct (ultra_low_selection_spec order template r)
      as (selected & r1 & -> & _ & _).
    destruct (ultra_low_assign_loop template emph_intensity selected all_none r1)
      as (p & r2 & Hassign & Hout & Hin).
    { intros s _. apply Hcov. }
    unfold ultra_low_assign. rewrite Hassign.
    exists p, r2. split; [done|]. intros s Hs.
    destruct (decide (s ∈ selected)) as [Hsel|Hsel].
    + destruct (Hin s Hsel) as (v & Hv & Hclass). exists v. split; [done|].
      apply elem_of_cons. by right.
    + exists "NONE". rewrite (Hout s Hsel), all_none_lookup.
      destruct (decide (s ∈ DSM5_DEPRESSION_SYMPTOMS)); [|done].
      split; [done|]. apply elem_of_cons. by left.
  - destruct (standard_assign_spec template episode_density emph_intensity
                extra_high r Hcov) as (p & r' & -> & _ & Hin).
    exists p, r'. split; [done|]. intros s Hs.
    destruct (Hin s Hs) as (v & Hv & Hclass). exists v. split; [done|].
    by apply (frequency_class_known template extra_high s).
Qed.

Lemma sample_template_id_default (r : Random) :
  ∃ tid, sample_template_id no_overrides r = Ok (tid, advance r)
         ∧ tid ∈ BIG5_DEP_TEMPLATES.*1.
Proof.
  unfold sample_template_id, no_overrides. cbn [forced_template_id].
  by apply choice_spec.
Qed.

Lemma sample_modifiers_default (template : Template) (r : Random) :
  (2 ≤ length (modifiers template))%nat →
  NoDup (modifiers template) →
  ∃ ms r', sample_modifiers no_overrides template r = Ok (ms, r')
           ∧ (length ms ≤ 2)%nat ∧ NoDup ms
           ∧ (∀ m, m ∈ ms → m ∈ modifiers template).
Proof.
  intros Hlen Hnd. unfold sample_modifiers, no_overrides.
  cbn [forced_modifiers]. unrand.
  destruct (randint_spec 0 2 r) as (k & -> & Hk); [lia|].
  destruct (sample_distinct (modifiers template) (Z.to_nat k) (advance r))
    as (ms & r' & -> & Hl & ? & ?); [lia|done|].
  exists ms, r'. split; [done|]. split; [lia|done].
Qed.

Lemma sample_context_domains_default (r : Random) :
  ∃ cs r', sample_context_domains no_overrides r = Ok (cs, r')
           ∧ (length cs ≤ 2)%nat ∧ NoDup cs
           ∧ (∀ c, c ∈ cs → c ∈ GENERIC_CONTEXT_DOMAINS).
Proof.
  unfold sample_context_domains, no_overrides, MAX_CONTEXT_DOMAINS.
  cbn [forced_context_domains]. unrand.
  destruct (randint_spec 0 2 r) as (k & -> & Hk); [lia|].
  destruct (sample_distinct GENERIC_CONTEXT_DOMAINS (Z.to_nat k) (advance r))
    as (cs & r' & -> & Hl & ? & ?).
  { simpl. lia. }
  { apply (bool_decide_unpack _). by vm_compute. }
  exists cs, r'. split; [done|]. split; [lia|done].
Qed.

Lemma sample_extra_elevated_default (template : Template) (r : Random) :
  (1 ≤ length (non_emphasized_of (emphasized_symptoms template)))%nat →
  ∃ xs r', sample_extra_elevated no_overrides template r = Ok (xs, r')
           ∧ (length xs ≤ 1)%nat
           ∧ (∀ s, s ∈ xs → s ∈ DSM5_DEPRESSION_SYMPTOMS
                            ∧ s ∉ emphasized_symptoms template).
Proof.
  intros Hlen. unfold sample_extra_elevated, no_overrides.
  cbn [forced_extra_elevated]. unrand.
  destruct (randint_spec 0 1 r) as (k & -> & Hk); [lia|].
  destruct (sample_distinct (non_emphasized_of (emphasized_symptoms template))
              (Z.to_nat k) (advance r)) as (xs & r' & -> & Hl & _ & Hsub);
    [lia|apply non_emphasized_of_NoDup|].
  exists xs, r'. split; [done|]. split; [lia|].
  intros s Hs. by apply non_emphasized_of_elem, Hsub.
Qed.

(** What the sampler draws when nothing is forced. *)
Definition profile_sampled (template_id : string) (template : Template)
  (pers : Personality) (depression_profile : gmap string string) : Prop :=
  (template_id, template) ∈ BIG5_DEP_TEMPLATES
  ∧ BIG5_TEMPLATE pers = template_id
  ∧ ((length (MODIFIERS pers) ≤ 2)%nat ∧ NoDup (MODIFIERS pers)
     ∧ ∀ m, m ∈ MODIFIERS pers → m ∈ modifiers template)
  ∧ (∃ pacing, PACING pers = Some pacing ∧ pacing ∈ PACING_LEVELS)
  ∧ ((length (CONTEXT_DOMAINS pers) ≤ 2)%nat ∧ NoDup (CONTEXT_DOMAINS pers)
     ∧ ∀ c, c ∈ CONTEXT_DOMAINS pers → c ∈ GENERIC_CONTEXT_DOMAINS)
  ∧ (∃ density, EPISODE_DENSITY pers = Some density
                ∧ density ∈ EPISODE_DENSITY_LEVELS)
  ∧ voice_style_sampled (VOICE_STYLE pers)
  ∧ (∃ work_role, background_sampled (PERSONAL_BACKGROUND pers) work_role)
  ∧ (∃ age, AGE_RANGE pers = Some age ∧ age ∈ AGE_RANGES)
  ∧ ((∀ s, s ∈ emphasized_symptoms template →
           ∃ level, EMPH_INTENSITY pers !! s = Some level
                    ∧ level ∈ INTENSITY_LEVELS)
     ∧ ∀ s, is_Some (EMPH_INTENSITY pers !! s) →
            s ∈ emphasized_symptoms template)
  ∧ ((length (EXTRA_ELEVATED_SYMPTOMS pers) ≤ 1)%nat
     ∧ ∀ s, s ∈ EXTRA_ELEVATED_SYMPTOMS pers →
            s ∈ DSM5_DEPRESSION_SYMPTOMS ∧ s ∉ emphasized_symptoms template)
  ∧ (∀ s, s ∈ DSM5_DEPRESSION_SYMPTOMS →
          ∃ v, depression_profile !! s = Some v
               ∧ v ∈ ["NONE"; "RARE"; "SOME"; "OFTEN"]).

Lemma sample_profile_fields_default (order : SetOrder) (rng : Random) :
  ∃ tid t pers dp rng',
    sample_profile_fields order no_overrides rng = Ok ((tid, t, pers, dp), rng')
    ∧ profile_sampled tid t pers dp.
Proof.
  unfold sample_profile_fields. unrand.
  destruct (sample_template_id_default rng) as (tid & -> & Htid). cbn beta iota.
  destruct (lookup_template_spec tid (advance rng) Htid) as (t & -> & Ht).
  cbn beta iota.
  pose proof templates_well_formed as Hwf. rewrite Forall_forall in Hwf.
  destruct (Hwf _ Ht) as (Hmods & Hnd & Hnon). simpl in Hmods, Hnd, Hnon.
  destruct (sample_modifiers_default t (advance rng) Hmods Hnd)
    as (ms & r1 & -> & Hms). cbn beta iota.
  assert (∃ pacing, sample_pacing no_overrides r1 = Ok (pacing, advance r1)
                    ∧ pacing ∈ PACING_LEVELS) as (pacing & -> & Hpacing).
  { unfold sample_pacing, no_overrides. cbn [forced_pacing]. by apply choice_spec. }
  cbn beta iota.
  destruct (sample_context_domains_default (advance r1)) as (cs & r2 & -> & Hcs).
  cbn beta iota.
  assert (∃ density, sample_episode_density no_overrides r2
                     = Ok (density, advance r2)
                     ∧ density ∈ EPISODE_DENSITY_LEVELS)
    as (density & -> & Hdensity).
  { unfold sample_episode_density, no_overrides. cbn [forced_episode_density].
    apply choices_spec; [done|done|by repeat constructor]. }
  cbn beta iota.
  destruct (sample_voice_style_default (advance r2)) as (vs & r3 & -> & Hvs).
  cbn beta iota.
  destruct (sample_personal_background_default r3)
    as (b & work_role & r4 & -> & Hb). cbn beta iota.
  assert (∃ age, sample_age_range no_overrides work_role r4 = Ok (age, advance r4)
                 ∧ age ∈ AGE_RANGES) as (age & -> & Hage).
  { unfold sample_age_range, no_overrides. cbn [forced_age_range].
    destruct (age_weights_good work_role) as [Hlen Hpos].
    by apply choices_spec. }
  cbn beta iota.
  destruct (sample_emph_intensity_default order t (advance r4))
    as (e & r5 & -> & He & He'). cbn beta iota.
  destruct (sample_extra_elevated_default t r5 Hnon) as (xs & r6 & -> & Hxs).
  cbn beta iota.
  destruct (generate_depression_profile_total order t density e xs r6)
    as (dp & r7 & -> & Hdp).
  { intros s Hs. destruct (He s Hs) as (level & -> & _). by eexists. }
  cbn beta iota. eexists _, _, _, _, _. split; [done|].
  unfold profile_sampled. simpl.
  split; [done|]. split; [done|]. split; [done|]. split; [by exists pacing|].
  split; [done|]. split; [by exists density|]. split; [done|].
  split; [by exists work_role|]. split; [by exists age|].
  split; [by split|]. split; [exact Hxs|exact Hdp].
Qed.

Lemma sample_patient_profile_default (order : SetOrder)
  (json_loads : string → option json) (writer_reply : option string)
  (rng : Random) :
  ∃ p rng',
    sample_patient_profile order json_loads writer_reply no_overrides rng
    = Ok (p, rng')
    ∧ profile_sampled (template_id p) (template p) (personality p)
        (depression_profile p)
    ∧ is_Some (background_writer_prompt_trace p).
Proof.
  unfold sample_patient_profile. unrand.
  destruct (sample_profile_fields_default order rng)
    as (tid & t & pers & dp & r1 & -> & Hfields).
  change (forced_skip_life_background no_overrides) with (@None bool).
  cbn beta iota. rewrite call_background_writer_outcome. unrand.
  destruct (required_facets_loop_spec r1 (CONTEXT_DOMAINS pers) dp
              (compute_symptom_severity dp)) as (st & r2 & _ & -> & _).
  eexists _, _. split; [done|]. simpl. split; [done|]. by eexists.
Qed.

(** With no override the sampler raises nothing, whatever the generator
    draws and whatever the background writer replies: the template is one
    of the registry, pacing, density and age range are values of their
    pools, every emphasized symptom has an intensity, and every one of the
    nine DSM symptoms has a frequency. *)
Theorem default_profile_never_raises (order : SetOrder)
  (json_loads : string → option json) (writer_reply : option string)
  (rng : Random) :
  ∃ p rng',
    sample_patient_profile order json_loads writer_reply no_overrides rng
    = Ok (p, rng')
    ∧ (template_id p, template p) ∈ BIG5_DEP_TEMPLATES
    ∧ BIG5_TEMPLATE (personality p) = template_id p
    ∧ (∃ pacing, PACING (personality p) = Some pacing
                 ∧ pacing ∈ PACING_LEVELS)
    ∧ (∃ density, EPISODE_DENSITY (personality p) = Some density
                  ∧ density ∈ EPISODE_DENSITY_LEVELS)
    ∧ (∃ age, AGE_RANGE (personality p) = Some age ∧ age ∈ AGE_RANGES)
    ∧ (∀ s, s ∈ emphasized_symptoms (template p) →
            ∃ level, EMPH_INTENSITY (personality p) !! s = Some level
                     ∧ level ∈ INTENSITY_LEVELS)
    ∧ (∀ s, s ∈ DSM5_DEPRESSION_SYMPTOMS →
            ∃ v, depression_profile p !! s = Some v
                 ∧ v ∈ ["NONE"; "RARE"; "SOME"; "OFTEN"])
    ∧ is_Some (background_writer_prompt_trace p).
Proof.
  destruct (sample_patient_profile_default order json_loads writer_reply rng)
    as (p & rng' & Hrun & Hp & Htrace).
  destruct Hp as (? & ? & _ & ? & _ & ? & _ & _ & ? & [? _] & _ & ?).
  exists p, rng'. by repeat split.
Qed.

(** The lists of a sampled profile: at most two modifiers, distinct and of
    the template; at most two context domains, distinct and of the generic
    pool; at most one extra-elevated symptom, a DSM symptom that the
    template does not emphasize. *)
Theorem sampled_lists_are_distinct (order : SetOrder)
  (json_loads : string → option json) (writer_reply : option string)
  (rng : Random) :
  ∃ p rng',
    sample_patient_profile order json_loads writer_reply no_overrides rng
    = Ok (p, rng')
    ∧ ((length (MODIFIERS (personality p)) ≤ 2)%nat
       ∧ NoDup (MODIFIERS (personality p))
       ∧ ∀ m, m ∈ MODIFIERS (personality p) → m ∈ modifiers (template p))
    ∧ ((length (CONTEXT_DOMAINS (personality p)) ≤ 2)%nat
       ∧ NoDup (CONTEXT_DOMAINS (personality p))
       ∧ ∀ c, c ∈ CONTEXT_DOMAINS (personality p) →
              c ∈ GENERIC_CONTEXT_DOMAINS)
    ∧ ((length (EXTRA_ELEVATED_SYMPTOMS (personality p)) ≤ 1)%nat
       ∧ ∀ s, s ∈ EXTRA_ELEVATED_SYMPTOMS (personality p) →
              s ∈ DSM5_DEPRESSION_SYMPTOMS
              ∧ s ∉ emphasized_symptoms (template p)).
Proof.
  destruct (sample_patient_profile_default order json_loads writer_reply rng)
    as (p & rng' & Hrun & Hp & _).
  destruct Hp as (_ & _ & ? & _ & ? & _ & _ & _ & _ & _ & ? & _).
  by exists p, rng'.
Qed.

(** The personal background of a sampled profile keeps two or three of
    the four facts drawn, each a value of its pool; the work role is a
    value of its pool whether it is kept or dropped. *)
Theorem personal_background_keeps_two_or_three (order : SetOrder)
  (json_loads : string → option json) (writer_reply : option string)
  (rng : Random) :
  ∃ p rng' work_role,
    sample_patient_profile order json_loads writer_reply no_overrides rng
    = Ok (p, rng')
    ∧ work_role ∈ WORK_ROLE_POOL
    ∧ (size (PERSONAL_BACKGROUND (personality p)) = 2%nat
       ∨ size (PERSONAL_BACKGROUND (personality p)) = 3%nat)
    ∧ (∀ k x, PERSONAL_BACKGROUND (personality p) !! k = Some x →
              (k = "living_situation" ∧ x ∈ LIVING_SITUATION_POOL)
              ∨ (k = "work_role" ∧ x = work_role)
              ∨ (k = "routine_stability" ∧ x ∈ ROUTINE_STABILITY_POOL)
              ∨ (k = "support_level" ∧ x ∈ SUPPORT_LEVEL_POOL)).
Proof.
  destruct (sample_patient_profile_default order json_loads writer_reply rng)
    as (p & rng' & Hrun & Hp & _).
  destruct Hp as (_ & _ & _ & _ & _ & _ & _ & (work_role & ? & ? & ?) & _).
  by exists p, rng', work_role.
Qed.

(** The voice style of a sampled profile has the four dimensions of
    [VOICE_STYLE_OPTIONS] and the humor level, each with one of its
    options, and no other key; so the disclosure state with which the
    session starts is read from a trust and a verbosity that were drawn. *)
Theorem sampled_voice_style_is_complete (order : SetOrder)
  (json_loads : string → option json) (writer_reply : option string)
  (rng : Random) :
  ∃ p rng',
    sample_patient_profile order json_loads writer_reply no_overrides rng
    = Ok (p, rng')
    ∧ (∀ dim options, (dim, options) ∈ VOICE_STYLE_OPTIONS →
                      ∃ x, VOICE_STYLE (personality p) !! dim = Some x
                           ∧ x ∈ options)
    ∧ (∃ h, VOICE_STYLE (personality p) !! "humor" = Some h
            ∧ h ∈ PATIENT_HUMOR_LEVELS)
    ∧ (∀ dim, is_Some (VOICE_STYLE (personality p) !! dim) →
              dim ∈ ["verbosity"; "expressiveness"; "trust"; "intellect";
                     "humor"])
    ∧ init_disclosure_state (VOICE_STYLE (personality p))
      ∈ ["MINIMIZE"; "PARTIAL"; "OPEN"].
Proof.
  destruct (sample_patient_profile_default order json_loads writer_reply rng)
    as (p & rng' & Hrun & Hp & _).
  destruct Hp as (_ & _ & _ & _ & _ & _ & (? & ? & ?) & _).
  exists p, rng'. split; [done|]. split; [done|]. split; [done|].
  split; [done|]. unfold init_disclosure_state.
  destruct (_ || _); [by repeat constructor|].
  destruct (_ && _); by repeat constructor.
Qed.

(** ** Overrides that the registry and the intensities do not cover *)

(** A forced template id that is not in the registry: the sampler raises
    [KeyError], as the subscription [BIG5_DEP_TEMPLATES[template_id]] does. *)
Theorem unknown_forced_template_raises (order : SetOrder)
  (json_loads : string → option json) (writer_reply : option string)
  (forced : Forced) (template_id : string) (rng : Random) :
  forced_template_id forced = Some template_id →
  template_id ∉ (BIG5_DEP_TEMPLATES.*1) →
  sample_patient_profile order json_loads writer_reply forced rng
  = Raise KeyError.
Proof.
  intros Hforced Hnot.
  unfold sample_patient_profile, sample_profile_fields, sample_template_id.
  unrand. rewrite Hforced. cbn beta iota. unfold lookup_template.
  destruct (list_find (fun kv : string * Template => kv.1 = template_id)
              BIG5_DEP_TEMPLATES) as [[i [k t]]|] eqn:Hfind; [|done].
  apply list_find_Some in Hfind as (Hi & Hk & _). simpl in Hk. subst k.
  exfalso. apply Hnot. apply list_elem_of_fmap. exists (template_id, t).
  split; [done|]. by eapply list_elem_of_lookup_2.
Qed.

Lemma unknown_forced_template_raises_witness :
  forced_template_id (forced_template "NEUROTICISM_LOW") = Some "NEUROTICISM_LOW"
  ∧ ("NEUROTICISM_LOW" ∉ BIG5_DEP_TEMPLATES.*1)
  ∧ sample_patient_profile first_occurrence_order braces_json None
      (forced_template "NEUROTICISM_LOW") zero_tape
    = Raise KeyError.
Proof.
  assert ("NEUROTICISM_LOW" ∉ (BIG5_DEP_TEMPLATES.*1)) as Hnot.
  { apply (bool_decide_unpack _). by vm_compute. }
  split; [reflexivity|]. split; [exact Hnot|].
  exact (unknown_forced_template_raises first_occurrence_order braces_json None
           (forced_template "NEUROTICISM_LOW") "NEUROTICISM_LOW" zero_tape
           eq_refl Hnot).
Defined.

Lemma for_each_raises {A} (l : list A)
  (f : gmap string string → A → Rand (gmap string string)) (e : exn)
  (p : gmap string string) (r : Random) (bad : A) :
  (∀ a p r, (∃ p' r', f p a r = Ok (p', r')) ∨ f p a r = Raise e) →
  bad ∈ l →
  (∀ p r, f p bad r = Raise e) →
  for_each l f p r = Raise e.
Proof.
  intros Hstep Hin Hbad. revert p r.
  induction l as [|a l IH]; intros p r; [by apply elem_of_nil in Hin|].
  simpl. unrand. apply elem_of_cons in Hin as [<-|Hin]; [by rewrite Hbad|].
  destruct (Hstep a p r) as [(p' & r' & ->)| ->]; [|done]. by apply IH.
Qed.

(** Under a standard density, an emphasized DSM symptom without an entry
    in [emph_intensity] makes the generation raise [KeyError]. *)
Theorem missing_intensity_raises (order : SetOrder) (template : Template)
  (episode_density : string) (emph_intensity : gmap string string)
  (extra_high : list string) (rng : Random) (symptom : string) :
  episode_density ≠ "ULTRA_LOW" →
  symptom ∈ DSM5_DEPRESSION_SYMPTOMS →
  symptom ∈ emphasized_symptoms template →
  emph_intensity !! symptom = None →
  generate_depression_profile order template episode_density emph_intensity
    extra_high rng = Raise KeyError.
Proof.
  intros Hd Hdsm Hemph Hnone. unfold generate_depression_profile.
  apply String.eqb_neq in Hd. rewrite Hd. unfold standard_assign.
  set (weights := if String.eqb episode_density "LOW" then _ else _).
  assert (length weights = 3%nat ∧ Forall (fun w => (0 < w)%Q) weights)
    as [Hlen Hpos].
  { unfold weights. destruct (String.eqb episode_density "LOW");
      [|destruct (String.eqb episode_density "HIGH")];
      (split; [done|by repeat constructor]). }
  apply (for_each_raises _ _ _ _ _ symptom); [|done|].
  - intros s p r.
    destruct (decide (s ∈ emphasized_symptoms template
                      → is_Some (emph_intensity !! s))) as [Hcov|Hcov].
    + left.
      destruct (standard_assign_one_spec template weights emph_intensity
                  extra_high p s r Hlen Hpos Hcov) as (v & -> & _).
      by eexists _, _.
    + right. unfold standard_assign_one.
      destruct (str_in s (emphasized_symptoms template)) eqn:Hin.
      * destruct (emph_intensity !! s) eqn:Hs; [|done].
        exfalso. apply Hcov. intros _. by eexists.
      * exfalso. apply Hcov. intros Hs. apply str_in_spec in Hs. congruence.
  - intros p r. unfold standard_assign_one.
    apply str_in_spec in Hemph. by rewrite Hemph, Hnone.
Qed.

Lemma missing_intensity_raises_witness :
  "MED" ≠ "ULTRA_LOW"
  ∧ "Depressed mood" ∈ DSM5_DEPRESSION_SYMPTOMS
  ∧ "Depressed mood" ∈ emphasized_symptoms neuroticism_high
  ∧ (∅ : gmap string string) !! "Depressed mood" = None
  ∧ generate_depression_profile first_occurrence_order neuroticism_high "MED"
      ∅ [] zero_tape = Raise KeyError.
Proof.
  assert ("MED" ≠ "ULTRA_LOW") as Hd by done.
  assert ("Depressed mood" ∈ DSM5_DEPRESSION_SYMPTOMS) as Hdsm
    by (apply elem_of_cons; by left).
  assert ("Depressed mood" ∈ emphasized_symptoms neuroticism_high) as Hemph
    by (apply elem_of_cons; by left).
  split; [exact Hd|]. split; [exact Hdsm|]. split; [exact Hemph|].
  split; [reflexivity|].
  exact (missing_intensity_raises first_occurrence_order neuroticism_high "MED"
           ∅ [] zero_tape "Depressed mood" Hd Hdsm Hemph eq_refl).
Defined.

(** ** Severity of an ULTRA_LOW profile *)

Lemma ultra_low_assign_frame (template : Template)
  (emph_intensity : gmap string string) (selected : list string)
  (p0 p : gmap string string) (r r' : Random) :
  for_each selected (ultra_low_assign_one template emph_intensity) p0 r
  = Ok (p, r') →
  ∀ s, s ∉ selected → p !! s = p0 !! s.
Proof.
  revert p0 r. induction selected as [|x rest IH]; intros p0 r; simpl.
  - unrand. by intros [= <- <-].
  - unrand.
    destruct (ultra_low_assign_one template emph_intensity p0 x r)
      as [[p1 r1]|] eqn:Hone; [|done].
    intros Hrest s Hs. apply not_elem_of_cons in Hs as [Hne Hs].
    rewrite (IH _ _ Hrest s Hs).
    assert (∃ v, p1 = <[x := v]> p0) as [v ->].
    { revert Hone. unfold ultra_low_assign_one. unrand.
      destruct (str_in x _).
      - destruct (emph_intensity !! x); [|done].
        destruct (emphasized_frequency _ r) as [[v ?]|]; [|done].
        intros [= <- _]. by exists v.
      - destruct (choices _ _ r) as [[v ?]|]; [|done].
        intros [= <- _]. by exists v. }
    by rewrite lookup_insert_ne.
Qed.

(** The entries that count as significant are entries that are not NONE. *)
Lemma significant_count_le (l : list (string * string)) :
  (length (filter (fun v => v = "SOME") l.*2)
   + length (filter (fun v => v = "OFTEN") l.*2)
   ≤ length (filter (fun kv : string * string => kv.2 ≠ "NONE") l))%nat.
Proof.
  induction l as [|[k v] l IH]; [done|].
  rewrite fmap_cons, !filter_cons. simpl snd.
  destruct (decide (v = "SOME")) as [Hs|Hs];
    destruct (decide (v = "OFTEN")) as [Ho|Ho];
    destruct (decide (v ≠ "NONE")) as [Hn|Hn]; simpl; try lia;
    subst; try done; exfalso; by apply Hn.
Qed.

Lemma filter_keys_NoDup (P : string * string → Prop) `{!∀ kv, Decision (P kv)}
  (l : list (string * string)) :
  NoDup l.*1 → NoDup (filter P l).*1.
Proof.
  intros Hnd. eapply sublist_NoDup; try exact Hnd.
  apply fmap_sublist, sublist_filter.
Qed.

(** An ULTRA_LOW profile has at most two symptoms that are not NONE, so
    its severity is minimal or mild, never moderate or severe: the severity
    does not boost the trauma facets of such a profile. *)
Theorem ultra_low_profile_is_mild (order : SetOrder) (template : Template)
  (emph_intensity : gmap string string) (extra_high : list string)
  (rng rng' : Random) (p : gmap string string) :
  generate_depression_profile order template "ULTRA_LOW" emph_intensity
    extra_high rng = Ok (p, rng') →
  (compute_symptom_severity p = "minimal" ∨ compute_symptom_severity p = "mild")
  ∧ str_in (compute_symptom_severity p) ["moderate"; "severe"] = false.
Proof.
  unfold generate_depression_profile. rewrite String.eqb_refl. unrand.
  destruct (ultra_low_selection_spec order template rng)
    as (selected & r1 & -> & Hlen & _).
  unfold ultra_low_assign. intros Hassign.
  pose proof (ultra_low_assign_frame _ _ _ _ _ _ _ Hassign) as Hframe.
  set (significant := filter (fun kv : string * string => kv.2 ≠ "NONE")
                        (map_to_list p)).
  assert (length significant ≤ 2)%nat as Hsig.
  { rewrite <- (length_fmap fst). etrans; [|exact Hlen].
    apply submseteq_length, NoDup_submseteq.
    - apply filter_keys_NoDup, NoDup_fst_map_to_list.
    - intros k ([k' v] & -> & Hkv)%list_elem_of_fmap.
      apply list_elem_of_filter in Hkv as [Hv Hkv]. simpl in *.
      apply elem_of_map_to_list in Hkv.
      destruct (decide (k' ∈ selected)) as [?|Hout]; [done|].
      rewrite (Hframe _ Hout), all_none_lookup in Hkv.
      destruct (decide (k' ∈ DSM5_DEPRESSION_SYMPTOMS)); [|done].
      by injection Hkv as <-. }
  pose proof (significant_count_le (map_to_list p)) as Hcount.
  fold significant in Hcount.
  assert (compute_symptom_severity p = "minimal"
          ∨ compute_symptom_severity p = "mild") as Hsev.
  { unfold compute_symptom_severity. cbv zeta.
    destruct (Nat.eqb_spec
                (length (filter (fun v => v = "SOME") (map_to_list p).*2)
                 + length (filter (fun v => v = "OFTEN") (map_to_list p).*2)) 0);
      [by left|].
    destruct (Nat.leb_spec
                (length (filter (fun v => v = "SOME") (map_to_list p).*2)
                 + length (filter (fun v => v = "OFTEN") (map_to_list p).*2)) 2);
      [by right|lia]. }
  split; [done|]. by destruct Hsev as [-> | ->].
Qed.

Lemma ultra_low_profile_is_mild_witness :
  ∃ p rng',
    generate_depression_profile first_occurrence_order neuroticism_high
      "ULTRA_LOW" medium_intensity [] zero_tape = Ok (p, rng')
    ∧ (compute_symptom_severity p = "minimal"
       ∨ compute_symptom_severity p = "mild").
Proof.
  destruct (generate_depression_profile_total first_occurrence_order
              neuroticism_high "ULTRA_LOW" medium_intensity [] zero_tape)
    as (p & rng' & Hrun & _).
  { intros s Hs. simpl in Hs.
    repeat (apply elem_of_cons in Hs as [->|Hs]); [by eexists..|].
    by apply elem_of_nil in Hs. }
  exists p, rng'. split; [exact Hrun|].
  exact (proj1 (ultra_low_profile_is_mild _ _ _ _ _ _ _ Hrun)).
Defined.

(** * The background writer and the doctor's microstyle *)

(** The call of the background writer returns whatever the agent does:
    the facets are selected before the agent is called and never raise, and
    every failure of the agent or of the parser is caught and leaves the
    background empty.  The generator is left in a state that does not depend
    on the reply. *)
Theorem background_writer_call_never_raises
  (json_loads : string → option json) (writer_reply : option string)
  (depression_profile : gmap string string) (context_domains : list string)
  (rng : Random) :
  ∃ background trace rng',
    call_background_writer json_loads writer_reply depression_profile
      context_domains rng = Ok ((background, trace), rng')
    ∧ trace_agent trace = "background_writer"
    ∧ (writer_reply = None → background = None)
    ∧ (∀ output, writer_reply = Some output →
                 match parse_background_writer_output json_loads output with
                 | Ok b => background = b ∧ trace_output trace = output
                 | Raise _ => background = None
                 end)
    ∧ (∀ reply', ∃ background' trace',
         call_background_writer json_loads reply' depression_profile
           context_domains rng = Ok ((background', trace'), rng')).
Proof.
  pose proof (call_background_writer_outcome json_loads) as Hcall.
  destruct (required_facets_loop_spec rng context_domains depression_profile
              (compute_symptom_severity depression_profile))
    as (st & rng' & _ & Hsel & _).
  assert (∀ reply, call_background_writer json_loads reply depression_profile
                     context_domains rng
                   = Ok (writer_outcome json_loads reply, rng')) as Hrun.
  { intros reply. rewrite Hcall. unrand. by rewrite Hsel. }
  exists (writer_outcome json_loads writer_reply).1,
         (writer_outcome json_loads writer_reply).2, rng'.
  split; [by rewrite Hrun; destruct (writer_outcome _ _)|].
  split.
  { unfold writer_outcome. destruct writer_reply as [output|]; [|done].
    by destruct (parse_background_writer_output _ _). }
  split; [by intros ->|]. split.
  - intros output ->. unfold writer_outcome.
    by destruct (parse_background_writer_output _ _).
  - intros reply'. rewrite Hrun. destruct (writer_outcome _ reply'). by eexists _, _.
Qed.

(** The facet that line 292 builds from an object of [life_facets]. *)
Definition facet_of (fields : list (string * json)) : LifeFacet :=
  mkLifeFacet (dict_get "category" fields (JStr EmptyString))
    (dict_get "salience" fields (JStr "med"))
    (dict_get "description" fields (JStr EmptyString)).

Lemma parse_life_facets_objects (objects : list (list (string * json))) :
  parse_life_facets (map JObj objects) = Ok (map facet_of objects).
Proof.
  induction objects as [|fields objects IH]; [done|].
  simpl. unbind. by rewrite IH.
Qed.

(** What the parser of the background writer makes of a reply that decodes
    to an object: a list of facet objects is taken facet by facet, a missing
    key gets its default; a [life_facets] that cannot be iterated gives no
    background; a facet that is no object raises [AttributeError], which the
    [except] clause of the parser does not catch. *)
Theorem background_writer_facets_parsed
  (json_loads : string → option json) (output : string)
  (fields : list (string * json)) :
  json_loads (strip_code_fences output) = Some (JObj fields) →
  (∀ objects,
     dict_get "life_facets" fields (JArr []) = JArr (map JObj objects) →
     ∃ background,
       parse_background_writer_output json_loads output = Ok (Some background)
       ∧ life_facets background = map facet_of objects
       ∧ name background = dict_get "name" fields (JStr "Patient")
       ∧ age_range background = dict_get "age_range" fields (JStr "adult")
       ∧ pronouns background = dict_get "pronouns" fields (JStr "they/them"))
  ∧ (∀ v, dict_get "life_facets" fields (JArr []) = v →
          v = JNull ∨ (∃ b, v = JBool b) ∨ (∃ q, v = JNum q) →
          parse_background_writer_output json_loads output = Ok None)
  ∧ (∀ objects item rest,
       dict_get "life_facets" fields (JArr [])
       = JArr (map JObj objects ++ item :: rest) →
       (∀ f, item ≠ JObj f) →
       parse_background_writer_output json_loads output = Raise AttributeError).
Proof.
  intros Hloads. unfold parse_background_writer_output. rewrite Hloads.
  unbind. simpl get. split; [|split].
  - intros objects ->. cbn [iterate]. rewrite parse_life_facets_objects.
    by eexists.
  - intros v -> [->|[[b ->]|[q ->]]]; done.
  - intros objects item rest -> Hitem. cbn [iterate].
    assert (parse_life_facets (map JObj objects ++ item :: rest)
            = Raise AttributeError) as ->; [|done].
    induction objects as [|f objects IH]; simpl; unbind.
    + destruct item; try done. by destruct (Hitem fields0).
    + by rewrite IH.
Qed.

Lemma background_writer_facets_parsed_witness :
  braces_json (strip_code_fences "{}") = Some (JObj [])
  ∧ ∃ background,
      parse_background_writer_output braces_json "{}" = Ok (Some background)
      ∧ life_facets background = []
      ∧ name background = JStr "Patient".
Proof.
  assert (braces_json (strip_code_fences "{}") = Some (JObj [])) as Hloads
    by reflexivity.
  split; [exact Hloads|].
  destruct (proj1 (background_writer_facets_parsed braces_json "{}" [] Hloads)
              [] eq_refl) as (background & Hrun & Hfacets & Hname & _).
  exists background. split; [exact Hrun|]. split; [exact Hfacets|exact Hname].
Defined.

(** ** The doctor's microstyle *)

Lemma microstyle_options_spec (slider : string) (options : list string)
  (r : Random) :
  (slider, options) ∈ MICROSTYLE_OPTIONS →
  microstyle_options slider r = Ok (options, r).
Proof.
  intros H. unfold MICROSTYLE_OPTIONS in H.
  repeat (apply elem_of_cons in H as [[= -> ->]|H]);
    [by vm_compute..|by apply elem_of_nil in H].
Qed.

(** The microstyle of a session has the five sliders, each at one of its
    options; so the planner finds its pacing in [PACING_TARGETS] and allows
    20, 24, 29 or 33 doctor turns. *)
Theorem doctor_microstyle_sampled (r : Random) :
  ∃ m r',
    sample_doctor_microstyle r = Ok (m, r')
    ∧ (∀ slider options, (slider, options) ∈ MICROSTYLE_OPTIONS →
                         ∃ x, m !! slider = Some x ∧ x ∈ options)
    ∧ size m = 5%nat
    ∧ microstyle_pacing m ∈ PACING_TARGETS.*1
    ∧ ∀ doctor_persona_id,
        Planner.max_doctor_turns (microstyle_pacing m) doctor_persona_id
        ∈ [20; 24; 29; 33].
Proof.
  unfold sample_doctor_microstyle. unrand.
  rewrite (microstyle_options_spec "warmth" _ r ltac:(by repeat constructor)).
  destruct (choice_spec ["low"; "med"; "high"] r) as (warmth & -> & Hw); [done|].
  rewrite (microstyle_options_spec "directness" _ _ ltac:(by repeat constructor)).
  destruct (choice_spec ["low"; "med"; "high"] (advance r))
    as (directness & -> & Hd); [done|].
  rewrite (microstyle_options_spec "pacing" _ _ ltac:(by repeat constructor)).
  destruct (choice_spec ["slow"; "med"; "brisk"] (advance (advance r)))
    as (pacing & -> & Hp); [done|].
  rewrite (microstyle_options_spec "humor" _ _ ltac:(by repeat constructor)).
  destruct (choices_spec ["none"; "light"; "dry"] [6 # 1; 3 # 1; 1 # 1]%Q
              (advance (advance (advance r))))
    as (humor & -> & Hh); [done|done|by repeat constructor|].
  rewrite (microstyle_options_spec "animation" _ _ ltac:(by repeat constructor)).
  destruct (choices_spec ["reserved"; "moderate"; "animated"]
              [4 # 1; 4 # 1; 2 # 1]%Q
              (advance (advance (advance (advance r)))))
    as (animation & -> & Ha); [done|done|by repeat constructor|].
  eexists _, _. split; [done|]. split; [|split; [|split]].
  - intros slider options Hs. unfold MICROSTYLE_OPTIONS in Hs.
    repeat (apply elem_of_cons in Hs as [[= -> ->]|Hs]);
      [by eexists..|by apply elem_of_nil in Hs].
  - rewrite !map_size_insert_None; [done|done..].
  - unfold microstyle_pacing.
    rewrite lookup_insert_ne, lookup_insert_ne, lookup_insert_eq by done.
    simpl. repeat (apply elem_of_cons in Hp as [->|Hp]);
      [apply (bool_decide_unpack _); by vm_compute..|by apply elem_of_nil in Hp].
  - intros persona. unfold microstyle_pacing.
    rewrite lookup_insert_ne, lookup_insert_ne, lookup_insert_eq by done.
    simpl default.
    unfold Planner.max_doctor_turns, Planner.base_turn_budget,
      Planner.target_turns_per_symptom.
    destruct (str_in persona EXTENDED_PACING_PERSONAS);
      repeat (apply elem_of_cons in Hp as [->|Hp]);
      try (by apply elem_of_nil in Hp);
      apply (bool_decide_unpack _); by vm_compute.
Qed.

(** ** The risk summary *)

(** Under a standard density, a patient whose template emphasizes the
    thoughts of death or suicide is never summarised to the doctor manager
    as low risk or as without immediate risk. *)
Theorem emphasized_suicidality_is_flagged
  (order : SetOrder) (template : Template) (episode_density : string)
  (emph_intensity : gmap string string) (extra_high : list string)
  (rng : Random) :
  episode_density ≠ "ULTRA_LOW" →
  (∀ s, s ∈ emphasized_symptoms template → is_Some (emph_intensity !! s)) →
  "Recurrent thoughts of death or suicide" ∈ emphasized_symptoms template →
  ∃ p rng',
    generate_depression_profile order template episode_density emph_intensity
      extra_high rng = Ok (p, rng')
    ∧ (risk_summary p = "high risk: recent suicidal thoughts"
       ∨ risk_summary p = "moderate depression, monitor closely").
Proof.
  intros Hd Hcov Hemph. unfold generate_depression_profile.
  apply String.eqb_neq in Hd. rewrite Hd.
  destruct (standard_assign_spec template episode_density emph_intensity
              extra_high rng Hcov) as (p & rng' & -> & _ & Hin).
  exists p, rng'. split; [done|].
  destruct (Hin "Recurrent thoughts of death or suicide") as (v & Hv & Hclass).
  { apply (bool_decide_unpack _). by vm_compute. }
  unfold frequency_class in Hclass. apply str_in_spec in Hemph.
  rewrite Hemph in Hclass. unfold risk_summary. rewrite Hv. simpl default.
  apply elem_of_cons in Hclass as [->|Hclass].
  { right. change (str_in "RARE" ["SOME"; "OFTEN"]) with false. cbv iota.
    by rewrite String.eqb_refl, orb_true_r. }
  apply elem_of_cons in Hclass as [->|Hclass]; [left; reflexivity|].
  apply elem_of_cons in Hclass as [->|Hclass]; [left; reflexivity|].
  by apply elem_of_nil in Hclass.
Qed.

Lemma emphasized_suicidality_is_flagged_witness :
  "HIGH" ≠ "ULTRA_LOW"
  ∧ ∃ template emph_intensity p rng',
      (∀ s, s ∈ emphasized_symptoms template → is_Some (emph_intensity !! s))
      ∧ "Recurrent thoughts of death or suicide" ∈ emphasized_symptoms template
      ∧ generate_depression_profile first_occurrence_order template "HIGH"
          emph_intensity [] zero_tape = Ok (p, rng')
      ∧ (risk_summary p = "high risk: recent suicidal thoughts"
         ∨ risk_summary p = "moderate depression, monitor closely").
Proof.
  assert ("HIGH" ≠ "ULTRA_LOW") as Hd by done.
  split; [exact Hd|].
  set (template := mkTemplate "" "" ""
                     ["Recurrent thoughts of death or suicide"] "" []).
  set (emph_intensity :=
         <["Recurrent thoughts of death or suicide" := "LOW"]>
           (∅ : gmap string string)).
  assert (∀ s, s ∈ emphasized_symptoms template →
               is_Some (emph_intensity !! s)) as Hcov.
  { intros s Hs. apply list_elem_of_singleton in Hs as ->. by eexists. }
  assert ("Recurrent thoughts of death or suicide"
          ∈ emphasized_symptoms template) as Hemph
    by (apply elem_of_cons; by left).
  destruct (emphasized_suicidality_is_flagged first_occurrence_order template
              "HIGH" emph_intensity [] zero_tape Hd Hcov Hemph)
    as (p & rng' & Hrun & Hrisk).
  exists template, emph_intensity, p, rng'.
  split; [exact Hcov|]. split; [exact Hemph|]. split; [exact Hrun|exact Hrisk].
Defined.
